(** * Tiered routing, retry and budget core of ai-agent-ecosystem

    A shallow embedding of the routing / retry / budget code of the
    repository and the properties its specification states about it.

    Embedded sources:
    - [src/utils/api-retry.js]              ([isRetryableError], [withRetry],
                                             [FALLBACK_CHAIN])    -> [ApiRetry]
    - [src/core/model-router.js]            (class ModelRouter)   -> [ModelRouter]
    - the LightweightRouter class           (class LightweightRouter)
                                                                  -> [LightweightRouter]
    - [src/optimization/lightweight-monitor.js] (class LightweightMonitor)
                                                                  -> [LightweightMonitor]
    - [src/optimization/cost-optimizer.js]  (class CostOptimizer) -> [CostOptimizer]
    - the cost-aware [selectOptimalModel] and [estimateCostSavings] of
      [src/core/model-router.js]                                  -> [OptimizedRouter]
    - the dashboard step of the monitor's [triggerAlert]          -> [Dashboard]
    - the four model handlers that call [withRetry]
      (Claude Opus, Claude Sonnet, GLM, DeepSeek)                 -> [Handlers]
    - [src/models/deepseek-handler.js]      ([chunkData])         -> [DeepSeekHandler]
    - [src/lightweight-index.js]            ([processMessage],
                                             [quickEmotionAnalysis])
                                                                  -> [LightweightAgent]

    Modelling conventions.
    - JavaScript numbers that carry money or scores are IEEE-754 binary64
      values: they are Rocq's primitive [float], whose [+], [/], [*], [<=?]
      are the same operations.  Counters, token counts, attempt indices and
      millisecond delays are integers in the source and are [Z] here.
    - JavaScript strings are kept as UTF-8 [string]s; [JS.length] counts
      UTF-16 code units as [String.prototype.length] does, and
      [JS.includes] is substring search.
    - Object literals used as lookup tables are [gmap string _]; a lookup
      with a key that comes from outside goes through [JS.get], which
      also finds the members of [Object.prototype].
    - Code that throws returns a sum; what a promise rejects with is an
      error object, [undefined] or [null]; code that mutates [this] or
      [global] passes the state explicitly; asynchronous callbacks queued
      with [setImmediate] sit in an explicit queue, and so do the runs of
      an async function that are suspended at an [await]. *)

From Stdlib Require Import ZArith List String Ascii Bool Lia Floats DecimalString.
From stdpp Require Import base strings gmap list.
Import ListNotations.
Set Warnings "-inexact-float".

Local Open Scope string_scope.
Local Open Scope list_scope.
Local Open Scope Z_scope.

(* ===================================================================== *)
(** ** JavaScript values and strings                                      *)
(* ===================================================================== *)

Module JS.

(** The values an error field can hold in the code under study. *)
Inductive value : Type :=
| Undefined
| Null
| Num (n : Z)
| Str (s : string).

(** [a === b]. *)
Definition strictEq (a b : value) : bool :=
  match a, b with
  | Undefined, Undefined => true
  | Null, Null => true
  | Num x, Num y => Z.eqb x y
  | Str x, Str y => String.eqb x y
  | _, _ => false
  end.

(** ToBoolean. *)
Definition truthy (v : value) : bool :=
  match v with
  | Undefined | Null => false
  | Num n => negb (Z.eqb n 0)
  | Str s => negb (String.eqb s "")
  end.

(** [arr.includes(v)] (SameValueZero, which is [===] on these values). *)
Definition arrayIncludes (arr : list value) (v : value) : bool :=
  existsb (fun x => strictEq x v) arr.

(** Number of UTF-16 code units a UTF-8 byte contributes: a byte that
    starts a one-, two- or three-byte sequence is one unit, a byte that
    starts a four-byte sequence is a surrogate pair, a continuation byte
    is none. *)
Definition utf16Units (c : ascii) : nat :=
  let n := nat_of_ascii c in
  if (n <? 128)%nat then 1%nat
  else if (n <? 192)%nat then 0%nat
  else if (n <? 240)%nat then 1%nat
  else 2%nat.

(** [s.length]. *)
Fixpoint length (s : string) : nat :=
  match s with
  | EmptyString => 0%nat
  | String c s' => (utf16Units c + length s')%nat
  end.

(** [s.includes(needle)]. *)
Fixpoint includes (s needle : string) : bool :=
  String.prefix needle s ||
  match s with
  | EmptyString => false
  | String _ s' => includes s' needle
  end.

(** [/a|b|c/.test(s)] for a regular expression that is an alternation of
    literals, which is what every pattern of the routers is. *)
Definition testAlternation (alternatives : list string) (s : string) : bool :=
  existsb (includes s) alternatives.

(** [c.repeat(n)]. *)
Fixpoint repeat (c : ascii) (n : nat) : string :=
  match n with
  | O => EmptyString
  | S n' => String c (repeat c n')
  end.

(** [x || d] on an optional string ([undefined], [null] and [''] are falsy). *)
Definition orDefault (x : option string) (d : string) : string :=
  match x with
  | Some s => if String.eqb s "" then d else s
  | None => d
  end.

(** A number of the source that is an integer, as a binary64 value
    (exact below 2^53). *)
Definition ofZ (n : Z) : float := PrimFloat.of_uint63 (Uint63.of_Z n).

(** [Math.min(a, b)]. *)
Definition mathMin (a b : float) : float :=
  if PrimFloat.is_nan a then a
  else if PrimFloat.is_nan b then b
  else if PrimFloat.ltb b a then b else a.

(** SameValueZero on numbers, the equality of [Set.prototype.has]. *)
Definition sameValueZero (a b : float) : bool :=
  PrimFloat.eqb a b || (PrimFloat.is_nan a && PrimFloat.is_nan b).

(** The index arithmetic of [Array.prototype.slice] and
    [String.prototype.slice]: a negative index counts from the end, and
    every index is clamped to [0 .. len]. *)
Definition sliceIndex (len i : Z) : Z :=
  if i <? 0 then Z.max (len + i) 0 else Z.min i len.

(** [l.slice(start, end)] on an array, or on a string given as the list
    of its UTF-16 code units. *)
Definition slice {A : Type} (l : list A) (start end_ : Z) : list A :=
  let len := Z.of_nat (List.length l) in
  let from := sliceIndex len start in
  let to := sliceIndex len end_ in
  firstn (Z.to_nat (to - from)) (skipn (Z.to_nat from) l).

(** [l.slice(start)]: the end defaults to the length. *)
Definition sliceFrom {A : Type} (l : list A) (start : Z) : list A :=
  slice l start (Z.of_nat (List.length l)).

(** [Math.floor(x)] of a finite number, as the integer it is. *)
Definition floor (x : float) : Z :=
  match Prim2SF x with
  | S754_finite s m e =>
      let sm := if s then Z.neg m else Z.pos m in
      if 0 <=? e then sm * 2 ^ e else sm / 2 ^ (- e)
  | _ => 0
  end.

(** [String(n)] of a non-negative integer. *)
Definition ofNat (n : nat) : string := NilEmpty.string_of_uint (Nat.to_uint n).

(** The property names that every object literal inherits from
    [Object.prototype]. *)
Definition objectPrototypeKeys : list string :=
  [ "constructor"; "__proto__"; "hasOwnProperty"; "isPrototypeOf";
    "propertyIsEnumerable"; "toLocaleString"; "toString"; "valueOf";
    "__defineGetter__"; "__defineSetter__"; "__lookupGetter__"; "__lookupSetter__" ].

(** [table[key]] on an object literal used as a lookup table: the value
    of an own property, a member of [Object.prototype] when [key] names
    one and the table has no such property of its own, or [undefined]. *)
Inductive property (V : Type) : Type :=
| Own (v : V)
| Inherited
| Absent.

Arguments Own {V} v.
Arguments Inherited {V}.
Arguments Absent {V}.

Definition get {V : Type} (table : gmap string V) (key : string) : property V :=
  match table !! key with
  | Some v => Own v
  | None => if existsb (String.eqb key) objectPrototypeKeys then Inherited else Absent
  end.

(** What a lookup in a table of strings hands on: a string, or the member
    of [Object.prototype] that the key names (a function, or
    [Object.prototype] itself for [__proto__]; truthy in either case). *)
Inductive entry : Type :=
| Text (s : string)
| Member (key : string).

End JS.

(* ===================================================================== *)
(** ** src/utils/api-retry.js                                             *)
(* ===================================================================== *)

Module ApiRetry.

(** The fields of a thrown error that the retry code reads:
    [error.status], [error.type], [error.response?.status] (no
    [response] object at all is [None]), [error.code]; [error.message]
    is what the callers log. *)
Record JsError : Type := mkJsError {
  err_message : string;
  err_status : JS.value;
  err_type : JS.value;
  err_response : option JS.value;
  err_code : JS.value
}.

(** [error.response?.status]. *)
Definition responseStatus (error : JsError) : JS.value :=
  match err_response error with
  | None => JS.Undefined
  | Some st => st
  end.

Definition networkCodes : list JS.value :=
  [JS.Str "ECONNRESET"; JS.Str "ETIMEDOUT"; JS.Str "ECONNREFUSED"; JS.Str "ENOTFOUND"].

(** What a promise is rejected with, or a [throw] throws: a value whose
    properties can be read (an error object; a thrown primitive reads as
    one with every field [undefined]), or [undefined] or [null], on which
    reading a property throws a TypeError. *)
Inductive Rejection : Type :=
| Error (error : JsError)
| RejectedUndefined
| RejectedNull.

(** The TypeError of reading property [prop] of [undefined] or [null]. *)
Definition typeErrorReading (nullish prop : string) : JsError :=
  mkJsError
    ("Cannot read properties of " ++ nullish ++ " (reading '" ++ prop ++ "')")
    JS.Undefined JS.Undefined None JS.Undefined.

(** [isRetryableError(error)]: its answer, or the TypeError that its
    first line, [error.status], throws on [undefined] and [null]. *)
Definition isRetryableError (error : Rejection) : bool + JsError :=
  match error with
  | RejectedUndefined => inr (typeErrorReading "undefined" "status")
  | RejectedNull => inr (typeErrorReading "null" "status")
  | Error error =>
      inl (if JS.strictEq (err_status error) (JS.Num 429)
              || JS.strictEq (err_status error) (JS.Num 529) then true
           else if JS.strictEq (err_type error) (JS.Str "rate_limit_error")
                   || JS.strictEq (err_type error) (JS.Str "overloaded_error") then true
           else if JS.strictEq (responseStatus error) (JS.Num 429)
                   || JS.strictEq (responseStatus error) (JS.Num 503) then true
           else if JS.truthy (err_code error)
                   && JS.arrayIncludes networkCodes (err_code error) then true
           else false)
  end.

(** The second argument of [withRetry]: an options object whose absent
    fields take the defaults of the destructuring pattern
    [{ maxRetries = 3, baseDelayMs = 1000 } = {}]. *)
Record RetryOptions : Type := mkRetryOptions {
  opt_maxRetries : option Z;
  opt_baseDelayMs : option Z
}.

Definition noOptions : RetryOptions :=
  {| opt_maxRetries := None; opt_baseDelayMs := None |}.

Definition maxRetriesOf (o : RetryOptions) : Z := default 3 (opt_maxRetries o).
Definition baseDelayMsOf (o : RetryOptions) : Z := default 1000 (opt_baseDelayMs o).

(** [baseDelayMs * Math.pow(2, attempt - 1)]. *)
Definition delayMs (baseDelayMs attempt : Z) : Z := baseDelayMs * 2 ^ (attempt - 1).

(** What an execution of [withRetry] does that an observer can see:
    it sleeps ([setTimeout] for [ms] milliseconds, awaited) and it calls
    [fn] (attempt number [attempt]). *)
Inductive event : Type :=
| EvSleep (ms : Z)
| EvCall (attempt : Z).

Section WithRetry.
(** [fn] is an effectful thunk: it runs against the outside world [W]
    and either resolves with a value or rejects. *)
Context {W V : Type}.

(** How an awaited call completes: it returns, or it throws an error
    object, [undefined] or [null]. *)
Inductive completion : Type :=
| Returned (v : V)
| Threw (error : JsError)
| ThrewUndefined
| ThrewNull.

(** [throw error]. *)
Definition throw (error : Rejection) : completion :=
  match error with
  | Error e => Threw e
  | RejectedUndefined => ThrewUndefined
  | RejectedNull => ThrewNull
  end.

(** The [for] loop of [withRetry], entered at [attempt] with [fuel]
    iterations left before [attempt <= maxRetries] fails; leaving the
    loop reaches the final [throw lastError], where [None] is the
    [undefined] of the unassigned variable.  A TypeError that
    [isRetryableError] throws inside the [catch] block leaves the
    function. *)
Fixpoint retryLoop (fn : W -> (V + Rejection) * W) (maxRetries baseDelayMs : Z)
    (fuel : nat) (attempt : Z) (lastError : option Rejection) (w : W)
  : completion * W * list event :=
  match fuel with
  | O => (match lastError with Some e => throw e | None => ThrewUndefined end, w, [])
  | S fuel' =>
      let sleep := if 0 <? attempt then [EvSleep (delayMs baseDelayMs attempt)] else [] in
      match fn w with
      | (inl v, w') => (Returned v, w', sleep ++ [EvCall attempt])
      | (inr error, w') =>
          match isRetryableError error with
          | inr typeError => (Threw typeError, w', sleep ++ [EvCall attempt])
          | inl retryable =>
              if negb retryable || (attempt =? maxRetries)
              then (throw error, w', sleep ++ [EvCall attempt])
              else
                let '(c, w'', tr) :=
                  retryLoop fn maxRetries baseDelayMs fuel' (attempt + 1) (Some error) w' in
                (c, w'', sleep ++ EvCall attempt :: tr)
          end
      end
  end.

Definition withRetry (fn : W -> (V + Rejection) * W) (options : RetryOptions) (w : W)
  : completion * W * list event :=
  let maxRetries := maxRetriesOf options in
  let baseDelayMs := baseDelayMsOf options in
  retryLoop fn maxRetries baseDelayMs (Z.to_nat (maxRetries + 1)) 0 None w.

(** The world in which the [n]-th call of [fn] (counted from 0) runs. *)
Fixpoint worldAfter (fn : W -> (V + Rejection) * W) (n : nat) (w : W) : W :=
  match n with
  | O => w
  | S n' => worldAfter fn n' (snd (fn w))
  end.
End WithRetry.

Arguments completion : clear implicits.

(** The handler classes a fallback factory builds. *)
Inductive Handler : Type :=
| ClaudeSonnetHandler
| GLMHandler
| DeepSeekHandler.

(** [FALLBACK_CHAIN]: each key maps to a factory [(apiKey) => new H(apiKey)],
    kept as the class [H] it instantiates, or to [null]. *)
Definition FALLBACK_CHAIN : gmap string (option Handler) :=
  list_to_map
    [ ("claude-opus", Some ClaudeSonnetHandler);
      ("claude-sonnet", Some GLMHandler);
      ("glm", Some DeepSeekHandler);
      ("deepseek", None) ].

End ApiRetry.

(* ===================================================================== *)
(** ** [global.emergencyMode]                                             *)
(* ===================================================================== *)

Module Global.

(** The object the monitor stores in [global.emergencyMode]
    ([activatedAt], a clock reading nobody reads back, is left out). *)
Record EmergencyMode : Type := mkEmergencyMode {
  enabled : bool;
  allowedLevels : list string
}.

(** [global.emergencyMode?.enabled || false]; [None] is [undefined]. *)
Definition emergencyEnabled (g : option EmergencyMode) : bool :=
  match g with
  | Some m => enabled m
  | None => false
  end.

End Global.

(* ===================================================================== *)
(** ** src/core/model-router.js                                           *)
(* ===================================================================== *)

Module ModelRouter.

(** What the router reads from [config/routing-rules.json].  The file is
    not among the sources, so its content is a parameter of every
    function that reads [this.config]. *)
Record LevelConfig : Type := mkLevelConfig {
  lc_score : float;
  lc_indicators : list string
}.

Record Config : Type := mkConfig {
  (** [complexityThresholds], in [Object.entries] order *)
  complexityThresholds : list (string * LevelConfig);
  costOptimization_enabled : bool;
  costOptimization_preferCheapModel : bool;
  emotionalContext_enabled : bool;
  (** [emotionalContext.factors.userMood] *)
  emotionalContext_userMood : gmap string string
}.

(** A value of the [patterns] table of [containsIndicator]. *)
Inductive pattern : Type :=
| RegExp (alternatives : list string)
| Boolean (b : bool).

(** The [patterns] object.  ['短文要約'] is [/.../ && message.length < 200]:
    a regular expression object is truthy, so the entry is the boolean. *)
Definition patterns (message : string) : gmap string pattern :=
  list_to_map
    [ ("抽象的概念", RegExp ["抽象"; "概念"; "哲学"; "思想"; "本質"; "意味"]);
      ("感情分析", RegExp ["感情"; "気持ち"; "心理"; "ストレス"; "疲れ"; "嬉しい"; "悲しい"]);
      ("長文生成", Boolean (500 <? JS.length message)%nat);
      ("価値観判定", RegExp ["価値観"; "信念"; "大切"; "重要"; "意味"; "目的"]);
      ("創造的思考", RegExp ["アイデア"; "クリエイティブ"; "創造"; "発想"; "ブレスト"]);
      ("複雑な推論", RegExp ["分析"; "推論"; "考察"; "検討"; "判断"; "評価"]);
      ("スケジュール調整", RegExp ["予定"; "スケジュール"; "会議"; "打ち合わせ"; "アポ"]);
      ("メール処理", RegExp ["メール"; "連絡"; "返信"; "送信"]);
      ("API操作", RegExp ["API"; "データ"; "取得"; "送信"; "更新"]);
      ("事実抽出", RegExp ["事実"; "情報"; "データ"; "統計"]);
      ("短文要約", Boolean (JS.length message <? 200)%nat);
      ("単純質問", RegExp ["？"; "?"; "教えて"; "何"; "いつ"; "どこ"]) ].

Definition containsIndicator (message indicator : string) : bool :=
  match patterns message !! indicator with
  | Some (Boolean b) => b
  | Some (RegExp alternatives) => JS.testAlternation alternatives message
  | None => false
  end.

Definition getComplexityLevel (score : float) : string :=
  if PrimFloat.leb 10 score then "claude-opus-4.6"
  else if PrimFloat.leb 7 score then "claude-sonnet-4"
  else if PrimFloat.leb 5 score then "glm-4.7"
  else if PrimFloat.leb 3 score then "deepseek-v3"
  else "claude-code".

Record MatchedIndicator : Type := mkMatched {
  mi_level : string;
  mi_indicator : string;
  mi_score : float
}.

Record Analysis : Type := mkAnalysis {
  totalScore : float;
  complexity : string;
  indicators : list MatchedIndicator;
  lengthBonus : float
}.

(** The two nested [for] loops of [analyzeComplexity] over the levels and
    their indicators, threading [score] and [matchedIndicators]. *)
Definition scanLevel (message : string) (acc : float * list MatchedIndicator)
    (entry : string * LevelConfig) : float * list MatchedIndicator :=
  fold_left
    (fun (acc : float * list MatchedIndicator) (indicator : string) =>
       if containsIndicator message indicator
       then (PrimFloat.add (fst acc) (lc_score (snd entry)),
             snd acc ++ [mkMatched (fst entry) indicator (lc_score (snd entry))])
       else acc)
    (lc_indicators (snd entry)) acc.

Definition analyzeComplexity (config : Config) (message : string) : Analysis :=
  let scanned := fold_left (scanLevel message) (complexityThresholds config) (0%float, []) in
  let lengthBonus :=
    JS.mathMin (PrimFloat.div (JS.ofZ (Z.of_nat (JS.length message))) 200) 3 in
  let score := PrimFloat.add (fst scanned) lengthBonus in
  {| totalScore := score;
     complexity := getComplexityLevel score;
     indicators := snd scanned;
     lengthBonus := lengthBonus |}.

Definition detectUserMood (message : string) : string :=
  if JS.testAlternation ["疲れ"; "つかれ"; "眠い"; "だるい"] message then "tired"
  else if JS.testAlternation ["忙しい"; "急い"; "ストレス"; "大変"] message then "stressed"
  else if JS.testAlternation ["楽しい"; "嬉しい"; "やった"; "最高"] message then "excited"
  else if JS.testAlternation ["集中"; "作業"; "仕事"; "タスク"] message then "focused"
  else "neutral".

Record EmotionalContext : Type := mkEmotionalContext {
  timeOfDay : string;
  weekday : string;
  userMood : string;
  recommended : string
}.

(** [analyzeEmotionalContext(message, timestamp)]; [hour] and [day] are
    [timestamp.getHours()] and [timestamp.getDay()]. *)
Definition analyzeEmotionalContext (config : Config) (message : string) (hour day : Z)
  : EmotionalContext :=
  let timeContext :=
    if (6 <=? hour) && (hour <? 12) then "morning"
    else if (12 <=? hour) && (hour <? 18) then "afternoon"
    else if (18 <=? hour) && (hour <? 22) then "evening"
    else "night" in
  let dayContext :=
    if day =? 1 then "monday"
    else if day =? 5 then "friday"
    else if (day =? 0) || (day =? 6) then "weekend"
    else "balanced" in
  let mood := detectUserMood message in
  {| timeOfDay := timeContext;
     weekday := dayContext;
     userMood := mood;
     recommended := JS.orDefault (emotionalContext_userMood config !! mood) "balanced" |}.

Definition adjustForEmotion (model : string) (emotionalContext : EmotionalContext) : string :=
  if String.eqb (timeOfDay emotionalContext) "night"
     || String.eqb (userMood emotionalContext) "tired"
  then (if String.eqb model "deepseek-v3" then "glm-4.7" else model)
  else if String.eqb (userMood emotionalContext) "stressed"
  then "claude-opus"
  else model.

Record Reasoning : Type := mkReasoning {
  r_complexity : Analysis;
  r_emotion : EmotionalContext;
  r_finalChoice : string
}.

Record Selection : Type := mkSelection {
  model : string;
  reasoning : Reasoning
}.

(** [selectOptimalModel(complexity, emotionalContext, costConstraints)],
    the first of the two methods of that name in the class body (the
    logger call is omitted; [costConstraints] is never read). *)
Definition selectOptimalModel (config : Config) (complexity0 : Analysis)
    (emotionalContext : EmotionalContext) : Selection :=
  let selectedModel := complexity complexity0 in
  let selectedModel :=
    if costOptimization_enabled config
       && costOptimization_preferCheapModel config
       && PrimFloat.ltb (totalScore complexity0) 6
    then "deepseek-v3" else selectedModel in
  let selectedModel :=
    if emotionalContext_enabled config
    then adjustForEmotion selectedModel emotionalContext
    else selectedModel in
  {| model := selectedModel;
     reasoning := {| r_complexity := complexity0;
                     r_emotion := emotionalContext;
                     r_finalChoice := selectedModel |} |}.

(** What [new Error(message)] carries: a message and, since no options
    argument is passed anywhere in the class, no [cause]. *)
Record Error : Type := mkError {
  message : string;
  cause : option ApiRetry.JsError
}.

(** The table of the [api_error] branch; [None] is [null]. *)
Definition downgradeMap : gmap string (option string) :=
  list_to_map
    [ ("claude-opus-4.6", Some "claude-sonnet-4");
      ("claude-sonnet-4", Some "glm-4.7");
      ("glm-4.7", Some "deepseek-v3");
      ("deepseek-v3", None);
      ("claude-code", None) ].

Definition escalationMap : gmap string string :=
  list_to_map
    [ ("claude-code", "deepseek-v3");
      ("deepseek-v3", "glm-4.7");
      ("glm-4.7", "claude-sonnet-4");
      ("claude-sonnet-4", "claude-opus-4.6");
      ("claude-opus-4.6", "claude-opus-4.6") ].

(** [escalateModel(currentModel, reason)]: what it returns, or the
    [Error] it throws.  The two tables are object literals, so a
    [currentModel] that names a member of [Object.prototype] finds that
    member, which is truthy, and gets it back. *)
Definition escalateModel (currentModel reason : string) : JS.entry + Error :=
  if String.eqb reason "api_error" then
    match JS.get downgradeMap currentModel with
    | JS.Own (Some newModel) =>
        if String.eqb newModel ""
        then inr (mkError (String.append "No fallback available for " currentModel) None)
        else inl (JS.Text newModel)
    | JS.Own None | JS.Absent =>
        inr (mkError (String.append "No fallback available for " currentModel) None)
    | JS.Inherited => inl (JS.Member currentModel)
    end
  else
    match JS.get escalationMap currentModel with
    | JS.Own newModel =>
        if String.eqb newModel "" then inl (JS.Text "claude-opus-4.6")
        else inl (JS.Text newModel)
    | JS.Inherited => inl (JS.Member currentModel)
    | JS.Absent => inl (JS.Text "claude-opus-4.6")
    end.

(** [getModelLevel(modelName)]: [levelMap[modelName] || 'Unknown'], on an
    object literal again. *)
Definition getModelLevel (modelName : string) : JS.entry :=
  let levelMap : gmap string string :=
    list_to_map
      [ ("claude-code", "L1 (工兵)");
        ("deepseek-v3", "L2 (門番)");
        ("glm-4.7", "L3 (秘書)");
        ("claude-sonnet-4", "L4 (執筆官)");
        ("claude-opus-4.6", "L5 (編集長)") ] in
  match JS.get levelMap modelName with
  | JS.Own label => if String.eqb label "" then JS.Text "Unknown" else JS.Text label
  | JS.Inherited => JS.Member modelName
  | JS.Absent => JS.Text "Unknown"
  end.

Definition emergencyMap : gmap string string :=
  list_to_map
    [ ("claude-opus-4.6", "glm-4.7");
      ("claude-sonnet-4", "glm-4.7");
      ("glm-4.7", "glm-4.7");
      ("deepseek-v3", "deepseek-v3");
      ("claude-code", "claude-code") ].

Record EmergencySelection : Type := mkEmergencySelection {
  es_model : string;
  es_analysis : Analysis;
  es_emergency : bool;
  es_downgraded : bool
}.

Definition selectEmergencyModel (config : Config) (message : string) : EmergencySelection :=
  let analysis := analyzeComplexity config message in
  let emergencyModel := JS.orDefault (emergencyMap !! complexity analysis) "deepseek-v3" in
  {| es_model := emergencyModel;
     es_analysis := analysis;
     es_emergency := true;
     es_downgraded := negb (String.eqb (complexity analysis) emergencyModel) |}.

(** The model chosen by the second method named [selectOptimalModel]
    ([async selectOptimalModel(message, context)], which replaces the
    first one on the prototype).  [emergency] is the truth value of
    [this.costOptimizer?.config.emergencyMode?.enabled]; caching and
    context compaction do not touch the model. *)
Definition selectOptimalModelAsync (config : Config) (emergency : bool) (message : string)
  : string :=
  if emergency then es_model (selectEmergencyModel config message)
  else complexity (analyzeComplexity config message).

End ModelRouter.

(* ===================================================================== *)
(** ** class LightweightRouter                                            *)
(* ===================================================================== *)

Module LightweightRouter.

(** The [patterns] table of [analyzeComplexity].  Its keys are integer
    literals, so [Object.entries] lists them in ascending order. *)
Definition patterns : list (Z * list string) :=
  [ (1, ["ファイル"; "デバッグ"; "Ubuntu"; "設定"; "システム"; "修正"]);
    (3, ["アイデア"; "まとめ"; "整理"; "チャット"; "要約"; "分類"]);
    (5, ["カレンダー"; "Gmail"; "スケジュール"; "会議"; "予定"; "設定"]);
    (7, ["ブログ"; "初稿"; "記事"; "文章"; "執筆"; "メール"; "返信"; "作成"]);
    (10, ["人生"; "相談"; "重要"; "戦略"; "最終"; "仕上げ"; "決断"; "判断"]) ].

Definition getComplexityLevel (score : Z) : string :=
  if 10 <=? score then "claude-opus-4.6"
  else if 7 <=? score then "claude-sonnet-4"
  else if 5 <=? score then "glm-4.7"
  else if 3 <=? score then "deepseek-v3"
  else "claude-code".

Record Analysis : Type := mkAnalysis {
  totalScore : Z;
  complexity : string;
  lightweight : bool
}.

(** The score after the keyword loop: the highest level one of whose
    keywords the message includes. *)
Definition keywordScore (message : string) : Z :=
  fold_left
    (fun (score : Z) (entry : Z * list string) =>
       if existsb (fun keyword => JS.includes message keyword) (snd entry)
       then Z.max score (fst entry) else score)
    patterns 0.

Definition analyzeComplexity (message : string) : Analysis :=
  let score := keywordScore message in
  let score := if (500 <? JS.length message)%nat then score + 2 else score in
  let score := if (1000 <? JS.length message)%nat then score + 2 else score in
  {| totalScore := score;
     complexity := getComplexityLevel score;
     lightweight := true |}.

Definition emergencyMap : gmap string string :=
  list_to_map
    [ ("claude-opus-4.6", "glm-4.7");
      ("claude-sonnet-4", "glm-4.7");
      ("glm-4.7", "glm-4.7");
      ("deepseek-v3", "deepseek-v3");
      ("claude-code", "claude-code") ].

Record Selection : Type := mkSelection {
  model : string;
  analysis : Analysis;
  emergency : bool;
  downgraded : bool
}.

Definition selectEmergencyModel (message : string) : Selection :=
  let analysis := analyzeComplexity message in
  let emergencyModel := JS.orDefault (emergencyMap !! complexity analysis) "deepseek-v3" in
  {| model := emergencyModel;
     analysis := analysis;
     emergency := true;
     downgraded := negb (String.eqb (complexity analysis) emergencyModel) |}.

(** [selectModel(message)], reading [global.emergencyMode]
    ([downgraded] is absent from the object built outside emergency
    mode and reads as falsy). *)
Definition selectModel (g : option Global.EmergencyMode) (message : string) : Selection :=
  if Global.emergencyEnabled g then selectEmergencyModel message
  else
    let analysis := analyzeComplexity message in
    {| model := complexity analysis;
       analysis := analysis;
       emergency := false;
       downgraded := false |}.

End LightweightRouter.

(* ===================================================================== *)
(** ** src/optimization/lightweight-monitor.js                            *)
(* ===================================================================== *)

Module LightweightMonitor.

Record DailyUsage : Type := mkDailyUsage {
  date : string;
  totalCost : float;
  totalTokens : Z;
  requests : Z;
  lastCheck : Z
}.

(** The monitor ([this]), the part of [global] it writes, the callbacks
    it has handed to [setImmediate] that have not run yet (each is
    [() => this.triggerAlert(threshold, percentage)]), and the runs of
    [triggerAlert] that are suspended at
    [await this.updateDashboardOnce(level, percentage)], by their
    threshold. *)
Record State : Type := mkState {
  dailyBudget : float;
  dailyUsage : DailyUsage;
  alertThresholds : list float;
  (** the [Set] [alertTriggered], in insertion order *)
  alertTriggered : list float;
  emergencyMode : option Global.EmergencyMode;
  immediates : list (float * float);
  awaiting : list float
}.

(** One run of [triggerAlert], as an observer sees it. *)
Record Alert : Type := mkAlert {
  level : string;
  threshold : float;
  percentage : float
}.

Definition freshUsage (today : string) : DailyUsage :=
  {| date := today; totalCost := 0%float; totalTokens := 0; requests := 0; lastCheck := 0 |}.

(** [new LightweightMonitor(config)] on day [today];
    [configBudget] is [config.dailyBudget] and [g] the current
    [global.emergencyMode]. *)
Definition new (configBudget : option float) (today : string)
    (g : option Global.EmergencyMode) : State :=
  {| dailyBudget :=
       match configBudget with
       | Some b => if PrimFloat.is_nan b || PrimFloat.eqb b 0 then 5.0%float else b
       | None => 5.0%float
       end;
     dailyUsage := freshUsage today;
     alertThresholds := [0.7%float; 0.9%float];
     alertTriggered := [];
     emergencyMode := g;
     immediates := [];
     awaiting := [] |}.

(** [set.has(x)] and [set.add(x)]. *)
Definition has (set : list float) (x : float) : bool :=
  existsb (JS.sameValueZero x) set.

Definition add (set : list float) (x : float) : list float :=
  if has set x then set else set ++ [x].

Definition resetDailyUsage (newDate : string) (s : State) : State :=
  {| dailyBudget := dailyBudget s;
     dailyUsage := freshUsage newDate;
     alertThresholds := alertThresholds s;
     alertTriggered := [];
     emergencyMode :=
       match emergencyMode s with
       | Some m => Some {| Global.enabled := false;
                           Global.allowedLevels := Global.allowedLevels m |}
       | None => None
       end;
     immediates := immediates s;
     awaiting := awaiting s |}.

(** One iteration of the loop of [checkThresholds]. *)
Definition checkThreshold (percentage0 : float) (s : State) (threshold0 : float) : State :=
  if PrimFloat.leb threshold0 percentage0 && negb (has (alertTriggered s) threshold0)
  then {| dailyBudget := dailyBudget s;
          dailyUsage := dailyUsage s;
          alertThresholds := alertThresholds s;
          alertTriggered := add (alertTriggered s) threshold0;
          emergencyMode := emergencyMode s;
          immediates := immediates s ++ [(threshold0, percentage0)];
          awaiting := awaiting s |}
  else s.

Definition checkThresholds (s : State) : State :=
  let percentage0 := PrimFloat.div (totalCost (dailyUsage s)) (dailyBudget s) in
  fold_left (checkThreshold percentage0) (alertThresholds s) s.

(** [trackUsage(cost, tokens)]; [today] is the date the clock shows. *)
Definition trackUsage (today : string) (cost : float) (tokens : Z) (s : State) : State :=
  let s := if String.eqb (date (dailyUsage s)) today then s else resetDailyUsage today s in
  let u := dailyUsage s in
  let s :=
    {| dailyBudget := dailyBudget s;
       dailyUsage := {| date := date u;
                        totalCost := PrimFloat.add (totalCost u) cost;
                        totalTokens := totalTokens u + tokens;
                        requests := requests u + 1;
                        lastCheck := lastCheck u |};
       alertThresholds := alertThresholds s;
       alertTriggered := alertTriggered s;
       emergencyMode := emergencyMode s;
       immediates := immediates s;
       awaiting := awaiting s |} in
  checkThresholds s.

Definition enableEmergencyMode (s : State) : State :=
  {| dailyBudget := dailyBudget s;
     dailyUsage := dailyUsage s;
     alertThresholds := alertThresholds s;
     alertTriggered := alertTriggered s;
     emergencyMode := Some {| Global.enabled := true;
                              Global.allowedLevels := ["L1"; "L2"; "L3"] |};
     immediates := immediates s;
     awaiting := awaiting s |}.

(** [triggerAlert(threshold, percentage)] is an async function in two
    parts.  The first runs in the [setImmediate] callback: it fixes the
    level and calls [updateDashboardOnce], whose promise it awaits; this
    is the alert an observer sees. *)
Definition alertOf (threshold0 percentage0 : float) : Alert :=
  {| level := if PrimFloat.leb 0.9 threshold0 then "CRITICAL" else "WARNING";
     threshold := threshold0;
     percentage := percentage0 |}.

(** The second part runs when that promise has been fulfilled, which is
    after the callback has returned: at once when the dashboard update
    stops at its time gate, and after the file has been read and written
    (or that has failed, which [updateDashboardOnce] catches) when it
    does not. *)
Definition afterDashboard (threshold0 : float) (s : State) : State :=
  if PrimFloat.leb 0.9 threshold0 then enableEmergencyMode s else s.

(** [await triggerAlert(threshold, percentage)] when the dashboard update
    is fulfilled: both parts, with nothing else happening in between. *)
Definition triggerAlert (threshold0 percentage0 : float) (s : State) : State * Alert :=
  (afterDashboard threshold0 s, alertOf threshold0 percentage0).

(** The event loop runs the queued callbacks, oldest first: each starts
    a [triggerAlert], which is left suspended at its [await]. *)
Definition runImmediates (s : State) : State * list Alert :=
  ({| dailyBudget := dailyBudget s;
      dailyUsage := dailyUsage s;
      alertThresholds := alertThresholds s;
      alertTriggered := alertTriggered s;
      emergencyMode := emergencyMode s;
      immediates := [];
      awaiting := awaiting s ++ map fst (immediates s) |},
   map (fun cb : float * float => alertOf (fst cb) (snd cb)) (immediates s)).

(** The dashboard update that the [i]-th suspended [triggerAlert] awaits
    has settled, and that run goes on to its end. *)
Definition resume (i : nat) (s : State) : State :=
  match nth_error (awaiting s) i with
  | Some threshold0 =>
      afterDashboard threshold0
        {| dailyBudget := dailyBudget s;
           dailyUsage := dailyUsage s;
           alertThresholds := alertThresholds s;
           alertTriggered := alertTriggered s;
           emergencyMode := emergencyMode s;
           immediates := immediates s;
           awaiting := firstn i (awaiting s) ++ skipn (S i) (awaiting s) |}
  | None => s
  end.

(** The dashboard update that the [i]-th suspended [triggerAlert] awaits
    has rejected instead: past the time gate and outside the [try] block
    of [updateDashboardOnce], [path.join] throws on an [obsidianPath]
    that is no string.  The run ends in the [catch] block of
    [triggerAlert], which logs. *)
Definition abandon (i : nat) (s : State) : State :=
  match nth_error (awaiting s) i with
  | Some _ =>
      {| dailyBudget := dailyBudget s;
         dailyUsage := dailyUsage s;
         alertThresholds := alertThresholds s;
         alertTriggered := alertTriggered s;
         emergencyMode := emergencyMode s;
         immediates := immediates s;
         awaiting := firstn i (awaiting s) ++ skipn (S i) (awaiting s) |}
  | None => s
  end.

(** A call of [trackUsage] as the application makes it. *)
Record Call : Type := mkCall {
  today : string;
  cost : float;
  tokens : Z
}.

(** One turn of the event loop: a [trackUsage] call, then the callbacks
    it queued. *)
Definition turn (c : Call) (s : State) : State * list Alert :=
  runImmediates (trackUsage (today c) (cost c) (tokens c) s).

(** A sequence of turns, with the alerts of each; the runs of
    [triggerAlert] they start are all left suspended. *)
Fixpoint run (calls : list Call) (s : State) : State * list (list Alert) :=
  match calls with
  | [] => (s, [])
  | c :: calls' =>
      let '(s1, alerts) := turn c s in
      let '(s2, rest) := run calls' s1 in
      (s2, alerts :: rest)
  end.

(** What happens to the monitor: a turn, or the end of a suspended
    [triggerAlert], its dashboard update fulfilled or rejected. *)
Inductive Event : Type :=
| Track (c : Call)
| Resume (i : nat)
| Fail (i : nat).

Definition step (e : Event) (s : State) : State * list Alert :=
  match e with
  | Track c => turn c s
  | Resume i => (resume i s, [])
  | Fail i => (abandon i s, [])
  end.

(** A schedule of events, with the alerts of each. *)
Fixpoint exec (events : list Event) (s : State) : State * list (list Alert) :=
  match events with
  | [] => (s, [])
  | e :: events' =>
      let '(s1, alerts) := step e s in
      let '(s2, rest) := exec events' s1 in
      (s2, alerts :: rest)
  end.

(** The object [getCurrentUsage()] returns. *)
Record Usage : Type := mkUsage {
  cu_cost : float;
  cu_tokens : Z;
  cu_requests : Z;
  cu_percentage : float;
  cu_emergencyMode : bool
}.

Definition getCurrentUsage (s : State) : Usage :=
  {| cu_cost := totalCost (dailyUsage s);
     cu_tokens := totalTokens (dailyUsage s);
     cu_requests := requests (dailyUsage s);
     cu_percentage := PrimFloat.mul (PrimFloat.div (totalCost (dailyUsage s)) (dailyBudget s)) 100;
     cu_emergencyMode := Global.emergencyEnabled (emergencyMode s) |}.

End LightweightMonitor.

(* ===================================================================== *)
(** ** The dashboard side of [LightweightMonitor.triggerAlert]            *)
(* ===================================================================== *)

Module Dashboard.

(** The monitor together with [this.dailyUsage.lastDashboardUpdate], a
    property that [updateDashboardOnce] adds to the usage object and that
    the object literals of the constructor and of [resetDailyUsage] do not
    have ([None] is [undefined]). *)
Record State : Type := mkState {
  monitor : LightweightMonitor.State;
  lastDashboardUpdate : option Z
}.

(** What [updateDashboardOnce] builds its alert line from when it gets
    past the time gate; the file operations that follow may fail and are
    caught there. *)
Record Update : Type := mkUpdate {
  at_ms : Z;
  level : string;
  percentage : float;
  totalCost : float;
  budget : float
}.

(** [updateDashboardOnce(level, percentage)]; [now] is [Date.now()]. *)
Definition updateDashboardOnce (now : Z) (level0 : string) (percentage0 : float) (s : State)
  : State * option Update :=
  let lastUpdate := default 0 (lastDashboardUpdate s) in
  if now - lastUpdate <? 3600000 then (s, None)
  else
    ({| monitor := monitor s; lastDashboardUpdate := Some now |},
     Some {| at_ms := now;
             level := level0;
             percentage := percentage0;
             totalCost := LightweightMonitor.totalCost (LightweightMonitor.dailyUsage (monitor s));
             budget := LightweightMonitor.dailyBudget (monitor s) |}).

(** [triggerAlert(threshold, percentage)] with its dashboard step. *)
Definition triggerAlert (now : Z) (threshold0 percentage0 : float) (s : State)
  : State * option Update :=
  let level0 := if PrimFloat.leb 0.9 threshold0 then "CRITICAL" else "WARNING" in
  let '(s, update) := updateDashboardOnce now level0 percentage0 s in
  let s :=
    if PrimFloat.leb 0.9 threshold0
    then {| monitor := LightweightMonitor.enableEmergencyMode (monitor s);
            lastDashboardUpdate := lastDashboardUpdate s |}
    else s in
  (s, update).

(** [resetDailyUsage(newDate)]: the usage object is replaced by a fresh
    literal, which has no [lastDashboardUpdate]. *)
Definition resetDailyUsage (newDate : string) (s : State) : State :=
  {| monitor := LightweightMonitor.resetDailyUsage newDate (monitor s);
     lastDashboardUpdate := None |}.

(** A sequence of [triggerAlert] runs, each with its clock reading, and
    the dashboard updates they get to. *)
Fixpoint triggerAlerts (alerts : list (Z * (float * float))) (s : State)
  : State * list Update :=
  match alerts with
  | [] => (s, [])
  | (now, (threshold0, percentage0)) :: rest =>
      let '(s1, update) := triggerAlert now threshold0 percentage0 s in
      let '(s2, updates) := triggerAlerts rest s1 in
      (s2, match update with Some u => u :: updates | None => updates end)
  end.

End Dashboard.

(* ===================================================================== *)
(** ** src/optimization/cost-optimizer.js                                 *)
(* ===================================================================== *)

Module CostOptimizer.

Record ModelStats : Type := mkModelStats {
  ms_cost : float;
  ms_tokens : Z;
  ms_count : Z
}.

Record DayUsage : Type := mkDayUsage {
  totalCost : float;
  totalTokens : Z;
  requests : Z;
  models : gmap string ModelStats
}.

Record EmergencyMode : Type := mkEmergencyMode {
  enabled : bool;
  allowedLevels : list string;
  restrictedLevels : list string
}.

(** [this.dailyBudget], [this.usageLog.daily] and
    [this.config.emergencyMode]. *)
Record State : Type := mkState {
  dailyBudget : float;
  daily : gmap string DayUsage;
  emergencyMode : option EmergencyMode
}.

(** The arguments of one [triggerBudgetAlert(level, usage, percentage)]. *)
Record Alert : Type := mkAlert {
  level : string;
  usage : DayUsage;
  percentage : float
}.

(** [enableEmergencyMode()]: the assignment to [this.config.emergencyMode]
    (its [activatedAt] clock reading left out).  The dashboard notice it
    then writes is outside the state. *)
Definition enableEmergencyMode (s : State) : State :=
  {| dailyBudget := dailyBudget s;
     daily := daily s;
     emergencyMode := Some {| enabled := true;
                              allowedLevels := ["L1"; "L2"; "L3"];
                              restrictedLevels := ["L4"; "L5"] |} |}.

Definition budgetPercentage (s : State) (u : DayUsage) : float :=
  PrimFloat.mul (PrimFloat.div (totalCost u) (dailyBudget s)) 100.

Definition checkBudgetAlert (date : string) (s : State) : State * list Alert :=
  match daily s !! date with
  | None => (s, [])
  | Some u =>
      let pct := budgetPercentage s u in
      if PrimFloat.leb 90 pct
      then (enableEmergencyMode s, [mkAlert "CRITICAL" u pct])
      else if PrimFloat.leb 70 pct
      then (s, [mkAlert "WARNING" u pct])
      else if PrimFloat.leb 50 pct
      then (s, [mkAlert "INFO" u pct])
      else (s, [])
  end.

Definition emptyDay : DayUsage :=
  {| totalCost := 0%float; totalTokens := 0; requests := 0; models := ∅ |}.

Definition emptyStats : ModelStats :=
  {| ms_cost := 0%float; ms_tokens := 0; ms_count := 0 |}.

(** The three [+=] on a per-model record. *)
Definition bump (m : ModelStats) (tokens : Z) (cost : float) : ModelStats :=
  {| ms_cost := PrimFloat.add (ms_cost m) cost;
     ms_tokens := ms_tokens m + tokens;
     ms_count := ms_count m + 1 |}.

(** [trackUsage(modelUsed, tokens, cost)]; [today] is the date the clock
    shows, [new Date().toISOString().split('T')[0]], which never names a
    member of [Object.prototype].  [modelUsed] is the caller's: when it
    names such a member and the day has no record of that name,
    [models[modelUsed]] is that member, which is truthy, so no record is
    created and the three [+=] write to the member, outside the usage
    log. *)
Definition trackUsage (today modelUsed : string) (tokens : Z) (cost : float) (s : State)
  : State * list Alert :=
  let u := default emptyDay (daily s !! today) in
  let u' :=
    {| totalCost := PrimFloat.add (totalCost u) cost;
       totalTokens := totalTokens u + tokens;
       requests := requests u + 1;
       models :=
         match JS.get (models u) modelUsed with
         | JS.Own m => <[ modelUsed := bump m tokens cost ]> (models u)
         | JS.Absent => <[ modelUsed := bump emptyStats tokens cost ]> (models u)
         | JS.Inherited => models u
         end |} in
  checkBudgetAlert today
    {| dailyBudget := dailyBudget s;
       daily := <[ today := u' ]> (daily s);
       emergencyMode := emergencyMode s |}.

(** [new CostOptimizer(config)]; [configBudget] is [config.dailyBudget]
    and [configEmergency] is [config.emergencyMode]. *)
Definition new (configBudget : option float) (configEmergency : option EmergencyMode) : State :=
  {| dailyBudget :=
       match configBudget with
       | Some b => if PrimFloat.is_nan b || PrimFloat.eqb b 0 then 5.0%float else b
       | None => 5.0%float
       end;
     daily := ∅;
     emergencyMode := configEmergency |}.

Record Call : Type := mkCall {
  today : string;
  modelUsed : string;
  tokens : Z;
  cost : float
}.

(** A sequence of awaited [trackUsage] calls, with the alerts of each. *)
Fixpoint run (calls : list Call) (s : State) : State * list (list Alert) :=
  match calls with
  | [] => (s, [])
  | c :: calls' =>
      let '(s1, alerts) := trackUsage (today c) (modelUsed c) (tokens c) (cost c) s in
      let '(s2, rest) := run calls' s1 in
      (s2, alerts :: rest)
  end.

(** [config.cache] and [this.cacheEnabled = config.cache || true]. *)
Inductive CacheSetting : Type :=
| CacheAbsent
| CacheFlag (b : bool).

Definition cacheEnabled (configCache : CacheSetting) : bool :=
  let v := match configCache with CacheFlag b => b | CacheAbsent => false end in
  if v then v else true.

Definition cacheablePatterns : list string :=
  [ "Enhanced PARA"; "5段階エスカレーション";
    "L1工兵"; "L2門番"; "L3秘書"; "L4執筆官"; "L5編集長";
    "Obsidian統合"; "Yokohama Bay"; "システムプロンプト" ].

(** What [request.context] can be as far as [context?.includes?.(p)]
    tells: absent, a string, an array of strings, or an object without
    an [includes] method. *)
Inductive Context : Type :=
| CtxAbsent
| CtxText (s : string)
| CtxList (items : list string)
| CtxObject.

Definition contextIncludes (context : Context) (pattern : string) : bool :=
  match context with
  | CtxText s => JS.includes s pattern
  | CtxList items => existsb (String.eqb pattern) items
  | CtxAbsent | CtxObject => false
  end.

Record Cache : Type := mkCache {
  cache_enabled : bool;
  cache_keys : list string;
  cache_ttl : Z
}.

(** A request as [enableCaching] and [estimateCostSavings] read it. *)
Record Request : Type := mkRequest {
  req_message : option string;
  req_context : Context;
  req_model : string;
  req_cache : option Cache;
  req_compressed : bool
}.

Definition matchesPattern (request : Request) (pattern : string) : bool :=
  match req_message request with
  | Some message => JS.includes message pattern
  | None => false
  end
  || contextIncludes (req_context request) pattern.

(** [enableCaching(request)]. *)
Definition enableCaching (configCache : CacheSetting) (request : Request) : Request :=
  if negb (cacheEnabled configCache) then request
  else
    let cacheKeys := List.filter (matchesPattern request) cacheablePatterns in
    if (0 <? List.length cacheKeys)%nat
    then {| req_message := req_message request;
            req_context := req_context request;
            req_model := req_model request;
            req_cache := Some {| cache_enabled := true;
                                 cache_keys := cacheKeys;
                                 cache_ttl := 3600 |};
            req_compressed := req_compressed request |}
    else request.

(** A message of the conversation history. *)
Record Message : Type := mkMessage {
  msg_role : string;
  msg_content : string;
  msg_timestamp : string;
  msg_compressed : bool
}.

(** [this.contextLimit = config.contextTokens || 80000]. *)
Definition contextLimitOf (configContextTokens : option float) : float :=
  match configContextTokens with
  | Some t => if PrimFloat.is_nan t || PrimFloat.eqb t 0 then 80000%float else t
  | None => 80000%float
  end.

Definition summarizeMessages (messages : list Message) : string :=
  "[" ++ JS.ofNat (List.length messages)
      ++ "件のメッセージを要約: 主なトピック、決定事項、重要な文脈]".

(** [Math.floor(messages.length * 0.2)]. *)
Definition keepCount (n : nat) : Z :=
  JS.floor (PrimFloat.mul (JS.ofZ (Z.of_nat n)) 0.2).

(** [compactContext(messages, currentTokens)]; [now] is the timestamp
    [new Date().toISOString()] gives. *)
Definition compactContext (contextLimit : float) (now : string) (messages : list Message)
    (currentTokens : float) : list Message :=
  if PrimFloat.ltb currentTokens contextLimit then messages
  else
    let keep := keepCount (List.length messages) in
    let recentMessages := JS.sliceFrom messages (- keep) in
    let oldMessages := JS.slice messages 0 (- keep) in
    let summary := summarizeMessages oldMessages in
    {| msg_role := "system";
       msg_content := "[圧縮済み履歴要約]" ++ String "010"%char summary;
       msg_timestamp := now;
       msg_compressed := true |} :: recentMessages.

End CostOptimizer.

(* ===================================================================== *)
(** ** [ModelRouter]'s cost-aware [selectOptimalModel]                     *)
(* ===================================================================== *)

Module OptimizedRouter.

(** What the router reads of [this.costOptimizer]. *)
Record Optimizer : Type := mkOptimizer {
  opt_emergency : bool;
  opt_cache : CostOptimizer.CacheSetting;
  opt_contextLimit : float
}.

(** The [context] argument, an object: [context.messageHistory] and
    [context.tokens]. *)
Record RouterContext : Type := mkRouterContext {
  messageHistory : option (list CostOptimizer.Message);
  tokens : option float
}.

Record CostSavings : Type := mkCostSavings {
  estimated : float;
  cs_cache : bool;
  cs_compressed : bool
}.

(** [estimateCostSavings(optimizedRequest)]. *)
Definition estimateCostSavings (request : CostOptimizer.Request) : CostSavings :=
  let cached :=
    match CostOptimizer.req_cache request with
    | Some c => CostOptimizer.cache_enabled c
    | None => false
    end in
  let savings := 0%float in
  let savings :=
    match CostOptimizer.req_cache request with
    | Some c =>
        if CostOptimizer.cache_enabled c
        then PrimFloat.add savings
               (PrimFloat.mul
                  (JS.ofZ (Z.of_nat (List.length (CostOptimizer.cache_keys c)))) 0.9)
        else savings
    | None => savings
    end in
  let savings :=
    if CostOptimizer.req_compressed request then PrimFloat.add savings 0.5 else savings in
  {| estimated := savings;
     cs_cache := cached;
     cs_compressed := CostOptimizer.req_compressed request |}.

Record OptimizedSelection : Type := mkOptimizedSelection {
  os_model : string;
  os_analysis : ModelRouter.Analysis;
  os_optimizedRequest : CostOptimizer.Request;
  os_costSavings : CostSavings
}.

Inductive Selected : Type :=
| Emergency (selection : ModelRouter.EmergencySelection)
| Optimized (selection : OptimizedSelection).

(** [context.messageHistory && context.tokens && this.costOptimizer]. *)
Definition wantsCompaction (context : RouterContext) : option (list CostOptimizer.Message * float) :=
  match messageHistory context, tokens context with
  | Some history, Some t =>
      if PrimFloat.is_nan t || PrimFloat.eqb t 0 then None else Some (history, t)
  | _, _ => None
  end.

(** [async selectOptimalModel(message, context)]: what it returns and the
    [context] object it leaves behind. *)
Definition selectOptimalModel (config : ModelRouter.Config) (optimizer : option Optimizer)
    (now message : string) (context : RouterContext) : Selected * RouterContext :=
  if match optimizer with Some o => opt_emergency o | None => false end
  then (Emergency (ModelRouter.selectEmergencyModel config message), context)
  else
    let analysis := ModelRouter.analyzeComplexity config message in
    let selectedModel := ModelRouter.complexity analysis in
    let context :=
      match optimizer, wantsCompaction context with
      | Some o, Some (history, t) =>
          {| messageHistory :=
               Some (CostOptimizer.compactContext (opt_contextLimit o) now history t);
             tokens := tokens context |}
      | _, _ => context
      end in
    let optimizedRequest :=
      {| CostOptimizer.req_message := Some message;
         CostOptimizer.req_context := CostOptimizer.CtxObject;
         CostOptimizer.req_model := selectedModel;
         CostOptimizer.req_cache := None;
         CostOptimizer.req_compressed := false |} in
    let optimizedRequest :=
      match optimizer with
      | Some o => CostOptimizer.enableCaching (opt_cache o) optimizedRequest
      | None => optimizedRequest
      end in
    (Optimized {| os_model := selectedModel;
                  os_analysis := analysis;
                  os_optimizedRequest := optimizedRequest;
                  os_costSavings := estimateCostSavings optimizedRequest |},
     context).

End OptimizedRouter.

(* ===================================================================== *)
(** ** The model handlers (callers of [withRetry])                        *)
(* ===================================================================== *)

Module Handlers.

(** What the handlers read of a provider's reply.  An Anthropic reply is
    [response.content[0].text] with [response.usage]; a chat-completion
    reply (GLM, DeepSeek) is [response.data.choices[0].message.content]
    with [response.data.usage]; an absent usage field is [None].  These
    records are the replies in which that path exists (the text at its
    end is taken to be a string). *)
Record AnthropicResponse : Type := mkAnthropicResponse {
  ar_text : string;
  ar_input_tokens : option Z;
  ar_output_tokens : option Z
}.

Record ChatResponse : Type := mkChatResponse {
  cr_content : string;
  cr_prompt_tokens : option Z;
  cr_completion_tokens : option Z;
  cr_total_tokens : option Z
}.

(** [x || 0] on an optional count. *)
Definition orZero (x : option Z) : Z := default 0 x.

Record Tokens : Type := mkTokens {
  input : Z;
  output : Z;
  total : Z
}.

(** The result object of a handler ([emotionalAdaptation], [toolCalls] and
    the [timestamp] clock reading are left out); [level] and [cost] are
    absent from the objects that do not set them. *)
Record Result : Type := mkResult {
  content : string;
  model : string;
  level : option string;
  tokens : Tokens;
  cost : option float
}.

(** [DeepSeekHandler.calculateCost(tokens)]. *)
Definition calculateCost (tokens0 : Z) : float :=
  PrimFloat.mul (PrimFloat.div (JS.ofZ tokens0) 1000) 0.0014.

Definition opusResult (response : AnthropicResponse) : Result :=
  {| content := ar_text response;
     model := "claude-3-5-sonnet-20241022";
     level := None;
     tokens := {| input := orZero (ar_input_tokens response);
                  output := orZero (ar_output_tokens response);
                  total := orZero (ar_input_tokens response)
                           + orZero (ar_output_tokens response) |};
     cost := None |}.

Definition sonnetResult (response : AnthropicResponse) : Result :=
  {| content := ar_text response;
     model := "claude-3-5-sonnet-20241022";
     level := Some "L4 (執筆官)";
     tokens := {| input := orZero (ar_input_tokens response);
                  output := orZero (ar_output_tokens response);
                  total := orZero (ar_input_tokens response)
                           + orZero (ar_output_tokens response) |};
     cost := None |}.

Definition glmResult (response : ChatResponse) : Result :=
  {| content := cr_content response;
     model := "glm-4-plus";
     level := None;
     tokens := {| input := orZero (cr_prompt_tokens response);
                  output := orZero (cr_completion_tokens response);
                  total := orZero (cr_total_tokens response) |};
     cost := None |}.

Definition deepseekResult (response : ChatResponse) : Result :=
  {| content := cr_content response;
     model := "deepseek-chat";
     level := None;
     tokens := {| input := orZero (cr_prompt_tokens response);
                  output := orZero (cr_completion_tokens response);
                  total := orZero (cr_total_tokens response) |};
     cost := Some (calculateCost (orZero (cr_total_tokens response))) |}.

(** The provider a call or a sleep belongs to. *)
Inductive Provider : Type := ClaudeOpus | ClaudeSonnet | GLM | DeepSeek.

Definition tag (p : Provider) (tr : list ApiRetry.event) : list (Provider * ApiRetry.event) :=
  map (fun ev => (p, ev)) tr.

(** What a provider call resolves with: a reply of the expected shape,
    or any other value, on which reading the path to the text throws a
    TypeError with the given message (a reply without [choices[0]], say). *)
Inductive Reply (R : Type) : Type :=
| WellFormed (response : R)
| Malformed (typeErrorMessage : string).

Arguments WellFormed {R} response.
Arguments Malformed {R} typeErrorMessage.

Definition typeError (message : string) : ApiRetry.JsError :=
  ApiRetry.mkJsError message JS.Undefined JS.Undefined None JS.Undefined.

(** What reading [error.message] in a [catch] block throws when the caught
    value is [undefined], or [null]. *)
Definition typeErrorOnUndefined : ApiRetry.JsError :=
  ApiRetry.typeErrorReading "undefined" "message".

Definition typeErrorOnNull : ApiRetry.JsError :=
  ApiRetry.typeErrorReading "null" "message".

(** How the [try] block of a handler ends: with its result object, or
    with what its [catch] block receives, which is whatever [withRetry]
    threw or the TypeError of reading a reply. *)
Definition tried {R : Type} (result : R -> Result) (c : ApiRetry.completion (Reply R))
  : Result + ApiRetry.Rejection :=
  match c with
  | ApiRetry.Returned (WellFormed response) => inl (result response)
  | ApiRetry.Returned (Malformed message) => inr (ApiRetry.Error (typeError message))
  | ApiRetry.Threw error => inr (ApiRetry.Error error)
  | ApiRetry.ThrewUndefined => inr ApiRetry.RejectedUndefined
  | ApiRetry.ThrewNull => inr ApiRetry.RejectedNull
  end.

Section Cascade.
(** The four provider calls for one request, as effectful thunks over the
    outside world. *)
Context {W : Type}.
Variable opusApi : W -> (Reply AnthropicResponse + ApiRetry.Rejection) * W.
Variable sonnetApi : W -> (Reply AnthropicResponse + ApiRetry.Rejection) * W.
Variable glmApi : W -> (Reply ChatResponse + ApiRetry.Rejection) * W.
Variable deepseekApi : W -> (Reply ChatResponse + ApiRetry.Rejection) * W.

(** [DeepSeekHandler.processLightweightTask]: the last tier logs the
    error, which reads [error.message], and throws it again. *)
Definition processLightweightTask (w : W)
  : ApiRetry.completion Result * W * list (Provider * ApiRetry.event) :=
  let '(c, w', tr) := ApiRetry.withRetry deepseekApi ApiRetry.noOptions w in
  match tried deepseekResult c with
  | inl result => (ApiRetry.Returned result, w', tag DeepSeek tr)
  | inr (ApiRetry.Error error) => (ApiRetry.Threw error, w', tag DeepSeek tr)
  | inr ApiRetry.RejectedUndefined =>
      (ApiRetry.Threw typeErrorOnUndefined, w', tag DeepSeek tr)
  | inr ApiRetry.RejectedNull => (ApiRetry.Threw typeErrorOnNull, w', tag DeepSeek tr)
  end.

(** [GLMHandler.processBusinessTask]: on any caught error, the DeepSeek
    handler's result is returned as it is. *)
Definition processBusinessTask (w : W)
  : ApiRetry.completion Result * W * list (Provider * ApiRetry.event) :=
  let '(c, w', tr) := ApiRetry.withRetry glmApi ApiRetry.noOptions w in
  match tried glmResult c with
  | inl result => (ApiRetry.Returned result, w', tag GLM tr)
  | inr (ApiRetry.Error error) =>
      let '(c, w'', tr') := processLightweightTask w' in
      (c, w'', tag GLM tr ++ tr')
  | inr ApiRetry.RejectedUndefined => (ApiRetry.Threw typeErrorOnUndefined, w', tag GLM tr)
  | inr ApiRetry.RejectedNull => (ApiRetry.Threw typeErrorOnNull, w', tag GLM tr)
  end.

(** [ClaudeSonnetHandler.processWritingTask]: on any caught error, the GLM
    handler's result is returned with its [level] overwritten. *)
Definition processWritingTask (w : W)
  : ApiRetry.completion Result * W * list (Provider * ApiRetry.event) :=
  let '(c, w', tr) := ApiRetry.withRetry sonnetApi ApiRetry.noOptions w in
  match tried sonnetResult c with
  | inl result => (ApiRetry.Returned result, w', tag ClaudeSonnet tr)
  | inr (ApiRetry.Error error) =>
      let '(c, w'', tr') := processBusinessTask w' in
      (match c with
       | ApiRetry.Returned result =>
           ApiRetry.Returned {| content := content result;
                                model := model result;
                                level := Some "L3 (秘書) [fallback]";
                                tokens := tokens result;
                                cost := cost result |}
       | other => other
       end, w'', tag ClaudeSonnet tr ++ tr')
  | inr ApiRetry.RejectedUndefined =>
      (ApiRetry.Threw typeErrorOnUndefined, w', tag ClaudeSonnet tr)
  | inr ApiRetry.RejectedNull => (ApiRetry.Threw typeErrorOnNull, w', tag ClaudeSonnet tr)
  end.

(** [ClaudeOpusHandler.processHighComplexityTask]: on any caught error,
    the Sonnet handler's result is returned as it is. *)
Definition processHighComplexityTask (w : W)
  : ApiRetry.completion Result * W * list (Provider * ApiRetry.event) :=
  let '(c, w', tr) := ApiRetry.withRetry opusApi ApiRetry.noOptions w in
  match tried opusResult c with
  | inl result => (ApiRetry.Returned result, w', tag ClaudeOpus tr)
  | inr (ApiRetry.Error error) =>
      let '(c, w'', tr') := processWritingTask w' in
      (c, w'', tag ClaudeOpus tr ++ tr')
  | inr ApiRetry.RejectedUndefined =>
      (ApiRetry.Threw typeErrorOnUndefined, w', tag ClaudeOpus tr)
  | inr ApiRetry.RejectedNull => (ApiRetry.Threw typeErrorOnNull, w', tag ClaudeOpus tr)
  end.
End Cascade.

End Handlers.

(* ===================================================================== *)
(** ** [DeepSeekHandler.chunkData]                                        *)
(* ===================================================================== *)

Module DeepSeekHandler.

Section ChunkData.

(** UTF-16 code units. *)
Context {A : Type}.

(** The [for] loop of [chunkData]; [text] is [data] when it is a string
    and [JSON.stringify(data)] otherwise, as the list of its UTF-16 code
    units.  The loop has no bound of its own: [None] is a run that is
    still going when the fuel is spent. *)
Fixpoint chunkLoop (fuel : nat) (text : list A) (chunkSize i : Z) (chunks : list (list A))
  : option (list (list A)) :=
  match fuel with
  | O => None
  | S fuel' =>
      if i <? Z.of_nat (List.length text)
      then chunkLoop fuel' text chunkSize (i + chunkSize)
                     (chunks ++ [JS.slice text i (i + chunkSize)])
      else Some chunks
  end.

Definition chunkData (fuel : nat) (text : list A) (chunkSize : Z) : option (list (list A)) :=
  chunkLoop fuel text chunkSize 0 [].

End ChunkData.

End DeepSeekHandler.

(* ===================================================================== *)
(** ** src/lightweight-index.js                                           *)
(* ===================================================================== *)

Module LightweightAgent.

Definition quickEmotionAnalysis (message : string) : string :=
  if JS.testAlternation ["疲れ"; "つかれ"; "だるい"] message then "tired"
  else if JS.testAlternation ["楽しい"; "嬉しい"; "やった"] message then "excited"
  else if JS.testAlternation ["忙しい"; "急い"; "ストレス"] message then "stressed"
  else "neutral".

(** The object [processMessage] resolves to: an answer, or the error
    object of its [catch] block. *)
Record Answer : Type := mkAnswer {
  response : string;
  model : string;
  emotion : string;
  emergency : bool
}.

Inductive Reply : Type :=
| Answered (answer : Answer)
| Failed.

(** [result.cost || 0.001]. *)
Definition costOr (cost : option float) : float :=
  match cost with
  | Some c => if PrimFloat.is_nan c || PrimFloat.eqb c 0 then 0.001%float else c
  | None => 0.001%float
  end.

(** What the model dispatch of [processMessage] leaves in [result]. *)
Inductive Dispatch : Type :=
| Got (result : Handlers.Result)
| NoResult
| Thrown.

(** [processMessage(message)] of an initialised agent.
    [deepseekHandler] is [None] when no DeepSeek key is configured and
    otherwise how [processLightweightTask] completes; [draw] is the value
    of [Math.random()]; [today] is the date the clock shows; the monitor
    is the router's, and [global.emergencyMode] is the one it holds.
    [GLMHandler] has no method [processTask] and [ObsidianAPI] none named
    [quickRecord], so calling either is a TypeError; with neither branch
    taken [result] is [undefined] and reading [result.tokens] is one.
    Every throw lands in the [catch] block. *)
Definition processMessage
    (deepseekHandler : option (Handlers.Result + ApiRetry.JsError))
    (draw : float) (today message : string) (s : LightweightMonitor.State)
  : Reply * LightweightMonitor.State :=
  let selection := LightweightRouter.selectModel (LightweightMonitor.emergencyMode s) message in
  let emotion0 := quickEmotionAnalysis message in
  let dispatch :=
    if JS.includes (LightweightRouter.model selection) "deepseek"
    then match deepseekHandler with
         | Some (inl r) => Got r
         | Some (inr _) => Thrown
         | None => Thrown
         end
    else if JS.includes (LightweightRouter.model selection) "glm"
    then Thrown
    else NoResult in
  match dispatch with
  | Thrown => (Failed, s)
  | NoResult => (Failed, s)
  | Got r =>
      let s := LightweightMonitor.trackUsage today (costOr (Handlers.cost r))
                 (Handlers.total (Handlers.tokens r)) s in
      if PrimFloat.ltb draw 0.2 then (Failed, s)
      else (Answered {| response := Handlers.content r;
                        model := LightweightRouter.model selection;
                        emotion := emotion0;
                        emergency := LightweightRouter.emergency selection |}, s)
  end.

End LightweightAgent.

(* ===================================================================== *)
(** ** Vocabulary of the statements                                       *)
(* ===================================================================== *)

(** The trace of a run of [withRetry] that makes attempts [0..k]:
    attempt 0 at once, every later attempt after its own sleep. *)
Definition retrySchedule (baseDelayMs : Z) (k : nat) : list ApiRetry.event :=
  ApiRetry.EvCall 0 ::
  flat_map (fun i : nat => [ApiRetry.EvSleep (baseDelayMs * 2 ^ (Z.of_nat i - 1));
                            ApiRetry.EvCall (Z.of_nat i)])
           (seq 1 k).

(** The events iteration [i] of the loop contributes. *)
Definition attemptEvents (baseDelayMs : Z) (i : nat) : list ApiRetry.event :=
  (if 0 <? Z.of_nat i then [ApiRetry.EvSleep (ApiRetry.delayMs baseDelayMs (Z.of_nat i))]
   else []) ++ [ApiRetry.EvCall (Z.of_nat i)].

Definition sleptMs (ev : ApiRetry.event) : Z :=
  match ev with ApiRetry.EvSleep ms => ms | ApiRetry.EvCall _ => 0 end.

Definition totalSleep (tr : list ApiRetry.event) : Z :=
  fold_right Z.add 0 (map sleptMs tr).

Definition isCall (ev : ApiRetry.event) : bool :=
  match ev with ApiRetry.EvCall _ => true | ApiRetry.EvSleep _ => false end.

Definition attemptsMade (tr : list ApiRetry.event) : nat :=
  List.length (List.filter isCall tr).




(** Every call of [fn] rejects with a retryable error. *)
Definition alwaysFailsRetryably {W V : Type} (fn : W -> (V + ApiRetry.Rejection) * W) : Prop :=
  forall w, exists e w',
    fn w = (inr (ApiRetry.Error e), w')
    /\ ApiRetry.isRetryableError (ApiRetry.Error e) = inl true.


(** Sample failures and sample endpoints; the world of an endpoint counts
    the calls it has received. *)
Definition rateLimited : ApiRetry.JsError :=
  ApiRetry.mkJsError "429 Too Many Requests" (JS.Num 429) (JS.Str "rate_limit_error")
    None JS.Undefined.

Definition unauthorized : ApiRetry.JsError :=
  ApiRetry.mkJsError "401 Unauthorized" (JS.Num 401) (JS.Str "authentication_error")
    None JS.Undefined.

Definition alwaysRateLimited (calls : nat) : (string + ApiRetry.Rejection) * nat :=
  (inr (ApiRetry.Error rateLimited), S calls).


(** An endpoint that answers HTTP 429 through Axios ([error.response.status]),
    one that rejects with [undefined], and one that fails with a retryable
    error on its first four calls only. *)
Definition axiosRateLimited : ApiRetry.JsError :=
  ApiRetry.mkJsError "Request failed with status code 429" JS.Undefined JS.Undefined
    (Some (JS.Num 429)) (JS.Str "ERR_BAD_REQUEST").

Definition rejectsWithUndefined (calls : nat) : (string + ApiRetry.Rejection) * nat :=
  (inr ApiRetry.RejectedUndefined, S calls).


(** The five tiers, and the model name each goes by in the routers (the
    table of [getModelLevel]). *)
Inductive Tier : Type := L1 | L2 | L3 | L4 | L5.

Definition modelOf (t : Tier) : string :=
  match t with
  | L1 => "claude-code"
  | L2 => "deepseek-v3"
  | L3 => "glm-4.7"
  | L4 => "claude-sonnet-4"
  | L5 => "claude-opus-4.6"
  end.

Definition tierOf (name : string) : option Tier :=
  if String.eqb name "claude-code" then Some L1
  else if String.eqb name "deepseek-v3" then Some L2
  else if String.eqb name "glm-4.7" then Some L3
  else if String.eqb name "claude-sonnet-4" then Some L4
  else if String.eqb name "claude-opus-4.6" then Some L5
  else None.

(** The property names that every object inherits from
    [Object.prototype]. *)
Definition inheritedName (name : string) : Prop :=
  name = "constructor" \/ name = "__proto__" \/ name = "hasOwnProperty"
  \/ name = "isPrototypeOf" \/ name = "propertyIsEnumerable" \/ name = "toLocaleString"
  \/ name = "toString" \/ name = "valueOf" \/ name = "__defineGetter__"
  \/ name = "__defineSetter__" \/ name = "__lookupGetter__" \/ name = "__lookupSetter__".

(** The fallback edge the router follows: [escalateModel] with reason
    [api_error], read on tiers; a throw is the absence of a successor. *)
Definition fallbackEdge (t : Tier) : option Tier :=
  match ModelRouter.escalateModel (modelOf t) "api_error" with
  | inl (JS.Text newModel) => tierOf newModel
  | inl (JS.Member _) => None
  | inr _ => None
  end.

(** The tier reached after [n] fallback hops, if the chain is that long. *)
Definition hops (n : nat) (t : Tier) : option Tier :=
  Nat.iter n (fun reached => reached ≫= fallbackEdge) (Some t).

(** The handlers' own table [FALLBACK_CHAIN], read on tiers: the key each
    handler is registered under and the tier of the handler a factory
    builds. *)
Definition chainKey (t : Tier) : string :=
  match t with
  | L1 => "claude-code"
  | L2 => "deepseek"
  | L3 => "glm"
  | L4 => "claude-sonnet"
  | L5 => "claude-opus"
  end.

Definition handlerTier (h : ApiRetry.Handler) : Tier :=
  match h with
  | ApiRetry.ClaudeSonnetHandler => L4
  | ApiRetry.GLMHandler => L3
  | ApiRetry.DeepSeekHandler => L2
  end.

Definition chainEdge (t : Tier) : option Tier :=
  handlerTier <$> mjoin (ApiRetry.FALLBACK_CHAIN !! chainKey t).

(** The downgrade map of the specification for emergency mode:
    {L5->L3, L4->L3, L3->L3, L2->L2, L1->L1}. *)
Definition specEmergencyMap (t : Tier) : Tier :=
  match t with
  | L5 => L3
  | L4 => L3
  | L3 => L3
  | L2 => L2
  | L1 => L1
  end.

(** A routing configuration to run the router on (the repository's own
    [config/routing-rules.json] is not among the sources). *)
Definition sampleConfig : ModelRouter.Config :=
  {| ModelRouter.complexityThresholds :=
       [ ("simple", ModelRouter.mkLevelConfig 1 ["単純質問"; "事実抽出"]);
         ("moderate", ModelRouter.mkLevelConfig 3 ["スケジュール調整"; "メール処理"]);
         ("complex", ModelRouter.mkLevelConfig 5 ["複雑な推論"; "創造的思考"]);
         ("expert", ModelRouter.mkLevelConfig 8 ["抽象的概念"; "価値観判定"]) ];
     ModelRouter.costOptimization_enabled := true;
     ModelRouter.costOptimization_preferCheapModel := false;
     ModelRouter.emotionalContext_enabled := true;
     ModelRouter.emotionalContext_userMood :=
       list_to_map [("tired", "gentle"); ("stressed", "supportive")] |}.


(** No keyword of the lightweight classifier occurs in the message. *)
Definition noKeywordMatches (message : string) : Prop :=
  Forall (fun entry : Z * list string =>
            Forall (fun keyword => JS.includes message keyword = false) (snd entry))
         LightweightRouter.patterns.

(** The day's cumulative cost after each of a sequence of calls that add
    [costs] to [total]. *)
Fixpoint runningTotals (total : float) (costs : list float) : list float :=
  match costs with
  | [] => []
  | c :: costs' => PrimFloat.add total c :: runningTotals (PrimFloat.add total c) costs'
  end.

(** The monitor's view of the budget after each call: the fraction
    [total / dailyBudget]. *)
Definition fractions (budget total : float) (costs : list float) : list float :=
  map (fun t => PrimFloat.div t budget) (runningTotals total costs).

(** The optimizer's view: the percentage [(total / dailyBudget) * 100]. *)
Definition percentages (budget total : float) (costs : list float) : list float :=
  map (fun t => PrimFloat.mul (PrimFloat.div t budget) 100) (runningTotals total costs).

(** Some value of the list has reached the mark. *)
Definition reaches (mark : float) (values : list float) : bool :=
  existsb (PrimFloat.leb mark) values.

(** Number of alerts of a level among the alerts of a run. *)
Definition monitorAlerts (level : string) (alerts : list (list LightweightMonitor.Alert)) : nat :=
  List.length (List.filter (fun a => String.eqb (LightweightMonitor.level a) level)
                           (concat alerts)).

Definition optimizerAlerts (level : string) (alerts : list (list CostOptimizer.Alert)) : nat :=
  List.length (List.filter (fun a => String.eqb (CostOptimizer.level a) level)
                           (concat alerts)).

(** A monitor as its constructor and its own methods leave it between two
    turns of the event loop: the two thresholds, no callback pending. *)
Definition settled (s : LightweightMonitor.State) : Prop :=
  LightweightMonitor.alertThresholds s = [0.7%float; 0.9%float]
  /\ LightweightMonitor.immediates s = [].

Definition monitorEmergency (s : LightweightMonitor.State) : bool :=
  Global.emergencyEnabled (LightweightMonitor.emergencyMode s).

(** The calls of a schedule, in order. *)
Definition tracked (events : list LightweightMonitor.Event) : list LightweightMonitor.Call :=
  flat_map (fun e => match e with LightweightMonitor.Track c => [c] | _ => [] end) events.

(** The event is not the rejection of a dashboard update. *)
Definition settles (e : LightweightMonitor.Event) : bool :=
  match e with LightweightMonitor.Fail _ => false | _ => true end.

(** A threshold at which [triggerAlert] goes on to emergency mode. *)
Definition critical (threshold0 : float) : bool := PrimFloat.leb 0.9 threshold0.

(** Emergency mode and the suspended critical alerts have a cause: the
    threshold 0.9 has fired. *)
Definition pendingSound (s : LightweightMonitor.State) : Prop :=
  (monitorEmergency s = true
   -> LightweightMonitor.has (LightweightMonitor.alertTriggered s) 0.9 = true)
  /\ (Exists (fun t => critical t = true) (LightweightMonitor.awaiting s)
      -> LightweightMonitor.has (LightweightMonitor.alertTriggered s) 0.9 = true).

(** The firing of 0.9 has its effect, done or still to come. *)
Definition pendingComplete (s : LightweightMonitor.State) : Prop :=
  LightweightMonitor.has (LightweightMonitor.alertTriggered s) 0.9 = true
  -> monitorEmergency s = true
     \/ Exists (fun t => critical t = true) (LightweightMonitor.awaiting s).

Definition optimizerEmergency (s : CostOptimizer.State) : bool :=
  match CostOptimizer.emergencyMode s with
  | Some m => CostOptimizer.enabled m
  | None => false
  end.

(** The cost the optimizer has on record for a date (0 when none). *)
Definition recordedCost (s : CostOptimizer.State) (date : string) : float :=
  CostOptimizer.totalCost (default CostOptimizer.emptyDay (CostOptimizer.daily s !! date)).

(** The bands of the optimizer's ladder. *)
Definition inCriticalBand (pct : float) : bool := PrimFloat.leb 90 pct.
Definition inWarningBand (pct : float) : bool :=
  PrimFloat.leb 70 pct && negb (PrimFloat.leb 90 pct).
Definition inInfoBand (pct : float) : bool :=
  PrimFloat.leb 50 pct && negb (PrimFloat.leb 70 pct).

(** A threshold fires in a call when the fraction has reached it and it
    is not in the set of fired thresholds. *)
Definition firesNow (set : list float) (mark fraction : float) : bool :=
  PrimFloat.leb mark fraction && negb (LightweightMonitor.has set mark).

(** The levels the optimizer's ladder emits at a percentage. *)
Definition levelsAt (pct : float) : list string :=
  if inCriticalBand pct then ["CRITICAL"]
  else if inWarningBand pct then ["WARNING"]
  else if inInfoBand pct then ["INFO"]
  else [].

(** The state a call of the monitor's [trackUsage] accumulates into: the
    monitor itself on the same date, the reset monitor on another. *)
Definition onDate (today : string) (s : LightweightMonitor.State) : LightweightMonitor.State :=
  if String.eqb (LightweightMonitor.date (LightweightMonitor.dailyUsage s)) today
  then s else LightweightMonitor.resetDailyUsage today s.

(** Sample days, a monitor and an optimizer with a budget of 5, and
    sample calls: the monitor's day goes 40%, 72%, 92%; the optimizer's
    goes 72%, 76%, 92%, 94%. *)
Definition day1 : string := "2026-02-01".
Definition day2 : string := "2026-02-02".

Definition sampleMonitor : LightweightMonitor.State :=
  LightweightMonitor.new (Some 5%float) day1 None.

Definition monitorCalls : list LightweightMonitor.Call :=
  [ LightweightMonitor.mkCall day1 2.0 1000;
    LightweightMonitor.mkCall day1 1.6 800;
    LightweightMonitor.mkCall day1 1.0 500 ].

(** The same day with the alerts' dashboard updates settling in between:
    the WARNING alert's after the second call, the CRITICAL alert's after
    the third. *)
Definition monitorEvents : list LightweightMonitor.Event :=
  [ LightweightMonitor.Track (LightweightMonitor.mkCall day1 2.0 1000);
    LightweightMonitor.Track (LightweightMonitor.mkCall day1 1.6 800);
    LightweightMonitor.Resume 0;
    LightweightMonitor.Track (LightweightMonitor.mkCall day1 1.0 500);
    LightweightMonitor.Resume 0 ].

Definition sampleOptimizer : CostOptimizer.State :=
  CostOptimizer.new (Some 5%float) None.

Definition optimizerCalls : list CostOptimizer.Call :=
  [ CostOptimizer.mkCall day1 "claude-sonnet-4" 1000 3.6;
    CostOptimizer.mkCall day1 "glm-4.7" 100 0.2;
    CostOptimizer.mkCall day1 "claude-opus-4.6" 900 0.8;
    CostOptimizer.mkCall day1 "deepseek-v3" 50 0.1 ].

Definition infoCalls : list CostOptimizer.Call :=
  [ CostOptimizer.mkCall day1 "glm-4.7" 1000 2.6;
    CostOptimizer.mkCall day1 "deepseek-v3" 100 0.4;
    CostOptimizer.mkCall day1 "deepseek-v3" 100 0.3 ].

(** An endpoint that is rate limited on its first two calls and answers
    from the third on. *)
Definition flakyTwice (calls : nat) : (string + ApiRetry.Rejection) * nat :=
  if (calls <? 2)%nat then (inr (ApiRetry.Error rateLimited), S calls)
  else (inl "ok", S calls).

(** The provider calls and the sleeps of a cascade's trace. *)
Definition cascadeCalls (tr : list (Handlers.Provider * ApiRetry.event)) : nat :=
  attemptsMade (map snd tr).

Definition cascadeSleep (tr : list (Handlers.Provider * ApiRetry.event)) : Z :=
  totalSleep (map snd tr).

(** The error comes from the provider: it is an error the provider
    rejected with, or the TypeError of reading a reply it gave that
    lacks the path to the text, or the TypeError that [isRetryableError]
    raised on a rejection of it. *)
Definition thrownBy {W R : Type}
    (api : W -> (Handlers.Reply R + ApiRetry.Rejection) * W) (e : ApiRetry.JsError) : Prop :=
  (exists w0 w1, api w0 = (inr (ApiRetry.Error e), w1))
  \/ (exists w0 w1 message,
        api w0 = (inl (Handlers.Malformed message), w1) /\ e = Handlers.typeError message)
  \/ (exists w0 w1 rejection,
        api w0 = (inr rejection, w1) /\ ApiRetry.isRetryableError rejection = inr e).

(** Sample provider endpoints; the world counts the calls received. *)
Definition anthropicUnauthorized (calls : nat)
  : (Handlers.Reply Handlers.AnthropicResponse + ApiRetry.Rejection) * nat :=
  (inr (ApiRetry.Error unauthorized), S calls).


Definition chatRateLimited (calls : nat)
  : (Handlers.Reply Handlers.ChatResponse + ApiRetry.Rejection) * nat :=
  (inr (ApiRetry.Error rateLimited), S calls).

Definition chatAnswers (calls : nat)
  : (Handlers.Reply Handlers.ChatResponse + ApiRetry.Rejection) * nat :=
  (inl (Handlers.WellFormed (Handlers.mkChatResponse "done" (Some 12) (Some 30) (Some 42))),
   S calls).


(** The tier above, with the top tier its own successor, and the rank of
    a tier. *)
Definition tierUp (t : Tier) : Tier :=
  match t with
  | L1 => L2
  | L2 => L3
  | L3 => L4
  | L4 => L5
  | L5 => L5
  end.

Definition tierRank (t : Tier) : nat :=
  match t with
  | L1 => 1
  | L2 => 2
  | L3 => 3
  | L4 => 4
  | L5 => 5
  end.

(** The configured indicators that match a message, level by level in
    configuration order, as [analyzeComplexity] reports them. *)
Definition matchingIndicators (config : ModelRouter.Config) (message : string)
  : list ModelRouter.MatchedIndicator :=
  flat_map
    (fun entry : string * ModelRouter.LevelConfig =>
       map (fun indicator =>
              ModelRouter.mkMatched (fst entry) indicator (ModelRouter.lc_score (snd entry)))
           (List.filter (ModelRouter.containsIndicator message)
                        (ModelRouter.lc_indicators (snd entry))))
    (ModelRouter.complexityThresholds config).

(** The left-to-right floating-point sum of the scores of a list of
    reported indicators, from a starting score. *)
Definition sumScores (start : float) (matched : list ModelRouter.MatchedIndicator) : float :=
  fold_left PrimFloat.add (map ModelRouter.mi_score matched) start.

(** A configuration that lists the two length-only indicators. *)
Definition lengthConfig : ModelRouter.Config :=
  {| ModelRouter.complexityThresholds :=
       [ ("L2", ModelRouter.mkLevelConfig 3 ["事実抽出"; "短文要約"]);
         ("L4", ModelRouter.mkLevelConfig 7 ["長文生成"; "創造的思考"]) ];
     ModelRouter.costOptimization_enabled := true;
     ModelRouter.costOptimization_preferCheapModel := false;
     ModelRouter.emotionalContext_enabled := false;
     ModelRouter.emotionalContext_userMood := ∅ |}.

(** Clock readings that never go back. *)
Fixpoint clockMonotone (last : Z) (readings : list Z) : Prop :=
  match readings with
  | [] => True
  | now :: rest => last <= now /\ clockMonotone now rest
  end.

(** Successive dashboard updates are at least an hour apart, the first
    one at least an hour after [last]. *)
Fixpoint hourApart (last : Z) (updates : list Dashboard.Update) : Prop :=
  match updates with
  | [] => True
  | u :: rest => last + 3600000 <= Dashboard.at_ms u /\ hourApart (Dashboard.at_ms u) rest
  end.

(** An alert of the monitor that is justified: its threshold is one of
    the two, its level is the threshold's, and the fraction it reports has
    reached the threshold. *)
Definition justified (a : LightweightMonitor.Alert) : Prop :=
  ((LightweightMonitor.threshold a = 0.7%float /\ LightweightMonitor.level a = "WARNING")
   \/ (LightweightMonitor.threshold a = 0.9%float /\ LightweightMonitor.level a = "CRITICAL"))
  /\ PrimFloat.leb (LightweightMonitor.threshold a) (LightweightMonitor.percentage a) = true.

(** The sum of a counter over the per-model records of a day, and a day
    whose totals of tokens and of requests are those sums. *)
Definition sumOver (f : CostOptimizer.ModelStats -> Z)
    (models : gmap string CostOptimizer.ModelStats) : Z :=
  map_fold (fun (_ : string) (m : CostOptimizer.ModelStats) (acc : Z) => f m + acc) 0 models.

Definition dayBalanced (u : CostOptimizer.DayUsage) : Prop :=
  CostOptimizer.totalTokens u = sumOver CostOptimizer.ms_tokens (CostOptimizer.models u)
  /\ CostOptimizer.requests u = sumOver CostOptimizer.ms_count (CostOptimizer.models u).

Definition balanced (o : CostOptimizer.State) : Prop :=
  forall (date : string) (u : CostOptimizer.DayUsage),
    CostOptimizer.daily o !! date = Some u -> dayBalanced u.



(** [Math.floor(n * 0.2)] on an integer, and the check that it is the
    integer quotient by 5 on a range of lengths. *)
Definition keepCountOf (n : Z) : Z := JS.floor (PrimFloat.mul (JS.ofZ n) 0.2).

Fixpoint agreesFrom (fuel : nat) (i : Z) : bool :=
  match fuel with
  | O => true
  | S fuel' => (keepCountOf i =? i / 5) && agreesFrom fuel' (i + 1)
  end.

(** The message [compactContext] puts in front of the kept messages when
    it has summarised [n] of them. *)
Definition summaryMessage (now : string) (n : nat) : CostOptimizer.Message :=
  {| CostOptimizer.msg_role := "system";
     CostOptimizer.msg_content :=
       "[圧縮済み履歴要約]" ++ String "010"%char
         ("[" ++ JS.ofNat n ++ "件のメッセージを要約: 主なトピック、決定事項、重要な文脈]");
     CostOptimizer.msg_timestamp := now;
     CostOptimizer.msg_compressed := true |}.

(** A history of [n] plain messages. *)
Definition sampleHistory (n : nat) : list CostOptimizer.Message :=
  map (fun i => CostOptimizer.mkMessage "user" (JS.ofNat i) "2026-02-01T00:00:00.000Z" false)
      (seq 0 n).

(* ===================================================================== *)
(** ** Properties                                                         *)
(* ===================================================================== *)

Example isRetryable_429 :
  ApiRetry.isRetryableError
    (ApiRetry.Error
       (ApiRetry.mkJsError "rate limited" (JS.Num 429) JS.Undefined None JS.Undefined))
  = inl true.
Proof. reflexivity. Qed.

(** *** The retry loop *)

Lemma isCall_attemptEvents (baseDelayMs : Z) (i : nat) :
  List.filter isCall (attemptEvents baseDelayMs i) = [ApiRetry.EvCall (Z.of_nat i)].
Proof. unfold attemptEvents. destruct (0 <? Z.of_nat i); reflexivity. Qed.

Lemma attemptsMade_app (tr1 tr2 : list ApiRetry.event) :
  attemptsMade (tr1 ++ tr2) = (attemptsMade tr1 + attemptsMade tr2)%nat.
Proof. unfold attemptsMade. rewrite List.filter_app, length_app. reflexivity. Qed.

Lemma totalSleep_app (tr1 tr2 : list ApiRetry.event) :
  totalSleep (tr1 ++ tr2) = totalSleep tr1 + totalSleep tr2.
Proof.
  unfold totalSleep. induction tr1 as [|ev tr1 IH]; cbn [app map fold_right]; [lia|].
  rewrite IH. lia.
Qed.

Lemma retrySchedule_S (baseDelayMs : Z) (k : nat) :
  retrySchedule baseDelayMs (S k)
  = retrySchedule baseDelayMs k
    ++ [ApiRetry.EvSleep (baseDelayMs * 2 ^ Z.of_nat k); ApiRetry.EvCall (Z.of_nat (S k))].
Proof.
  unfold retrySchedule. rewrite seq_S, flat_map_app. cbn [flat_map app Nat.add].
  replace (Z.of_nat (S k) - 1) with (Z.of_nat k) by lia. reflexivity.
Qed.

Lemma attemptsMade_retrySchedule (baseDelayMs : Z) (k : nat) :
  attemptsMade (retrySchedule baseDelayMs k) = S k.
Proof.
  induction k as [|k IH]; [reflexivity|].
  rewrite retrySchedule_S, attemptsMade_app, IH. cbn. lia.
Qed.

Lemma totalSleep_retrySchedule (baseDelayMs : Z) (k : nat) :
  totalSleep (retrySchedule baseDelayMs k) = baseDelayMs * (2 ^ Z.of_nat k - 1).
Proof.
  induction k as [|k IH]; [cbn; lia|].
  rewrite retrySchedule_S, totalSleep_app, IH.
  replace (Z.of_nat (S k)) with (Z.of_nat k + 1) by lia.
  rewrite Z.pow_add_r by lia. cbn. lia.
Qed.

(** [isRetryableError] answers for error objects only. *)
Lemma isRetryableError_answers (error : ApiRetry.Rejection) (retryable : bool) :
  ApiRetry.isRetryableError error = inl retryable -> exists e, error = ApiRetry.Error e.
Proof. destruct error as [e| |]; [eauto | discriminate | discriminate]. Qed.

Section RetryFacts.
Context {W V : Type}.
Variable fn : W -> (V + ApiRetry.Rejection) * W.
Variables maxRetries baseDelayMs : Z.

Lemma attemptEvents_app (i : nat) (rest : list ApiRetry.event) :
  attemptEvents baseDelayMs i ++ rest
  = (if 0 <? Z.of_nat i
     then [ApiRetry.EvSleep (ApiRetry.delayMs baseDelayMs (Z.of_nat i))] else [])
    ++ ApiRetry.EvCall (Z.of_nat i) :: rest.
Proof. unfold attemptEvents. rewrite <- app_assoc. reflexivity. Qed.

Lemma retrySchedule_attemptEvents (k : nat) :
  retrySchedule baseDelayMs k = flat_map (attemptEvents baseDelayMs) (seq 0 (S k)).
Proof.
  unfold retrySchedule. cbn [seq flat_map].
  change (attemptEvents baseDelayMs 0%nat) with [ApiRetry.EvCall 0]. cbn [app].
  f_equal. rewrite !flat_map_concat_map. f_equal.
  apply map_ext_in. intros i Hi. apply in_seq in Hi.
  unfold attemptEvents, ApiRetry.delayMs.
  destruct (Z.ltb_spec 0 (Z.of_nat i)); [reflexivity | lia].
Qed.

(** Every run is a prefix of the full schedule that stops on a call. *)
Lemma retryLoop_trace (fuel i : nat) lastError w :
  (0 < fuel)%nat ->
  Z.of_nat i + Z.of_nat fuel = maxRetries + 1 ->
  exists n, (1 <= n <= fuel)%nat /\
    snd (ApiRetry.retryLoop fn maxRetries baseDelayMs fuel (Z.of_nat i) lastError w)
    = flat_map (attemptEvents baseDelayMs) (seq i n).
Proof.
  revert i lastError w. induction fuel as [|fuel IH]; intros i lastError w Hpos Hsum; [lia|].
  cbn [ApiRetry.retryLoop].
  destruct (fn w) as [[v|error] w'].
  - exists 1%nat. split; [lia|]. cbn [seq flat_map snd]. rewrite app_nil_r. reflexivity.
  - destruct (ApiRetry.isRetryableError error) as [retryable|typeError].
    + destruct (negb retryable || (Z.of_nat i =? maxRetries)) eqn:Hstop.
      * exists 1%nat. split; [lia|]. cbn [seq flat_map snd]. rewrite app_nil_r. reflexivity.
      * apply orb_false_iff in Hstop as [_ Hne]. apply Z.eqb_neq in Hne.
        destruct (IH (S i) (Some error) w' ltac:(lia) ltac:(lia)) as (n & Hn & Htr).
        replace (Z.of_nat i + 1) with (Z.of_nat (S i)) by lia.
        destruct (ApiRetry.retryLoop fn maxRetries baseDelayMs fuel (Z.of_nat (S i))
                    (Some error) w') as [[c w''] tr].
        cbn [snd] in *. subst tr.
        exists (S n). split; [lia|]. cbn [seq flat_map].
        rewrite attemptEvents_app. reflexivity.
    + exists 1%nat. split; [lia|]. cbn [seq flat_map snd]. rewrite app_nil_r. reflexivity.
Qed.

(** A failure that is not retryable ends the run at the attempt where it
    occurs: the error is thrown as it is and nothing follows the call. *)
Lemma retryLoop_nonretryable (fuel : nat) attempt lastError w error w' :
  fn w = (inr (ApiRetry.Error error), w') ->
  ApiRetry.isRetryableError (ApiRetry.Error error) = inl false ->
  ApiRetry.retryLoop fn maxRetries baseDelayMs (S fuel) attempt lastError w
  = (ApiRetry.Threw error, w',
     (if 0 <? attempt then [ApiRetry.EvSleep (ApiRetry.delayMs baseDelayMs attempt)] else [])
     ++ [ApiRetry.EvCall attempt]).
Proof.
  intros Hfn Hnr. cbn [ApiRetry.retryLoop]. rewrite Hfn, Hnr. reflexivity.
Qed.



(** What [withRetry] throws: an error object that [fn] rejected with, or
    the TypeError that [isRetryableError] raised on a rejection with
    [undefined] or [null]; the loop makes no error of its own. *)
Lemma retryLoop_throws (fuel : nat) attempt lastError w e :
  fst (fst (ApiRetry.retryLoop fn maxRetries baseDelayMs fuel attempt lastError w))
  = ApiRetry.Threw e ->
  lastError = Some (ApiRetry.Error e)
  \/ (exists w0 w1, fn w0 = (inr (ApiRetry.Error e), w1))
  \/ (exists rejection w0 w1,
        fn w0 = (inr rejection, w1) /\ ApiRetry.isRetryableError rejection = inr e).
Proof.
  revert attempt lastError w. induction fuel as [|fuel IH]; intros attempt lastError w.
  - cbn. destruct lastError as [[e0| |]|]; cbn; intros [= ->]; auto.
  - cbn [ApiRetry.retryLoop]. destruct (fn w) as [[v|error] w'] eqn:Hfn.
    + cbn. discriminate.
    + destruct (ApiRetry.isRetryableError error) as [retryable|typeError] eqn:Hclass.
      * destruct (isRetryableError_answers error retryable Hclass) as [e0 ->].
        destruct (negb retryable || (attempt =? maxRetries)).
        -- cbn. intros [= ->]. right. left. eauto.
        -- specialize (IH (attempt + 1) (Some (ApiRetry.Error e0)) w').
           destruct (ApiRetry.retryLoop fn maxRetries baseDelayMs fuel (attempt + 1)
                       (Some (ApiRetry.Error e0)) w') as [[c w''] tr].
           cbn in *. intros Hc.
           destruct (IH Hc) as [[= ->]|H]; [right; left; eauto | auto].
      * cbn. intros [= ->]. right. right. eauto.
Qed.

(** A run that enters the loop, or has an error object in [lastError],
    throws neither [undefined] nor [null]. *)
Lemma retryLoop_defined (fuel : nat) :
  forall attempt lastError w,
  (0 < fuel)%nat \/ (exists e, lastError = Some (ApiRetry.Error e)) ->
  fst (fst (ApiRetry.retryLoop fn maxRetries baseDelayMs fuel attempt lastError w))
  <> ApiRetry.ThrewUndefined
  /\ fst (fst (ApiRetry.retryLoop fn maxRetries baseDelayMs fuel attempt lastError w))
     <> ApiRetry.ThrewNull.
Proof.
  induction fuel as [|fuel IH]; intros attempt lastError w Hin.
  - destruct Hin as [Hpos|[e ->]]; [lia|]. cbn. split; discriminate.
  - cbn [ApiRetry.retryLoop]. destruct (fn w) as [[v|error] w'].
    + cbn. split; discriminate.
    + destruct (ApiRetry.isRetryableError error) as [retryable|typeError] eqn:Hclass.
      * destruct (isRetryableError_answers error retryable Hclass) as [e0 ->].
        destruct (negb retryable || (attempt =? maxRetries)).
        -- cbn. split; discriminate.
        -- specialize (IH (attempt + 1) (Some (ApiRetry.Error e0)) w' ltac:(eauto)).
           destruct (ApiRetry.retryLoop fn maxRetries baseDelayMs fuel (attempt + 1)
                       (Some (ApiRetry.Error e0)) w') as [[c w''] tr].
           exact IH.
      * cbn. split; discriminate.
Qed.
End RetryFacts.

(** *** Backoff schedule and failure classification *)





Lemma alwaysRateLimited_fails : alwaysFailsRetryably alwaysRateLimited.
Proof. intros w. exists rateLimited, (S w). split; reflexivity. Qed.








(** *** The fallback chain *)

Lemma modelOf_tierOf (t : Tier) : tierOf (modelOf t) = Some t.
Proof. destruct t; reflexivity. Qed.

Lemma tierOf_Some (name : string) (t : Tier) : tierOf name = Some t -> name = modelOf t.
Proof.
  unfold tierOf.
  destruct (String.eqb_spec name "claude-code") as [->|_]; [intros [= <-]; reflexivity|].
  destruct (String.eqb_spec name "deepseek-v3") as [->|_]; [intros [= <-]; reflexivity|].
  destruct (String.eqb_spec name "glm-4.7") as [->|_]; [intros [= <-]; reflexivity|].
  destruct (String.eqb_spec name "claude-sonnet-4") as [->|_]; [intros [= <-]; reflexivity|].
  destruct (String.eqb_spec name "claude-opus-4.6") as [->|_]; [intros [= <-]; reflexivity|].
  discriminate.
Qed.

Lemma tierOf_None (name : string) :
  tierOf name = None ->
  name <> "claude-code" /\ name <> "deepseek-v3" /\ name <> "glm-4.7"
  /\ name <> "claude-sonnet-4" /\ name <> "claude-opus-4.6".
Proof.
  unfold tierOf.
  destruct (String.eqb_spec name "claude-code") as [->|?]; [discriminate|].
  destruct (String.eqb_spec name "deepseek-v3") as [->|?]; [discriminate|].
  destruct (String.eqb_spec name "glm-4.7") as [->|?]; [discriminate|].
  destruct (String.eqb_spec name "claude-sonnet-4") as [->|?]; [discriminate|].
  destruct (String.eqb_spec name "claude-opus-4.6") as [->|?]; [discriminate|].
  intros _. auto.
Qed.

Lemma existsb_eqb_In (name : string) (names : list string) :
  existsb (String.eqb name) names = true <-> In name names.
Proof.
  rewrite existsb_exists. split.
  - intros (x & Hin & Heq). apply String.eqb_eq in Heq. subst x. exact Hin.
  - intros Hin. exists name. split; [exact Hin | apply String.eqb_refl].
Qed.

Lemma inheritedName_In (name : string) :
  inheritedName name <-> In name JS.objectPrototypeKeys.
Proof.
  unfold inheritedName, JS.objectPrototypeKeys. cbn [In]. split.
  - intros H. repeat (destruct H as [H|H]; [subst name; auto 20|]). subst name. auto 20.
  - intros H. repeat (destruct H as [H|H]; [subst name; auto 20|]). destruct H.
Qed.

Lemma inheritedName_get (name : string) :
  existsb (String.eqb name) JS.objectPrototypeKeys = true <-> inheritedName name.
Proof. rewrite existsb_eqb_In. symmetry. apply inheritedName_In. Qed.

(** A member of [Object.prototype] is no tier's model name. *)
Lemma prototypeKey_no_tier (name : string) :
  inheritedName name -> tierOf name = None.
Proof.
  intros Hin. apply inheritedName_In in Hin.
  repeat (destruct Hin as [<-|Hin]; [reflexivity|]). destruct Hin.
Qed.

(** Off the five model names a table keyed by them holds nothing of its
    own: the lookup finds a member of [Object.prototype] or nothing. *)
Lemma get_off_table {V : Type} (table : gmap string V) (name : string) :
  table !! name = None ->
  JS.get table name
  = if existsb (String.eqb name) JS.objectPrototypeKeys then JS.Inherited else JS.Absent.
Proof. intros Hnone. unfold JS.get. rewrite Hnone. reflexivity. Qed.


Lemma escalationMap_off_tiers (name : string) :
  tierOf name = None -> ModelRouter.escalationMap !! name = None.
Proof.
  intros Hnone. apply tierOf_None in Hnone as (H1 & H2 & H3 & H4 & H5).
  unfold ModelRouter.escalationMap. cbn [list_to_map foldr fst snd uncurry].
  rewrite !lookup_insert_ne by congruence. apply lookup_empty.
Qed.


Lemma fallbackEdge_table :
  map fallbackEdge [L5; L4; L3; L2; L1] = [Some L4; Some L3; Some L2; None; None].
Proof. vm_compute. reflexivity. Qed.

Lemma hops_S (n : nat) (t : Tier) : hops (S n) t = hops n t ≫= fallbackEdge.
Proof. reflexivity. Qed.

Lemma hops_beyond (n : nat) (t : Tier) : (4 <= n)%nat -> hops n t = None.
Proof.
  intros Hn. replace n with ((n - 4) + 4)%nat by lia.
  induction (n - 4)%nat as [|m IH].
  - destruct t; vm_compute; reflexivity.
  - change (S m + 4)%nat with (S (m + 4)). rewrite hops_S, IH. reflexivity.
Qed.

(** A property of the hop count that holds up to 4 holds for all counts. *)
Lemma hops_cases (P : nat -> option Tier -> Prop) (t : Tier) :
  P 0%nat (hops 0 t) -> P 1%nat (hops 1 t) -> P 2%nat (hops 2 t) -> P 3%nat (hops 3 t) ->
  (forall n, (4 <= n)%nat -> P n None) ->
  forall n, P n (hops n t).
Proof.
  intros H0 H1 H2 H3 H4 n.
  destruct n as [|[|[|[|n]]]]; try assumption.
  rewrite hops_beyond by lia. apply H4. lia.
Qed.

(** The claim C2 fails on the code: four hops from L5 do not reach L1,
    and L2, which is not L1, has no fallback successor. *)
Lemma C2_counterexample :
  ~ (exists n, (n <= 4)%nat /\ hops n L5 = Some L1)
  /\ fallbackEdge L2 = None /\ L2 <> L1.
Proof.
  split; [|split; [vm_compute; reflexivity | discriminate]].
  intros (n & Hn & Hreach).
  destruct n as [|[|[|[|[|n]]]]]; try lia; vm_compute in Hreach; discriminate.
Qed.

(** C2, as the code has it.  From every tier the fallback edge ends, after
    at most 3 hops, on a tier without successor; it never comes back to
    the tier it started from; the tiers without successor are exactly L1
    and L2; the chain is L5->L4->L3->L2 and L1 stands alone, reached from
    no other tier.  The handlers' table [FALLBACK_CHAIN] is the same
    edge. *)
Theorem C2_fallback_chain_as_coded (t : Tier) :
  (exists n last, (n <= 3)%nat /\ hops n t = Some last /\ fallbackEdge last = None)
  /\ (forall n, (0 < n)%nat -> hops n t <> Some t)
  /\ (fallbackEdge t = None <-> t = L1 \/ t = L2)
  /\ (forall n, (0 < n)%nat -> hops n t <> Some L1)
  /\ map fallbackEdge [L5; L4; L3; L2; L1] = [Some L4; Some L3; Some L2; None; None]
  /\ chainEdge t = fallbackEdge t.
Proof.
  split; [|split; [|split; [|split; [|split]]]].
  - destruct t;
      [ exists 0%nat, L1 | exists 0%nat, L2 | exists 1%nat, L2
      | exists 2%nat, L2 | exists 3%nat, L2 ];
      (split; [lia | split; vm_compute; reflexivity]).
  - apply (hops_cases (fun n reached => (0 < n)%nat -> reached <> Some t)).
    1: lia.
    1-3: intros _; destruct t; vm_compute; discriminate.
    intros; discriminate.
  - destruct t; vm_compute; split;
      try discriminate; try (intros [H|H]; discriminate); auto.
  - apply (hops_cases (fun n reached => (0 < n)%nat -> reached <> Some L1)).
    1: lia.
    1-3: intros _; destruct t; vm_compute; discriminate.
    intros; discriminate.
  - apply fallbackEdge_table.
  - destruct t; vm_compute; reflexivity.
Qed.

(** *** What exhaustion and a missing fallback raise *)




(** *** Tier selection *)

Lemma MR_getComplexityLevel_tier (score : float) :
  exists t, ModelRouter.getComplexityLevel score = modelOf t.
Proof.
  unfold ModelRouter.getComplexityLevel.
  destruct (PrimFloat.leb 10 score); [exists L5; reflexivity|].
  destruct (PrimFloat.leb 7 score); [exists L4; reflexivity|].
  destruct (PrimFloat.leb 5 score); [exists L3; reflexivity|].
  destruct (PrimFloat.leb 3 score); [exists L2; reflexivity|].
  exists L1; reflexivity.
Qed.

Lemma LR_getComplexityLevel_tier (score : Z) :
  exists t, LightweightRouter.getComplexityLevel score = modelOf t.
Proof.
  unfold LightweightRouter.getComplexityLevel.
  destruct (10 <=? score); [exists L5; reflexivity|].
  destruct (7 <=? score); [exists L4; reflexivity|].
  destruct (5 <=? score); [exists L3; reflexivity|].
  destruct (3 <=? score); [exists L2; reflexivity|].
  exists L1; reflexivity.
Qed.

Lemma MR_emergencyMap_tier (t : Tier) :
  JS.orDefault (ModelRouter.emergencyMap !! modelOf t) "deepseek-v3"
  = modelOf (specEmergencyMap t).
Proof. destruct t; vm_compute; reflexivity. Qed.

Lemma LR_emergencyMap_tier (t : Tier) :
  JS.orDefault (LightweightRouter.emergencyMap !! modelOf t) "deepseek-v3"
  = modelOf (specEmergencyMap t).
Proof. destruct t; vm_compute; reflexivity. Qed.

(** C6. In emergency mode the selected model is the image of the base
    tier (the classifier's recommendation) under the map
    {L5->L3, L4->L3, L3->L3, L2->L2, L1->L1}, in both routers; L1, L2 and
    L3 are the tiers it leaves alone, L5 goes to L3 and L2 stays L2; and
    the classifier always recommends one of the five tiers. *)
Theorem C6_emergency_downgrade_map (t : Tier) :
  (forall config message,
      ModelRouter.complexity (ModelRouter.analyzeComplexity config message) = modelOf t ->
      ModelRouter.es_model (ModelRouter.selectEmergencyModel config message)
      = modelOf (specEmergencyMap t)
      /\ ModelRouter.selectOptimalModelAsync config true message
         = modelOf (specEmergencyMap t))
  /\ (forall g message,
      Global.emergencyEnabled g = true ->
      LightweightRouter.complexity (LightweightRouter.analyzeComplexity message) = modelOf t ->
      LightweightRouter.model (LightweightRouter.selectModel g message)
      = modelOf (specEmergencyMap t))
  /\ (forall config message, exists base,
      ModelRouter.complexity (ModelRouter.analyzeComplexity config message) = modelOf base)
  /\ (forall message, exists base,
      LightweightRouter.complexity (LightweightRouter.analyzeComplexity message)
      = modelOf base)
  /\ (specEmergencyMap t = t <-> t = L1 \/ t = L2 \/ t = L3)
  /\ (specEmergencyMap t <> t -> (t = L4 \/ t = L5) /\ specEmergencyMap t = L3)
  /\ specEmergencyMap L5 = L3 /\ specEmergencyMap L2 = L2.
Proof.
  repeat match goal with |- _ /\ _ => split end.
  - intros config message Hbase.
    unfold ModelRouter.selectOptimalModelAsync, ModelRouter.selectEmergencyModel.
    cbn [ModelRouter.es_model]. rewrite Hbase. split; apply MR_emergencyMap_tier.
  - intros g message Hon Hbase. unfold LightweightRouter.selectModel. rewrite Hon.
    unfold LightweightRouter.selectEmergencyModel. cbn [LightweightRouter.model].
    rewrite Hbase. apply LR_emergencyMap_tier.
  - intros config message. apply MR_getComplexityLevel_tier.
  - intros message. apply LR_getComplexityLevel_tier.
  - destruct t; cbn; split; intros H; try discriminate; auto;
      destruct H as [H|[H|H]]; discriminate.
  - destruct t; cbn; intros H; try congruence; auto.
  - reflexivity.
  - reflexivity.
Qed.

Lemma C6_emergency_downgrade_map_witness :
  LightweightRouter.model
    (LightweightRouter.selectModel
       (Some (Global.mkEmergencyMode true ["L1"; "L2"; "L3"])) "人生の相談")
  = modelOf L3.
Proof.
  exact (proj1 (proj2 (C6_emergency_downgrade_map L5))
           (Some (Global.mkEmergencyMode true ["L1"; "L2"; "L3"])) "人生の相談"
           eq_refl eq_refl).
Defined.

(** What [adjustForEmotion] returns: the model it was given, [glm-4.7],
    or the literal [claude-opus]. *)
Lemma adjustForEmotion_cases (model : string) (ctx : ModelRouter.EmotionalContext) :
  ModelRouter.adjustForEmotion model ctx = model
  \/ ModelRouter.adjustForEmotion model ctx = "glm-4.7"
  \/ (ModelRouter.adjustForEmotion model ctx = "claude-opus"
      /\ ModelRouter.userMood ctx = "stressed"
      /\ ModelRouter.timeOfDay ctx <> "night").
Proof.
  unfold ModelRouter.adjustForEmotion.
  destruct (String.eqb_spec (ModelRouter.timeOfDay ctx) "night") as [Hn|Hn]; cbn [orb].
  - destruct (String.eqb model "deepseek-v3"); auto.
  - destruct (String.eqb (ModelRouter.userMood ctx) "tired").
    + destruct (String.eqb model "deepseek-v3"); auto.
    + destruct (String.eqb_spec (ModelRouter.userMood ctx) "stressed"); auto.
Qed.

(** Apart from that literal, the first [selectOptimalModel] stays within
    the five tiers whenever the classification it is given does. *)
Lemma selectOptimalModel_cases (config : ModelRouter.Config)
    (analysis : ModelRouter.Analysis) (ctx : ModelRouter.EmotionalContext) :
  (exists base, ModelRouter.complexity analysis = modelOf base) ->
  (exists t, ModelRouter.model (ModelRouter.selectOptimalModel config analysis ctx) = modelOf t)
  \/ (ModelRouter.model (ModelRouter.selectOptimalModel config analysis ctx) = "claude-opus"
      /\ ModelRouter.emotionalContext_enabled config = true
      /\ ModelRouter.userMood ctx = "stressed"
      /\ ModelRouter.timeOfDay ctx <> "night").
Proof.
  intros [base Hbase]. unfold ModelRouter.selectOptimalModel. cbn [ModelRouter.model].
  set (cheap := _ && _ && _).
  assert (Hsel : exists t, (if cheap then "deepseek-v3" else ModelRouter.complexity analysis)
                           = modelOf t).
  { destruct cheap; [exists L2; reflexivity | exists base; exact Hbase]. }
  destruct Hsel as [t Ht]. rewrite Ht.
  destruct (ModelRouter.emotionalContext_enabled config); [|left; exists t; reflexivity].
  destruct (adjustForEmotion_cases (modelOf t) ctx) as [H|[H|(H & Hmood & Hnight)]].
  - left. exists t. exact H.
  - left. exists L3. exact H.
  - right. auto.
Qed.

(** The second method of that name, which applies no emotional
    adjustment, always answers one of the five tiers. *)
Lemma selectOptimalModelAsync_tier (config : ModelRouter.Config) (emergency : bool)
    (message : string) :
  exists t, ModelRouter.selectOptimalModelAsync config emergency message = modelOf t.
Proof.
  unfold ModelRouter.selectOptimalModelAsync, ModelRouter.selectEmergencyModel.
  cbn [ModelRouter.es_model].
  destruct (MR_getComplexityLevel_tier
              (ModelRouter.totalScore (ModelRouter.analyzeComplexity config message)))
    as [base Hbase].
  change (ModelRouter.getComplexityLevel
            (ModelRouter.totalScore (ModelRouter.analyzeComplexity config message)))
    with (ModelRouter.complexity (ModelRouter.analyzeComplexity config message)) in Hbase.
  rewrite Hbase. destruct emergency.
  - exists (specEmergencyMap base). apply MR_emergencyMap_tier.
  - exists base. reflexivity.
Qed.

(** C7 fails on the code by a wrong constant.  A message that says
    "忙しい" at ten in the morning is read as mood [stressed], and
    [adjustForEmotion] then answers [claude-opus]: not the name of any of
    the five tiers (the top tier is [claude-opus-4.6]), and [Unknown] to
    the router's own [getModelLevel].  [selectOptimalModel] returns it. *)
Theorem C7_stressed_mood_selects_unknown_model :
  let message := "忙しいので助けて" in
  let ctx := ModelRouter.analyzeEmotionalContext sampleConfig message 10 3 in
  let selection :=
    ModelRouter.selectOptimalModel sampleConfig
      (ModelRouter.analyzeComplexity sampleConfig message) ctx in
  ModelRouter.timeOfDay ctx = "morning"
  /\ ModelRouter.userMood ctx = "stressed"
  /\ ModelRouter.adjustForEmotion "glm-4.7" ctx = "claude-opus"
  /\ ModelRouter.model selection = "claude-opus"
  /\ tierOf (ModelRouter.model selection) = None
  /\ (forall t, modelOf t <> ModelRouter.model selection)
  /\ ModelRouter.getModelLevel (ModelRouter.model selection) = JS.Text "Unknown"
  /\ ModelRouter.getModelLevel (modelOf L5) = JS.Text "L5 (編集長)".
Proof.
  cbv zeta. repeat match goal with |- _ /\ _ => split end; try (vm_compute; reflexivity).
  intros t. destruct t; vm_compute; discriminate.
Qed.

(** *** The classifier's length bonus *)



Lemma LR_keywordScore_no_match (message : string) :
  noKeywordMatches message -> LightweightRouter.keywordScore message = 0.
Proof.
  unfold noKeywordMatches, LightweightRouter.keywordScore.
  generalize LightweightRouter.patterns, 0.
  induction 1 as [|entry rest Hmiss _ IH]; cbn [fold_left]; [reflexivity|].
  replace (existsb (fun keyword => JS.includes message keyword) (snd entry)) with false;
    [exact IH|].
  symmetry. clear IH. induction Hmiss as [|keyword ks Hk _ IHk]; cbn [existsb]; [reflexivity|].
  rewrite Hk. exact IHk.
Qed.

(** The lightweight classifier adds 2 above 500 characters and 2 more
    above 1000. *)
Lemma LR_length_bonus (message : string) :
  LightweightRouter.totalScore (LightweightRouter.analyzeComplexity message)
  = LightweightRouter.keywordScore message
    + (if (500 <? JS.length message)%nat then 2 else 0)
    + (if (1000 <? JS.length message)%nat then 2 else 0).
Proof.
  unfold LightweightRouter.analyzeComplexity. cbn [LightweightRouter.totalScore].
  destruct (500 <? JS.length message)%nat, (1000 <? JS.length message)%nat; lia.
Qed.

Lemma repeat_x_no_keyword : noKeywordMatches (JS.repeat "x"%char 1200).
Proof.
  unfold noKeywordMatches, LightweightRouter.patterns.
  repeat (constructor; cbn [snd]); vm_compute; reflexivity.
Qed.







(** *** The lightweight monitor *)

Lemma has_add (set : list float) (x y : float) :
  LightweightMonitor.has (LightweightMonitor.add set x) y
  = if LightweightMonitor.has set x then LightweightMonitor.has set y
    else LightweightMonitor.has set y || JS.sameValueZero y x.
Proof.
  unfold LightweightMonitor.add.
  destruct (LightweightMonitor.has set x); [reflexivity|].
  unfold LightweightMonitor.has. rewrite existsb_app. cbn [existsb].
  rewrite orb_false_r. reflexivity.
Qed.

Lemma has_add_07_07 set :
  LightweightMonitor.has (LightweightMonitor.add set 0.7%float) 0.7%float = true.
Proof.
  rewrite has_add. destruct (LightweightMonitor.has set 0.7%float); reflexivity.
Qed.

Lemma has_add_07_09 set :
  LightweightMonitor.has (LightweightMonitor.add set 0.7%float) 0.9%float
  = LightweightMonitor.has set 0.9%float.
Proof.
  rewrite has_add. destruct (LightweightMonitor.has set 0.7%float); [reflexivity|].
  apply orb_false_r.
Qed.

Lemma has_add_09_09 set :
  LightweightMonitor.has (LightweightMonitor.add set 0.9%float) 0.9%float = true.
Proof.
  rewrite has_add. destruct (LightweightMonitor.has set 0.9%float); reflexivity.
Qed.

Lemma has_add_09_07 set :
  LightweightMonitor.has (LightweightMonitor.add set 0.9%float) 0.7%float
  = LightweightMonitor.has set 0.7%float.
Proof.
  rewrite has_add. destruct (LightweightMonitor.has set 0.9%float); [reflexivity|].
  apply orb_false_r.
Qed.


(** One same-day turn of a settled monitor, spelled out: the alerts it
    emits are left suspended, and emergency mode is as it was. *)
Lemma turn_same_day (s : LightweightMonitor.State) (c : LightweightMonitor.Call) :
  settled s ->
  LightweightMonitor.today c = LightweightMonitor.date (LightweightMonitor.dailyUsage s) ->
  let u := LightweightMonitor.dailyUsage s in
  let total := PrimFloat.add (LightweightMonitor.totalCost u) (LightweightMonitor.cost c) in
  let fraction := PrimFloat.div total (LightweightMonitor.dailyBudget s) in
  let set := LightweightMonitor.alertTriggered s in
  let fire7 := firesNow set 0.7 fraction in
  let fire9 := firesNow set 0.9 fraction in
  let set1 := if fire7 then LightweightMonitor.add set 0.7 else set in
  LightweightMonitor.turn c s
  = ({| LightweightMonitor.dailyBudget := LightweightMonitor.dailyBudget s;
        LightweightMonitor.dailyUsage :=
          {| LightweightMonitor.date := LightweightMonitor.date u;
             LightweightMonitor.totalCost := total;
             LightweightMonitor.totalTokens :=
               LightweightMonitor.totalTokens u + LightweightMonitor.tokens c;
             LightweightMonitor.requests := LightweightMonitor.requests u + 1;
             LightweightMonitor.lastCheck := LightweightMonitor.lastCheck u |};
        LightweightMonitor.alertThresholds := [0.7%float; 0.9%float];
        LightweightMonitor.alertTriggered :=
          if fire9 then LightweightMonitor.add set1 0.9 else set1;
        LightweightMonitor.emergencyMode := LightweightMonitor.emergencyMode s;
        LightweightMonitor.immediates := [];
        LightweightMonitor.awaiting :=
          LightweightMonitor.awaiting s
          ++ (if fire7 then [0.7%float] else []) ++ (if fire9 then [0.9%float] else []) |},
     (if fire7 then [LightweightMonitor.mkAlert "WARNING" 0.7 fraction] else [])
     ++ (if fire9 then [LightweightMonitor.mkAlert "CRITICAL" 0.9 fraction] else [])).
Proof.
  intros [Hths Himm] Hday.
  destruct s as [budget [d tc tt rq lc] ths set em imm aw]. cbn in Hths, Himm, Hday.
  destruct c as [today cost tokens]. cbn in Hday. subst ths imm today.
  cbv zeta. unfold firesNow. cbn [LightweightMonitor.dailyUsage LightweightMonitor.totalCost
    LightweightMonitor.cost LightweightMonitor.dailyBudget LightweightMonitor.alertTriggered
    LightweightMonitor.date LightweightMonitor.totalTokens LightweightMonitor.tokens
    LightweightMonitor.requests LightweightMonitor.lastCheck LightweightMonitor.emergencyMode
    LightweightMonitor.awaiting].
  unfold LightweightMonitor.turn, LightweightMonitor.trackUsage.
  cbn [LightweightMonitor.today LightweightMonitor.cost LightweightMonitor.tokens
       LightweightMonitor.dailyUsage LightweightMonitor.date].
  rewrite String.eqb_refl.
  unfold LightweightMonitor.checkThresholds.
  cbn [LightweightMonitor.dailyUsage LightweightMonitor.totalCost
       LightweightMonitor.dailyBudget LightweightMonitor.alertThresholds fold_left].
  set (fraction := PrimFloat.div (PrimFloat.add tc cost) budget).
  unfold LightweightMonitor.checkThreshold.
  cbn [LightweightMonitor.alertTriggered].
  assert (L97 : PrimFloat.leb 0.9 0.7 = false) by reflexivity.
  assert (L99 : PrimFloat.leb 0.9 0.9 = true) by reflexivity.
  destruct (PrimFloat.leb 0.7 fraction && negb (LightweightMonitor.has set 0.7)) eqn:F7;
    cbn [LightweightMonitor.alertTriggered]; rewrite ?has_add_07_09;
    destruct (PrimFloat.leb 0.9 fraction && negb (LightweightMonitor.has set 0.9)) eqn:F9;
    unfold LightweightMonitor.runImmediates, LightweightMonitor.alertOf;
    cbn [LightweightMonitor.immediates LightweightMonitor.dailyBudget
         LightweightMonitor.dailyUsage LightweightMonitor.alertThresholds
         LightweightMonitor.alertTriggered LightweightMonitor.emergencyMode
         LightweightMonitor.awaiting
         LightweightMonitor.date LightweightMonitor.totalCost LightweightMonitor.totalTokens
         LightweightMonitor.requests LightweightMonitor.lastCheck
         map app fst snd];
    rewrite ?L97, ?L99, ?app_nil_r;
    reflexivity.
Qed.

(** What one same-day turn changes, fact by fact. *)
Lemma turn_same_day_facts (s : LightweightMonitor.State) (c : LightweightMonitor.Call) :
  settled s ->
  LightweightMonitor.today c = LightweightMonitor.date (LightweightMonitor.dailyUsage s) ->
  let total := PrimFloat.add (LightweightMonitor.totalCost (LightweightMonitor.dailyUsage s))
                             (LightweightMonitor.cost c) in
  let fraction := PrimFloat.div total (LightweightMonitor.dailyBudget s) in
  let set := LightweightMonitor.alertTriggered s in
  let s1 := fst (LightweightMonitor.turn c s) in
  settled s1
  /\ LightweightMonitor.date (LightweightMonitor.dailyUsage s1)
     = LightweightMonitor.date (LightweightMonitor.dailyUsage s)
  /\ LightweightMonitor.dailyBudget s1 = LightweightMonitor.dailyBudget s
  /\ LightweightMonitor.totalCost (LightweightMonitor.dailyUsage s1) = total
  /\ LightweightMonitor.has (LightweightMonitor.alertTriggered s1) 0.7
     = LightweightMonitor.has set 0.7 || PrimFloat.leb 0.7 fraction
  /\ LightweightMonitor.has (LightweightMonitor.alertTriggered s1) 0.9
     = LightweightMonitor.has set 0.9 || PrimFloat.leb 0.9 fraction
  /\ monitorEmergency s1 = monitorEmergency s
  /\ snd (LightweightMonitor.turn c s)
     = (if firesNow set 0.7 fraction
        then [LightweightMonitor.mkAlert "WARNING" 0.7 fraction] else [])
       ++ (if firesNow set 0.9 fraction
           then [LightweightMonitor.mkAlert "CRITICAL" 0.9 fraction] else [])
  /\ LightweightMonitor.awaiting s1
     = LightweightMonitor.awaiting s
       ++ (if firesNow set 0.7 fraction then [0.7%float] else [])
       ++ (if firesNow set 0.9 fraction then [0.9%float] else []).
Proof.
  intros Hs Hday. cbv zeta. rewrite (turn_same_day s c Hs Hday).
  cbn [fst snd LightweightMonitor.dailyUsage LightweightMonitor.date
       LightweightMonitor.dailyBudget LightweightMonitor.totalCost
       LightweightMonitor.alertTriggered LightweightMonitor.awaiting].
  set (fraction := PrimFloat.div _ _).
  unfold settled, monitorEmergency, firesNow.
  cbn [LightweightMonitor.alertThresholds LightweightMonitor.immediates
       LightweightMonitor.emergencyMode].
  set (set0 := LightweightMonitor.alertTriggered s).
  repeat split.
  - destruct (PrimFloat.leb 0.7 fraction), (LightweightMonitor.has set0 0.7) eqn:H7;
      destruct (PrimFloat.leb 0.9 fraction), (LightweightMonitor.has set0 0.9) eqn:H9;
      cbn [andb negb orb];
      rewrite ?has_add_09_07, ?has_add_07_07, ?H7; reflexivity.
  - destruct (PrimFloat.leb 0.7 fraction), (LightweightMonitor.has set0 0.7) eqn:H7;
      destruct (PrimFloat.leb 0.9 fraction), (LightweightMonitor.has set0 0.9) eqn:H9;
      cbn [andb negb orb];
      rewrite ?has_add_09_09, ?has_add_07_09, ?H9; reflexivity.
Qed.

Lemma monitorAlerts_cons (level : string) (alerts : list LightweightMonitor.Alert)
    (rest : list (list LightweightMonitor.Alert)) :
  monitorAlerts level (alerts :: rest)
  = (monitorAlerts level [alerts] + monitorAlerts level rest)%nat.
Proof.
  unfold monitorAlerts. cbn [concat]. rewrite app_nil_r, List.filter_app, length_app.
  reflexivity.
Qed.

Lemma reaches_cons (mark x : float) (xs : list float) :
  reaches mark (x :: xs) = PrimFloat.leb mark x || reaches mark xs.
Proof. reflexivity. Qed.

(** A run of same-day turns from a settled monitor: each threshold fires
    once if it had not fired and is reached, and not otherwise; the turns
    themselves leave emergency mode as it was. *)
Lemma run_same_day (calls : list LightweightMonitor.Call) (s : LightweightMonitor.State) :
  settled s ->
  Forall (fun c => LightweightMonitor.today c
                   = LightweightMonitor.date (LightweightMonitor.dailyUsage s)) calls ->
  let fr := fractions (LightweightMonitor.dailyBudget s)
                      (LightweightMonitor.totalCost (LightweightMonitor.dailyUsage s))
                      (map LightweightMonitor.cost calls) in
  let set := LightweightMonitor.alertTriggered s in
  let s' := fst (LightweightMonitor.run calls s) in
  let alerts := snd (LightweightMonitor.run calls s) in
  settled s'
  /\ LightweightMonitor.date (LightweightMonitor.dailyUsage s')
     = LightweightMonitor.date (LightweightMonitor.dailyUsage s)
  /\ LightweightMonitor.dailyBudget s' = LightweightMonitor.dailyBudget s
  /\ LightweightMonitor.has (LightweightMonitor.alertTriggered s') 0.7
     = LightweightMonitor.has set 0.7 || reaches 0.7 fr
  /\ LightweightMonitor.has (LightweightMonitor.alertTriggered s') 0.9
     = LightweightMonitor.has set 0.9 || reaches 0.9 fr
  /\ monitorAlerts "WARNING" alerts
     = (if negb (LightweightMonitor.has set 0.7) && reaches 0.7 fr then 1 else 0)%nat
  /\ monitorAlerts "CRITICAL" alerts
     = (if negb (LightweightMonitor.has set 0.9) && reaches 0.9 fr then 1 else 0)%nat
  /\ monitorEmergency s' = monitorEmergency s.
Proof.
  revert s. induction calls as [|c calls IH]; intros s Hs Hday; cbv zeta.
  - cbn. rewrite !orb_false_r, !andb_false_r. repeat split; try apply Hs; reflexivity.
  - inversion Hday as [|c' calls' Hc Hrest]; subst c' calls'.
    destruct (turn_same_day_facts s c Hs Hc)
      as (Hs1 & Hd1 & Hb1 & Ht1 & H7 & H9 & Hem & Hal & _).
    cbn [LightweightMonitor.run]. cbv zeta in *.
    destruct (LightweightMonitor.turn c s) as [s1 alerts1]. cbn [fst snd] in *.
    specialize (IH s1 Hs1). rewrite Hd1, Hb1, Ht1 in IH. specialize (IH Hrest).
    cbv zeta in IH.
    destruct (LightweightMonitor.run calls s1) as [s2 rest]. cbn [fst snd] in *.
    destruct IH as (Hs2 & Hd2 & Hb2 & H7' & H9' & Hw & Hc' & Hem').
    unfold fractions in *. cbn [map runningTotals].
    rewrite !reaches_cons.
    set (fraction := PrimFloat.div _ _) in *.
    set (fr := map _ (runningTotals _ _)) in *.
    rewrite (monitorAlerts_cons "WARNING"), (monitorAlerts_cons "CRITICAL"), Hw, Hc'.
    rewrite H7', H9', Hem', H7, H9, Hem, Hal. unfold firesNow.
    set (h7 := LightweightMonitor.has (LightweightMonitor.alertTriggered s) 0.7).
    set (h9 := LightweightMonitor.has (LightweightMonitor.alertTriggered s) 0.9).
    repeat split; try apply Hs2; try congruence.
    all: destruct h7, h9, (PrimFloat.leb 0.7 fraction), (PrimFloat.leb 0.9 fraction),
           (reaches 0.7 fr), (reaches 0.9 fr); reflexivity.
Qed.

Lemma checkThresholds_emergency (s : LightweightMonitor.State) :
  LightweightMonitor.emergencyMode (LightweightMonitor.checkThresholds s)
  = LightweightMonitor.emergencyMode s.
Proof.
  unfold LightweightMonitor.checkThresholds.
  generalize (PrimFloat.div (LightweightMonitor.totalCost (LightweightMonitor.dailyUsage s))
                            (LightweightMonitor.dailyBudget s)).
  intros fraction. generalize (LightweightMonitor.alertThresholds s). intros marks.
  revert s. induction marks as [|mark marks IH]; intros s; [reflexivity|].
  cbn [fold_left]. rewrite IH. unfold LightweightMonitor.checkThreshold.
  destruct (_ && _); reflexivity.
Qed.

(** The first call on another date runs as if on the reset monitor. *)
Lemma trackUsage_new_day (s : LightweightMonitor.State) (today : string) (cost : float)
    (tokens : Z) :
  LightweightMonitor.date (LightweightMonitor.dailyUsage s) <> today ->
  LightweightMonitor.trackUsage today cost tokens s
  = LightweightMonitor.trackUsage today cost tokens
      (LightweightMonitor.resetDailyUsage today s).
Proof.
  intros Hnew. unfold LightweightMonitor.trackUsage.
  destruct (String.eqb_spec (LightweightMonitor.date (LightweightMonitor.dailyUsage s)) today)
    as [Heq|_]; [contradiction|].
  cbn [LightweightMonitor.resetDailyUsage LightweightMonitor.dailyUsage
       LightweightMonitor.freshUsage LightweightMonitor.date].
  rewrite String.eqb_refl. reflexivity.
Qed.

Lemma resetDailyUsage_settled (s : LightweightMonitor.State) (today : string) :
  settled s -> settled (LightweightMonitor.resetDailyUsage today s).
Proof. intros [Hths Himm]. split; assumption. Qed.

Lemma resetDailyUsage_emergency (s : LightweightMonitor.State) (today : string) :
  monitorEmergency (LightweightMonitor.resetDailyUsage today s) = false.
Proof.
  unfold monitorEmergency. cbn [LightweightMonitor.resetDailyUsage LightweightMonitor.emergencyMode].
  destruct (LightweightMonitor.emergencyMode s); reflexivity.
Qed.

Lemma fractions_firstn (budget total : float) (costs : list float) (k : nat) :
  fractions budget total (firstn k costs) = firstn k (fractions budget total costs).
Proof.
  unfold fractions. rewrite firstn_map. f_equal.
  revert total k. induction costs as [|c costs IH]; intros total [|k]; cbn; try reflexivity.
  f_equal. apply IH.
Qed.

(** *** The cost optimizer *)

Lemma leb_const_mono (a b p : float) (ma mb : positive) (ea eb : Z) :
  Prim2SF a = S754_finite false ma ea ->
  Prim2SF b = S754_finite false mb eb ->
  ea < eb \/ (ea = eb /\ (ma <= mb)%positive) ->
  PrimFloat.leb b p = true -> PrimFloat.leb a p = true.
Proof.
  intros Ha Hb Hord. rewrite !leb_spec, Ha, Hb.
  unfold SFleb, SFcompare.
  destruct (Prim2SF p) as [sg|sg| |sg m e]; try destruct sg; try done.
  change (PosDef.Pos.compare_cont Eq mb m) with (mb ?= m)%positive.
  change (PosDef.Pos.compare_cont Eq ma m) with (ma ?= m)%positive.
  destruct (Z.compare_spec eb e) as [E1|E1|E1], (Z.compare_spec ea e) as [E2|E2|E2];
    try done; try (exfalso; lia).
  destruct (Pos.compare_spec mb m) as [M1|M1|M1]; try done;
    destruct (Pos.compare_spec ma m) as [M2|M2|M2]; try done; exfalso; lia.
Qed.

(** A percentage that has reached 90 has reached 70. *)
Lemma leb_90_70 (p : float) : PrimFloat.leb 90 p = true -> PrimFloat.leb 70 p = true.
Proof.
  apply (leb_const_mono 70 90 p 4925812092436480 6333186975989760 (-46) (-46)).
  - vm_compute. reflexivity.
  - vm_compute. reflexivity.
  - right. split; [reflexivity | lia].
Qed.

Lemma leb_70_false_90 (p : float) : PrimFloat.leb 70 p = false -> PrimFloat.leb 90 p = false.
Proof.
  intros H70. destruct (PrimFloat.leb 90 p) eqn:H90; [|reflexivity].
  apply leb_90_70 in H90. congruence.
Qed.

(** One call of the optimizer's [trackUsage], spelled out. *)
Lemma optimizer_trackUsage (o : CostOptimizer.State) (today modelUsed : string)
    (tokens : Z) (cost : float) :
  let total := PrimFloat.add (recordedCost o today) cost in
  let pct := PrimFloat.mul (PrimFloat.div total (CostOptimizer.dailyBudget o)) 100 in
  let o' := fst (CostOptimizer.trackUsage today modelUsed tokens cost o) in
  recordedCost o' today = total
  /\ CostOptimizer.dailyBudget o' = CostOptimizer.dailyBudget o
  /\ (forall d, d <> today -> CostOptimizer.daily o' !! d = CostOptimizer.daily o !! d)
  /\ optimizerEmergency o' = PrimFloat.leb 90 pct || optimizerEmergency o
  /\ exists u,
       CostOptimizer.daily o' !! today = Some u /\
       snd (CostOptimizer.trackUsage today modelUsed tokens cost o)
       = if PrimFloat.leb 90 pct then [CostOptimizer.mkAlert "CRITICAL" u pct]
         else if PrimFloat.leb 70 pct then [CostOptimizer.mkAlert "WARNING" u pct]
         else if PrimFloat.leb 50 pct then [CostOptimizer.mkAlert "INFO" u pct]
         else [].
Proof.
  cbv zeta. unfold CostOptimizer.trackUsage, CostOptimizer.checkBudgetAlert, recordedCost.
  cbn [CostOptimizer.daily]. rewrite lookup_insert_eq.
  unfold CostOptimizer.budgetPercentage.
  cbn [CostOptimizer.totalCost CostOptimizer.dailyBudget].
  set (u := default CostOptimizer.emptyDay (CostOptimizer.daily o !! today)).
  set (pct := PrimFloat.mul (PrimFloat.div (PrimFloat.add (CostOptimizer.totalCost u) cost)
                                           (CostOptimizer.dailyBudget o)) 100).
  destruct (PrimFloat.leb 90 pct); [|destruct (PrimFloat.leb 70 pct);
                                     [|destruct (PrimFloat.leb 50 pct)]];
    cbn [fst snd CostOptimizer.enableEmergencyMode CostOptimizer.daily
         CostOptimizer.dailyBudget];
    rewrite lookup_insert_eq; cbn [default CostOptimizer.totalCost];
    (split; [reflexivity|]); (split; [reflexivity|]);
    (split; [intros d Hd; apply lookup_insert_ne; congruence|]);
    (split; [reflexivity|]); eexists; split; reflexivity.
Qed.

Lemma optimizerAlerts_cons (level : string) (alerts : list CostOptimizer.Alert)
    (rest : list (list CostOptimizer.Alert)) :
  optimizerAlerts level (alerts :: rest)
  = (optimizerAlerts level [alerts] + optimizerAlerts level rest)%nat.
Proof.
  unfold optimizerAlerts. cbn [concat]. rewrite app_nil_r, List.filter_app, length_app.
  reflexivity.
Qed.

(** A run of same-day calls of the optimizer: every call emits the alert
    of the band its percentage is in, whatever was emitted before. *)
Lemma optimizer_run_same_day (calls : list CostOptimizer.Call) (o : CostOptimizer.State)
    (d : string) :
  Forall (fun c => CostOptimizer.today c = d) calls ->
  let pcts := percentages (CostOptimizer.dailyBudget o) (recordedCost o d)
                          (map CostOptimizer.cost calls) in
  let o' := fst (CostOptimizer.run calls o) in
  let alerts := snd (CostOptimizer.run calls o) in
  CostOptimizer.dailyBudget o' = CostOptimizer.dailyBudget o
  /\ optimizerAlerts "CRITICAL" alerts = List.length (List.filter inCriticalBand pcts)
  /\ optimizerAlerts "WARNING" alerts = List.length (List.filter inWarningBand pcts)
  /\ optimizerAlerts "INFO" alerts = List.length (List.filter inInfoBand pcts)
  /\ optimizerEmergency o' = reaches 90 pcts || optimizerEmergency o
  /\ Forall2 (fun a pct => map CostOptimizer.level a = levelsAt pct) alerts pcts.
Proof.
  revert o. induction calls as [|c calls IH]; intros o Hday; cbv zeta.
  - cbn. repeat split; constructor.
  - inversion Hday as [|c' calls' Hc Hrest]; subst c' calls'.
    destruct (optimizer_trackUsage o (CostOptimizer.today c) (CostOptimizer.modelUsed c)
                (CostOptimizer.tokens c) (CostOptimizer.cost c))
      as (Hrec & Hb1 & _ & Hem & u & _ & Hal).
    cbn [CostOptimizer.run]. cbv zeta in *. rewrite Hc in *.
    destruct (CostOptimizer.trackUsage d (CostOptimizer.modelUsed c) (CostOptimizer.tokens c)
                (CostOptimizer.cost c) o) as [o1 alerts1].
    cbn [fst snd] in *.
    specialize (IH o1 Hrest). cbv zeta in IH. rewrite Hb1, Hrec in IH.
    destruct (CostOptimizer.run calls o1) as [o2 rest]. cbn [fst snd] in *.
    destruct IH as (Hb2 & Hcr & Hwa & Hin & Hem2 & Hall).
    unfold percentages in *. cbn [map runningTotals List.filter].
    set (pct := PrimFloat.mul (PrimFloat.div _ _) 100) in *.
    set (pcts := map _ (runningTotals _ _)) in *.
    rewrite (optimizerAlerts_cons "CRITICAL"), (optimizerAlerts_cons "WARNING"),
      (optimizerAlerts_cons "INFO"), Hcr, Hwa, Hin, Hem2, Hem, reaches_cons.
    assert (Hlv : map CostOptimizer.level alerts1 = levelsAt pct).
    { rewrite Hal. unfold levelsAt, inCriticalBand, inWarningBand, inInfoBand.
      destruct (PrimFloat.leb 90 pct), (PrimFloat.leb 70 pct), (PrimFloat.leb 50 pct);
        reflexivity. }
    split; [congruence|].
    do 4 (try split); [| | | | constructor; [exact Hlv | exact Hall]].
    all: rewrite ?Hal; unfold inCriticalBand, inWarningBand, inInfoBand.
    all: destruct (PrimFloat.leb 90 pct) eqn:H90; [rewrite ?(leb_90_70 pct H90)|];
      destruct (PrimFloat.leb 70 pct), (PrimFloat.leb 50 pct), (reaches 90 pcts),
        (optimizerEmergency o); reflexivity.
Qed.

(** *** Budget alerts *)

Lemma turn_onDate (s : LightweightMonitor.State) (c : LightweightMonitor.Call) :
  settled s ->
  LightweightMonitor.turn c s = LightweightMonitor.turn c (onDate (LightweightMonitor.today c) s)
  /\ settled (onDate (LightweightMonitor.today c) s)
  /\ LightweightMonitor.today c
     = LightweightMonitor.date (LightweightMonitor.dailyUsage (onDate (LightweightMonitor.today c) s))
  /\ LightweightMonitor.dailyBudget (onDate (LightweightMonitor.today c) s)
     = LightweightMonitor.dailyBudget s.
Proof.
  intros Hs. unfold onDate.
  destruct (String.eqb_spec (LightweightMonitor.date (LightweightMonitor.dailyUsage s))
              (LightweightMonitor.today c)) as [Heq|Hne].
  - auto.
  - unfold LightweightMonitor.turn. rewrite (trackUsage_new_day s _ _ _ Hne).
    split; [reflexivity|]. split; [apply resetDailyUsage_settled, Hs|]. split; reflexivity.
Qed.

(** The claim C1 fails on [CostOptimizer.trackUsage]: on a day that goes
    72%, 76%, 92%, 94% the WARNING alert fires twice and the CRITICAL
    alert fires twice, and the first call of the next date leaves
    emergency mode on. *)
Lemma C1_counterexample :
  Forall (fun c => CostOptimizer.today c = day1) optimizerCalls
  /\ map (map CostOptimizer.level) (snd (CostOptimizer.run optimizerCalls sampleOptimizer))
     = [["WARNING"]; ["WARNING"]; ["CRITICAL"]; ["CRITICAL"]]
  /\ optimizerAlerts "WARNING" (snd (CostOptimizer.run optimizerCalls sampleOptimizer)) = 2%nat
  /\ optimizerAlerts "CRITICAL" (snd (CostOptimizer.run optimizerCalls sampleOptimizer)) = 2%nat
  /\ optimizerEmergency
       (fst (CostOptimizer.trackUsage day2 "claude-code" 10 0.01
               (fst (CostOptimizer.run optimizerCalls sampleOptimizer)))) = true.
Proof.
  split; [repeat constructor|]. repeat split; vm_compute; reflexivity.
Qed.

(** *** Schedules of the monitor *)

Lemma runImmediates_emergency (s : LightweightMonitor.State) :
  LightweightMonitor.emergencyMode (fst (LightweightMonitor.runImmediates s))
  = LightweightMonitor.emergencyMode s.
Proof. reflexivity. Qed.

(** A call of [trackUsage] with its callbacks never switches emergency
    mode on. *)
Lemma turn_emergency (c : LightweightMonitor.Call) (s : LightweightMonitor.State) :
  monitorEmergency (fst (LightweightMonitor.turn c s)) = true -> monitorEmergency s = true.
Proof.
  unfold monitorEmergency, LightweightMonitor.turn. rewrite runImmediates_emergency.
  unfold LightweightMonitor.trackUsage. rewrite checkThresholds_emergency.
  cbn [LightweightMonitor.emergencyMode].
  destruct (String.eqb (LightweightMonitor.date (LightweightMonitor.dailyUsage s))
                       (LightweightMonitor.today c)); [auto|].
  cbn [LightweightMonitor.resetDailyUsage LightweightMonitor.emergencyMode].
  destruct (LightweightMonitor.emergencyMode s); discriminate.
Qed.

Lemma remove_nth_split {A : Type} (l : list A) (i : nat) (x : A) :
  nth_error l i = Some x ->
  exists l1 l2, l = l1 ++ x :: l2 /\ firstn i l ++ skipn (S i) l = l1 ++ l2.
Proof.
  revert i. induction l as [|y l IH]; intros [|i] Hnth; try discriminate.
  - injection Hnth as ->. exists [], l. split; reflexivity.
  - destruct (IH i Hnth) as (l1 & l2 & Hl & Hrm).
    exists (y :: l1), l2. split; [cbn; congruence|].
    change (firstn (S i) (y :: l)) with (y :: firstn i l).
    change (skipn (S (S i)) (y :: l)) with (skipn (S i) l).
    cbn [app]. congruence.
Qed.

(** A suspended alert that goes on: it leaves the queue, and switches
    emergency mode on when it is a critical one. *)
Lemma resume_facts (i : nat) (s : LightweightMonitor.State) :
  let s1 := LightweightMonitor.resume i s in
  LightweightMonitor.dailyBudget s1 = LightweightMonitor.dailyBudget s
  /\ LightweightMonitor.dailyUsage s1 = LightweightMonitor.dailyUsage s
  /\ LightweightMonitor.alertThresholds s1 = LightweightMonitor.alertThresholds s
  /\ LightweightMonitor.alertTriggered s1 = LightweightMonitor.alertTriggered s
  /\ LightweightMonitor.immediates s1 = LightweightMonitor.immediates s
  /\ match nth_error (LightweightMonitor.awaiting s) i with
     | Some t =>
         LightweightMonitor.awaiting s1
         = firstn i (LightweightMonitor.awaiting s) ++ skipn (S i) (LightweightMonitor.awaiting s)
         /\ monitorEmergency s1 = critical t || monitorEmergency s
     | None => s1 = s
     end.
Proof.
  cbv zeta. unfold LightweightMonitor.resume, LightweightMonitor.afterDashboard, critical.
  destruct (nth_error (LightweightMonitor.awaiting s) i) as [t|]; [|repeat split].
  destruct (PrimFloat.leb 0.9 t); repeat split.
Qed.

Lemma abandon_facts (i : nat) (s : LightweightMonitor.State) :
  let s1 := LightweightMonitor.abandon i s in
  LightweightMonitor.dailyBudget s1 = LightweightMonitor.dailyBudget s
  /\ LightweightMonitor.dailyUsage s1 = LightweightMonitor.dailyUsage s
  /\ LightweightMonitor.alertThresholds s1 = LightweightMonitor.alertThresholds s
  /\ LightweightMonitor.alertTriggered s1 = LightweightMonitor.alertTriggered s
  /\ LightweightMonitor.immediates s1 = LightweightMonitor.immediates s
  /\ monitorEmergency s1 = monitorEmergency s
  /\ match nth_error (LightweightMonitor.awaiting s) i with
     | Some t =>
         LightweightMonitor.awaiting s1
         = firstn i (LightweightMonitor.awaiting s) ++ skipn (S i) (LightweightMonitor.awaiting s)
     | None => s1 = s
     end.
Proof.
  cbv zeta. unfold LightweightMonitor.abandon.
  destruct (nth_error (LightweightMonitor.awaiting s) i) as [t|]; repeat split.
Qed.

Lemma resume_sound (i : nat) (s : LightweightMonitor.State) :
  pendingSound s -> pendingSound (LightweightMonitor.resume i s).
Proof.
  intros [Hem Haw]. destruct (resume_facts i s) as (_ & _ & _ & Hset & _ & Hcase).
  cbv zeta in Hset, Hcase. unfold pendingSound. rewrite Hset.
  destruct (nth_error (LightweightMonitor.awaiting s) i) as [t|] eqn:Hnth;
    [|rewrite Hcase; auto].
  destruct Hcase as [Hrest Hon]. rewrite Hrest, Hon.
  destruct (remove_nth_split _ _ _ Hnth) as (l1 & l2 & Hl & Hrm). rewrite Hrm, Hl in *.
  split.
  - intros Hor. apply orb_true_iff in Hor as [Hcrit|Hold]; [|auto].
    apply Haw. apply Exists_app. right. constructor. exact Hcrit.
  - intros Hex. apply Haw. apply Exists_app in Hex as [Hex|Hex]; apply Exists_app; auto.
Qed.

Lemma abandon_sound (i : nat) (s : LightweightMonitor.State) :
  pendingSound s -> pendingSound (LightweightMonitor.abandon i s).
Proof.
  intros [Hem Haw]. destruct (abandon_facts i s) as (_ & _ & _ & Hset & _ & Hon & Hcase).
  cbv zeta in Hset, Hon, Hcase. unfold pendingSound. rewrite Hset, Hon.
  destruct (nth_error (LightweightMonitor.awaiting s) i) as [t|] eqn:Hnth;
    [|rewrite Hcase; auto].
  rewrite Hcase.
  destruct (remove_nth_split _ _ _ Hnth) as (l1 & l2 & Hl & Hrm). rewrite Hrm, Hl in *.
  split; [exact Hem|].
  intros Hex. apply Haw. apply Exists_app in Hex as [Hex|Hex]; apply Exists_app; auto.
Qed.

Lemma resume_complete (i : nat) (s : LightweightMonitor.State) :
  pendingComplete s -> pendingComplete (LightweightMonitor.resume i s).
Proof.
  intros Hc. destruct (resume_facts i s) as (_ & _ & _ & Hset & _ & Hcase).
  cbv zeta in Hset, Hcase. unfold pendingComplete. rewrite Hset.
  destruct (nth_error (LightweightMonitor.awaiting s) i) as [t|] eqn:Hnth;
    [|rewrite Hcase; auto].
  destruct Hcase as [Hrest Hon]. rewrite Hrest, Hon.
  destruct (remove_nth_split _ _ _ Hnth) as (l1 & l2 & Hl & Hrm). rewrite Hrm.
  intros Hfired. destruct (Hc Hfired) as [Hold|Hex].
  - left. rewrite Hold. apply orb_true_r.
  - rewrite Hl in Hex. apply Exists_app in Hex as [Hex|Hex].
    + right. apply Exists_app. auto.
    + inversion Hex as [? ? Hcrit|? ? Hex']; subst.
      * left. rewrite Hcrit. reflexivity.
      * right. apply Exists_app. auto.
Qed.

Lemma turn_sound (c : LightweightMonitor.Call) (s : LightweightMonitor.State) :
  settled s ->
  LightweightMonitor.today c = LightweightMonitor.date (LightweightMonitor.dailyUsage s) ->
  (pendingSound s -> pendingSound (fst (LightweightMonitor.turn c s)))
  /\ (pendingComplete s -> pendingComplete (fst (LightweightMonitor.turn c s))).
Proof.
  intros Hs Hday.
  destruct (turn_same_day_facts s c Hs Hday) as (_ & _ & _ & _ & _ & H9 & Hem & _ & Haw).
  cbv zeta in H9, Hem, Haw. unfold pendingSound, pendingComplete.
  rewrite H9, Hem, Haw. unfold firesNow.
  set (fraction := PrimFloat.div _ _).
  set (h9 := LightweightMonitor.has (LightweightMonitor.alertTriggered s) 0.9).
  assert (C7 : critical 0.7 = false) by reflexivity.
  assert (C9 : critical 0.9 = true) by reflexivity.
  split.
  - intros [Hon Hpending]. split.
    + intros Htrue. rewrite (Hon Htrue). reflexivity.
    + intros Hex. apply Exists_app in Hex as [Hex|Hex]; [rewrite (Hpending Hex); reflexivity|].
      apply Exists_app in Hex as [Hex|Hex].
      * destruct (_ && _); inversion Hex as [? ? Hcrit|? ? Hex']; subst;
          [congruence | inversion Hex'].
      * destruct (PrimFloat.leb 0.9 fraction), h9; cbn [andb negb orb] in *;
          try reflexivity; inversion Hex.
  - intros Hc Hfired. destruct h9 eqn:Hh9.
    + destruct (Hc eq_refl) as [Hold|Hex]; [auto|]. right. apply Exists_app. auto.
    + cbn [orb] in Hfired. rewrite Hfired. cbn [andb negb]. right.
      apply Exists_app. right. apply Exists_app. right. constructor. exact C9.
Qed.

Lemma tracked_firstn (P : LightweightMonitor.Call -> Prop)
    (events : list LightweightMonitor.Event) (k : nat) :
  Forall P (tracked events) -> Forall P (tracked (firstn k events)).
Proof.
  revert k. induction events as [|e events IH]; intros [|k] Hall; try constructor.
  change (firstn (S k) (e :: events)) with (e :: firstn k events).
  unfold tracked in *. cbn [flat_map] in *.
  apply Forall_app in Hall as [He Hrest]. apply Forall_app. split; [exact He|].
  apply IH, Hrest.
Qed.

(** A schedule of one day from a settled monitor: each threshold fires
    once if it had not fired and is reached by the calls, and not
    otherwise, however the suspended alerts are interleaved; emergency
    mode keeps having a cause, and the firing of 0.9 keeps having its
    effect as long as no dashboard update is rejected. *)
Lemma exec_same_day (events : list LightweightMonitor.Event) (s : LightweightMonitor.State) :
  settled s ->
  Forall (fun c => LightweightMonitor.today c
                   = LightweightMonitor.date (LightweightMonitor.dailyUsage s))
         (tracked events) ->
  let fr := fractions (LightweightMonitor.dailyBudget s)
                      (LightweightMonitor.totalCost (LightweightMonitor.dailyUsage s))
                      (map LightweightMonitor.cost (tracked events)) in
  let set := LightweightMonitor.alertTriggered s in
  let s' := fst (LightweightMonitor.exec events s) in
  let alerts := snd (LightweightMonitor.exec events s) in
  settled s'
  /\ LightweightMonitor.date (LightweightMonitor.dailyUsage s')
     = LightweightMonitor.date (LightweightMonitor.dailyUsage s)
  /\ LightweightMonitor.dailyBudget s' = LightweightMonitor.dailyBudget s
  /\ LightweightMonitor.has (LightweightMonitor.alertTriggered s') 0.7
     = LightweightMonitor.has set 0.7 || reaches 0.7 fr
  /\ LightweightMonitor.has (LightweightMonitor.alertTriggered s') 0.9
     = LightweightMonitor.has set 0.9 || reaches 0.9 fr
  /\ monitorAlerts "WARNING" alerts
     = (if negb (LightweightMonitor.has set 0.7) && reaches 0.7 fr then 1 else 0)%nat
  /\ monitorAlerts "CRITICAL" alerts
     = (if negb (LightweightMonitor.has set 0.9) && reaches 0.9 fr then 1 else 0)%nat
  /\ (pendingSound s -> pendingSound s')
  /\ (forallb settles events = true -> pendingComplete s -> pendingComplete s').
Proof.
  revert s. induction events as [|e events IH]; intros s Hs Hday; cbv zeta.
  - cbn. rewrite !orb_false_r, !andb_false_r.
    repeat match goal with |- _ /\ _ => split end; try apply Hs; auto.
  - cbn [LightweightMonitor.exec]. destruct e as [c|i|i].
    + unfold tracked in Hday |- *. cbn [flat_map app] in Hday |- *.
      fold (tracked events) in Hday |- *.
      inversion Hday as [|c' calls' Hc Hrest]; subst c' calls'.
      destruct (turn_same_day_facts s c Hs Hc)
        as (Hs1 & Hd1 & Hb1 & Ht1 & H7 & H9 & _ & Hal & _).
      destruct (turn_sound c s Hs Hc) as [Hsound Hcomplete].
      cbn [LightweightMonitor.step]. cbv zeta in *.
      destruct (LightweightMonitor.turn c s) as [s1 alerts1]. cbn [fst snd] in *.
      specialize (IH s1 Hs1). rewrite Hd1, Hb1, Ht1 in IH. specialize (IH Hrest).
      cbv zeta in IH.
      destruct (LightweightMonitor.exec events s1) as [s2 rest]. cbn [fst snd] in *.
      destruct IH as (Hs2 & Hd2 & Hb2 & H7' & H9' & Hw & Hc' & Hsound' & Hcomplete').
      unfold fractions in *. cbn [map runningTotals].
      rewrite !reaches_cons.
      set (fraction := PrimFloat.div _ _) in *.
      set (fr := map _ (runningTotals _ _)) in *.
      rewrite (monitorAlerts_cons "WARNING"), (monitorAlerts_cons "CRITICAL"), Hw, Hc'.
      rewrite H7', H9', H7, H9, Hal. unfold firesNow.
      set (h7 := LightweightMonitor.has (LightweightMonitor.alertTriggered s) 0.7).
      set (h9 := LightweightMonitor.has (LightweightMonitor.alertTriggered s) 0.9).
      repeat match goal with |- _ /\ _ => split end;
        try apply Hs2; try congruence; auto.
      all: destruct h7, h9, (PrimFloat.leb 0.7 fraction), (PrimFloat.leb 0.9 fraction),
             (reaches 0.7 fr), (reaches 0.9 fr); reflexivity.
    + change (tracked (LightweightMonitor.Resume i :: events)) with (tracked events) in *.
      destruct (resume_facts i s) as (Hb1 & Hu1 & Hth1 & Hset1 & Himm1 & _).
      cbv zeta in Hb1, Hu1, Hth1, Hset1, Himm1.
      cbn [LightweightMonitor.step].
      assert (Hs1 : settled (LightweightMonitor.resume i s))
        by (destruct Hs; split; congruence).
      specialize (IH (LightweightMonitor.resume i s) Hs1).
      rewrite Hu1, Hb1, Hset1 in IH. specialize (IH Hday). cbv zeta in IH.
      destruct (LightweightMonitor.exec events (LightweightMonitor.resume i s)) as [s2 rest].
      cbn [fst snd] in *.
      destruct IH as (Hs2 & Hd2 & Hb2 & H7' & H9' & Hw & Hc' & Hsound' & Hcomplete').
      rewrite (monitorAlerts_cons "WARNING"), (monitorAlerts_cons "CRITICAL"), Hw, Hc'.
      repeat match goal with |- _ /\ _ => split end;
        try apply Hs2; try assumption; try reflexivity.
      * intros Hsound. apply Hsound', resume_sound, Hsound.
      * intros Hok Hcomplete. apply Hcomplete'; [exact Hok|].
        apply resume_complete, Hcomplete.
    + change (tracked (LightweightMonitor.Fail i :: events)) with (tracked events) in *.
      destruct (abandon_facts i s) as (Hb1 & Hu1 & Hth1 & Hset1 & Himm1 & _).
      cbv zeta in Hb1, Hu1, Hth1, Hset1, Himm1.
      cbn [LightweightMonitor.step].
      assert (Hs1 : settled (LightweightMonitor.abandon i s))
        by (destruct Hs; split; congruence).
      specialize (IH (LightweightMonitor.abandon i s) Hs1).
      rewrite Hu1, Hb1, Hset1 in IH. specialize (IH Hday). cbv zeta in IH.
      destruct (LightweightMonitor.exec events (LightweightMonitor.abandon i s)) as [s2 rest].
      cbn [fst snd] in *.
      destruct IH as (Hs2 & Hd2 & Hb2 & H7' & H9' & Hw & Hc' & Hsound' & Hcomplete').
      rewrite (monitorAlerts_cons "WARNING"), (monitorAlerts_cons "CRITICAL"), Hw, Hc'.
      repeat match goal with |- _ /\ _ => split end;
        try apply Hs2; try assumption; try reflexivity.
      * intros Hsound. apply Hsound', abandon_sound, Hsound.
      * cbn [forallb settles andb]. discriminate.
Qed.

(** C1, as the code has it.  In the lightweight monitor, take a day of
    [trackUsage] calls, with the alerts they start finishing at any
    later moments, that starts with nothing fired, nothing suspended and
    emergency mode off, and whose cumulative cost reaches 70% and 90% of
    the budget.  One WARNING and one CRITICAL alert fire in all.
    Emergency mode is on only at or after the 90% crossing: at no moment
    of the day is it on unless 90% has been reached by the calls made by
    then; no call switches it on, the CRITICAL alert does when its
    dashboard update has been fulfilled; and unless a dashboard update is
    rejected, at the end of the day it is on or the CRITICAL alert is
    still suspended.  The first call of another date runs on the reset
    monitor (counters zero, nothing fired, emergency mode off): when it
    returns, and after its own callbacks, emergency mode is off, and the
    thresholds fire afresh; a CRITICAL alert of the day before that is
    still suspended then switches emergency mode on when it goes on.  In
    the cost optimizer no memory of fired alerts is kept: each call emits
    the alert of the band its day is in, emergency mode is switched on
    only by a call that leaves the day at 90% or more, and a date without
    a record starts from zero. *)
Theorem C1_alerts_once_per_day_and_rollover
    (s : LightweightMonitor.State) (events : list LightweightMonitor.Event)
    (next : LightweightMonitor.Call)
    (o : CostOptimizer.State) (ocalls : list CostOptimizer.Call) (d : string) :
  settled s ->
  LightweightMonitor.alertTriggered s = [] ->
  monitorEmergency s = false ->
  LightweightMonitor.awaiting s = [] ->
  Forall (fun c => LightweightMonitor.today c
                   = LightweightMonitor.date (LightweightMonitor.dailyUsage s))
         (tracked events) ->
  reaches 0.7 (fractions (LightweightMonitor.dailyBudget s)
                 (LightweightMonitor.totalCost (LightweightMonitor.dailyUsage s))
                 (map LightweightMonitor.cost (tracked events))) = true ->
  reaches 0.9 (fractions (LightweightMonitor.dailyBudget s)
                 (LightweightMonitor.totalCost (LightweightMonitor.dailyUsage s))
                 (map LightweightMonitor.cost (tracked events))) = true ->
  LightweightMonitor.today next
  <> LightweightMonitor.date (LightweightMonitor.dailyUsage s) ->
  Forall (fun c => CostOptimizer.today c = d) ocalls ->
  let s' := fst (LightweightMonitor.exec events s) in
  let alerts := snd (LightweightMonitor.exec events s) in
  let r := LightweightMonitor.resetDailyUsage (LightweightMonitor.today next) s' in
  let f := PrimFloat.div (PrimFloat.add 0 (LightweightMonitor.cost next))
                         (LightweightMonitor.dailyBudget s) in
  let pcts := percentages (CostOptimizer.dailyBudget o) (recordedCost o d)
                          (map CostOptimizer.cost ocalls) in
  let o' := fst (CostOptimizer.run ocalls o) in
  let oalerts := snd (CostOptimizer.run ocalls o) in
  (monitorAlerts "WARNING" alerts = 1%nat
   /\ monitorAlerts "CRITICAL" alerts = 1%nat
   /\ (forall k,
         monitorEmergency (fst (LightweightMonitor.exec (firstn k events) s)) = true ->
         reaches 0.9 (fractions (LightweightMonitor.dailyBudget s)
                        (LightweightMonitor.totalCost (LightweightMonitor.dailyUsage s))
                        (map LightweightMonitor.cost (tracked (firstn k events)))) = true)
   /\ (forall c s0,
         monitorEmergency (fst (LightweightMonitor.turn c s0)) = true ->
         monitorEmergency s0 = true)
   /\ (forall i t s0,
         nth_error (LightweightMonitor.awaiting s0) i = Some t ->
         monitorEmergency (LightweightMonitor.resume i s0)
         = PrimFloat.leb 0.9 t || monitorEmergency s0)
   /\ (forallb settles events = true ->
       monitorEmergency s' = true
       \/ Exists (fun t => PrimFloat.leb 0.9 t = true) (LightweightMonitor.awaiting s'))
   /\ (forallb settles events = true -> LightweightMonitor.awaiting s' = [] ->
       monitorEmergency s' = true)
   /\ LightweightMonitor.turn next s' = LightweightMonitor.turn next r
   /\ LightweightMonitor.dailyUsage r
      = LightweightMonitor.freshUsage (LightweightMonitor.today next)
   /\ LightweightMonitor.alertTriggered r = []
   /\ monitorEmergency r = false
   /\ monitorEmergency
        (LightweightMonitor.trackUsage (LightweightMonitor.today next)
           (LightweightMonitor.cost next) (LightweightMonitor.tokens next) s') = false
   /\ monitorEmergency (fst (LightweightMonitor.turn next s')) = false
   /\ LightweightMonitor.totalCost
        (LightweightMonitor.dailyUsage (fst (LightweightMonitor.turn next s')))
      = PrimFloat.add 0 (LightweightMonitor.cost next)
   /\ snd (LightweightMonitor.turn next s')
      = (if PrimFloat.leb 0.7 f then [LightweightMonitor.mkAlert "WARNING" 0.7 f] else [])
        ++ (if PrimFloat.leb 0.9 f then [LightweightMonitor.mkAlert "CRITICAL" 0.9 f] else [])
   /\ (forall i t,
         nth_error (LightweightMonitor.awaiting s') i = Some t ->
         PrimFloat.leb 0.9 t = true ->
         monitorEmergency
           (LightweightMonitor.resume i (fst (LightweightMonitor.turn next s'))) = true))
  /\ (optimizerAlerts "WARNING" oalerts = List.length (List.filter inWarningBand pcts)
      /\ optimizerAlerts "CRITICAL" oalerts = List.length (List.filter inCriticalBand pcts)
      /\ optimizerEmergency o' = reaches 90 pcts || optimizerEmergency o
      /\ (forall today modelUsed tokens cost,
            CostOptimizer.daily o' !! today = None ->
            recordedCost (fst (CostOptimizer.trackUsage today modelUsed tokens cost o')) today
            = PrimFloat.add 0 cost)).
Proof.
  intros Hs Hset Hoff Hnone Hday H70 H90 Hnext Hoday. cbv zeta.
  assert (Hsound : pendingSound s).
  { split; [rewrite Hoff; discriminate|]. rewrite Hnone. intros Hex. inversion Hex. }
  assert (Hcomplete : pendingComplete s).
  { intros Hfired. rewrite Hset in Hfired. discriminate Hfired. }
  destruct (exec_same_day events s Hs Hday)
    as (Hs' & Hd' & Hb' & _ & Hf9 & Hw & Hc & _ & Hcomplete').
  cbv zeta in *. rewrite Hset in Hw, Hc, Hf9. rewrite H70 in Hw. rewrite H90 in Hc, Hf9.
  split.
  - set (s' := fst (LightweightMonitor.exec events s)) in *.
    assert (Hne : LightweightMonitor.date (LightweightMonitor.dailyUsage s')
                  <> LightweightMonitor.today next) by (rewrite Hd'; congruence).
    set (r := LightweightMonitor.resetDailyUsage (LightweightMonitor.today next) s').
    assert (Hturn : LightweightMonitor.turn next s' = LightweightMonitor.turn next r).
    { unfold LightweightMonitor.turn. rewrite (trackUsage_new_day s' _ _ _ Hne). reflexivity. }
    assert (Hr : settled r) by (apply resetDailyUsage_settled, Hs').
    destruct (turn_same_day_facts r next Hr eq_refl)
      as (_ & _ & _ & Ht & _ & _ & Hemr & Halr & Hawr).
    cbv zeta in Ht, Hemr, Halr, Hawr.
    pose proof (resetDailyUsage_emergency s' (LightweightMonitor.today next)) as Hre.
    fold r in Hre.
    split; [exact Hw|]. split; [exact Hc|]. split.
    { intros k Hon.
      destruct (exec_same_day (firstn k events) s Hs (tracked_firstn _ events k Hday))
        as (_ & _ & _ & _ & Hf9k & _ & _ & Hsoundk & _).
      cbv zeta in Hf9k, Hsoundk. destruct (Hsoundk Hsound) as [Hcause _].
      rewrite Hf9k, Hset in Hcause. exact (Hcause Hon). }
    split; [exact turn_emergency|].
    split.
    { intros i t s0 Hnth. destruct (resume_facts i s0) as (_ & _ & _ & _ & _ & Hcase).
      cbv zeta in Hcase. rewrite Hnth in Hcase. exact (proj2 Hcase). }
    split; [intros Hok; exact (Hcomplete' Hok Hcomplete Hf9)|].
    split.
    { intros Hok Hempty. destruct (Hcomplete' Hok Hcomplete Hf9) as [Hon|Hex]; [exact Hon|].
      rewrite Hempty in Hex. inversion Hex. }
    split; [exact Hturn|].
    split; [reflexivity|]. split; [reflexivity|].
    split; [exact Hre|].
    split.
    { rewrite (trackUsage_new_day s' _ _ _ Hne). unfold monitorEmergency.
      unfold LightweightMonitor.trackUsage.
      change (LightweightMonitor.date
                (LightweightMonitor.dailyUsage
                   (LightweightMonitor.resetDailyUsage (LightweightMonitor.today next) s')))
        with (LightweightMonitor.today next).
      rewrite String.eqb_refl, checkThresholds_emergency.
      cbn [LightweightMonitor.emergencyMode].
      apply (resetDailyUsage_emergency s'). }
    split; [rewrite Hturn, Hemr; exact Hre|].
    split; [rewrite Hturn; exact Ht|].
    split.
    { rewrite Hturn, Halr. unfold firesNow.
      cbn [r LightweightMonitor.resetDailyUsage LightweightMonitor.alertTriggered
           LightweightMonitor.dailyUsage LightweightMonitor.freshUsage
           LightweightMonitor.totalCost LightweightMonitor.dailyBudget
           LightweightMonitor.has existsb negb].
      rewrite Hb', !andb_true_r. reflexivity. }
    intros i t Hnth Hcrit.
    destruct (resume_facts i (fst (LightweightMonitor.turn next s')))
      as (_ & _ & _ & _ & _ & Hcase).
    cbv zeta in Hcase. rewrite Hturn in Hcase |- *. rewrite Hawr in Hcase.
    change (LightweightMonitor.awaiting r) with (LightweightMonitor.awaiting s') in Hcase.
    rewrite nth_error_app1 in Hcase by (apply nth_error_Some; congruence).
    rewrite Hnth in Hcase. destruct Hcase as [_ Hon]. rewrite Hon.
    unfold critical. rewrite Hcrit. reflexivity.
  - destruct (optimizer_run_same_day ocalls o d Hoday) as (_ & Hcr & Hwa & _ & Hoem & _).
    cbv zeta in *. split; [exact Hwa|]. split; [exact Hcr|]. split; [exact Hoem|].
    intros today modelUsed tokens cost Hnone'.
    destruct (optimizer_trackUsage (fst (CostOptimizer.run ocalls o)) today modelUsed
                tokens cost) as (Hrec & _).
    cbv zeta in Hrec. rewrite Hrec. unfold recordedCost. rewrite Hnone'. reflexivity.
Qed.

Lemma C1_alerts_once_per_day_and_rollover_witness :
  monitorAlerts "WARNING" (snd (LightweightMonitor.exec monitorEvents sampleMonitor)) = 1%nat
  /\ monitorAlerts "CRITICAL" (snd (LightweightMonitor.exec monitorEvents sampleMonitor))
     = 1%nat
  /\ monitorEmergency (fst (LightweightMonitor.exec monitorEvents sampleMonitor)) = true.
Proof.
  assert (Hs : settled sampleMonitor) by (split; reflexivity).
  assert (Hday : Forall (fun c => LightweightMonitor.today c
                                  = LightweightMonitor.date
                                      (LightweightMonitor.dailyUsage sampleMonitor))
                        (tracked monitorEvents)) by (repeat constructor).
  assert (Hnext : LightweightMonitor.today (LightweightMonitor.mkCall day2 0.5 100)
                  <> LightweightMonitor.date (LightweightMonitor.dailyUsage sampleMonitor))
    by (vm_compute; discriminate).
  assert (Hoday : Forall (fun c => CostOptimizer.today c = day1) optimizerCalls)
    by (repeat constructor).
  destruct (C1_alerts_once_per_day_and_rollover sampleMonitor monitorEvents
              (LightweightMonitor.mkCall day2 0.5 100) sampleOptimizer optimizerCalls day1
              Hs eq_refl eq_refl eq_refl Hday eq_refl eq_refl Hnext Hoday)
    as [(Hw & Hc & _ & _ & _ & _ & Hon & _) _].
  split; [exact Hw|]. split; [exact Hc|]. apply Hon; reflexivity.
Defined.

(** The claim C9 fails on [CostOptimizer.checkBudgetAlert]: one call that
    takes the day from 0 to 95% of the budget, past 70% and 90% at once,
    emits the CRITICAL alert alone; no WARNING alert is emitted. *)
Lemma C9_counterexample :
  recordedCost sampleOptimizer day1 = 0%float
  /\ percentages (CostOptimizer.dailyBudget sampleOptimizer) 0 [4.75%float] = [95%float]
  /\ PrimFloat.leb 70 95 = true /\ PrimFloat.leb 90 95 = true
  /\ map CostOptimizer.level
       (snd (CostOptimizer.trackUsage day1 "claude-opus-4.6" 1000 4.75 sampleOptimizer))
     = ["CRITICAL"]
  /\ optimizerAlerts "WARNING"
       [snd (CostOptimizer.trackUsage day1 "claude-opus-4.6" 1000 4.75 sampleOptimizer)]
     = 0%nat.
Proof. repeat split; vm_compute; reflexivity. Qed.

(** C9, as the code has it.  In the lightweight monitor a call emits, in
    the order of the threshold list [0.7, 0.9], an alert for exactly the
    thresholds that the new fraction has reached and that had not fired
    (on the day the call accumulates into), WARNING for 0.7 and CRITICAL
    for 0.9, and marks them fired; so one call that reaches both with
    neither fired emits WARNING and then CRITICAL.  In the cost optimizer
    a call emits the single alert of the band the day is in. *)
Theorem C9_thresholds_fire_in_order
    (s : LightweightMonitor.State) (c : LightweightMonitor.Call)
    (o : CostOptimizer.State) (today modelUsed : string) (tokens : Z) (cost : float) :
  settled s ->
  let s0 := onDate (LightweightMonitor.today c) s in
  let f := PrimFloat.div
             (PrimFloat.add (LightweightMonitor.totalCost (LightweightMonitor.dailyUsage s0))
                            (LightweightMonitor.cost c))
             (LightweightMonitor.dailyBudget s) in
  let fired := LightweightMonitor.alertTriggered s0 in
  let alerts := snd (LightweightMonitor.turn c s) in
  let pct := PrimFloat.mul
               (PrimFloat.div (PrimFloat.add (recordedCost o today) cost)
                              (CostOptimizer.dailyBudget o)) 100 in
  map LightweightMonitor.threshold alerts
  = List.filter (fun mark => firesNow fired mark f) [0.7%float; 0.9%float]
  /\ map LightweightMonitor.level alerts
     = map (fun mark => if PrimFloat.leb 0.9 mark then "CRITICAL" else "WARNING")
           (map LightweightMonitor.threshold alerts)
  /\ Forall (fun a => LightweightMonitor.percentage a = f) alerts
  /\ (forall mark, In mark [0.7%float; 0.9%float] -> firesNow fired mark f = true ->
        LightweightMonitor.has
          (LightweightMonitor.alertTriggered (fst (LightweightMonitor.turn c s))) mark = true)
  /\ (firesNow fired 0.7 f = true -> firesNow fired 0.9 f = true ->
        map LightweightMonitor.level alerts = ["WARNING"; "CRITICAL"])
  /\ map CostOptimizer.level
       (snd (CostOptimizer.trackUsage today modelUsed tokens cost o))
     = levelsAt pct
  /\ (List.length (snd (CostOptimizer.trackUsage today modelUsed tokens cost o)) <= 1)%nat.
Proof.
  intros Hs. cbv zeta.
  destruct (turn_onDate s c Hs) as (Hturn & Hs0 & Hday & Hb0).
  destruct (turn_same_day_facts _ c Hs0 Hday) as (_ & _ & _ & _ & H7 & H9 & _ & Hal & _).
  cbv zeta in H7, H9, Hal. rewrite <- Hturn in H7, H9, Hal. rewrite Hb0 in H7, H9, Hal.
  set (s0 := onDate (LightweightMonitor.today c) s) in *.
  set (f := PrimFloat.div _ (LightweightMonitor.dailyBudget s)) in *.
  set (fired := LightweightMonitor.alertTriggered s0) in *.
  rewrite Hal. cbn [List.filter].
  repeat match goal with |- _ /\ _ => split end.
  - destruct (firesNow fired 0.7 f), (firesNow fired 0.9 f); reflexivity.
  - destruct (firesNow fired 0.7 f), (firesNow fired 0.9 f); reflexivity.
  - destruct (firesNow fired 0.7 f), (firesNow fired 0.9 f); repeat constructor.
  - intros mark [<-|[<-|[]]] Hfire; apply andb_true_iff in Hfire as [Hreach _].
    + rewrite H7, Hreach. apply orb_true_r.
    + rewrite H9, Hreach. apply orb_true_r.
  - intros -> ->. reflexivity.
  - destruct (optimizer_trackUsage o today modelUsed tokens cost) as (_ & _ & _ & _ & u & _ & Ho).
    cbv zeta in Ho. rewrite Ho.
    set (pct := PrimFloat.mul _ 100).
    unfold levelsAt, inCriticalBand, inWarningBand, inInfoBand.
    destruct (PrimFloat.leb 90 pct) eqn:H90; [reflexivity|].
    destruct (PrimFloat.leb 70 pct), (PrimFloat.leb 50 pct); reflexivity.
  - destruct (optimizer_trackUsage o today modelUsed tokens cost) as (_ & _ & _ & _ & u & _ & Ho).
    cbv zeta in Ho. rewrite Ho.
    set (pct := PrimFloat.mul _ 100).
    destruct (PrimFloat.leb 90 pct); [cbn; lia|].
    destruct (PrimFloat.leb 70 pct); [cbn; lia|].
    destruct (PrimFloat.leb 50 pct); cbn; lia.
Qed.

Lemma C9_thresholds_fire_in_order_witness :
  map LightweightMonitor.level
    (snd (LightweightMonitor.turn (LightweightMonitor.mkCall day1 4.75 1000) sampleMonitor))
  = ["WARNING"; "CRITICAL"].
Proof.
  assert (Hs : settled sampleMonitor) by (split; reflexivity).
  destruct (C9_thresholds_fire_in_order sampleMonitor
              (LightweightMonitor.mkCall day1 4.75 1000) sampleOptimizer day1
              "claude-opus-4.6" 1000 4.75 Hs) as (_ & _ & _ & _ & Hboth & _).
  apply Hboth; vm_compute; reflexivity.
Defined.

(** C10. In the cost optimizer, a [trackUsage] call that leaves the day's
    percentage at 50 or more and below 70 emits one INFO alert, and does so
    on every such call: over a day of calls that all end in that band the
    number of INFO alerts is the number of calls.  The lightweight
    monitor has no such level: its alerts are WARNING or CRITICAL. *)
Theorem C10_info_alert_on_every_call
    (o : CostOptimizer.State) (calls : list CostOptimizer.Call) (d : string) :
  Forall (fun c => CostOptimizer.today c = d) calls ->
  Forall (fun pct => PrimFloat.leb 50 pct = true /\ PrimFloat.leb 70 pct = false)
         (percentages (CostOptimizer.dailyBudget o) (recordedCost o d)
                      (map CostOptimizer.cost calls)) ->
  Forall (fun alerts => map CostOptimizer.level alerts = ["INFO"])
         (snd (CostOptimizer.run calls o))
  /\ List.length (snd (CostOptimizer.run calls o)) = List.length calls
  /\ optimizerAlerts "INFO" (snd (CostOptimizer.run calls o)) = List.length calls
  /\ (forall threshold percentage s,
        let a := snd (LightweightMonitor.triggerAlert threshold percentage s) in
        LightweightMonitor.level a = "WARNING" \/ LightweightMonitor.level a = "CRITICAL").
Proof.
  intros Hday Hband.
  destruct (optimizer_run_same_day calls o d Hday) as (_ & _ & _ & Hinfo & _ & Hall).
  cbv zeta in Hinfo, Hall.
  set (pcts := percentages _ _ _) in *.
  assert (Hlen : List.length pcts = List.length calls).
  { unfold pcts, percentages. rewrite length_map. clear.
    generalize (recordedCost o d). induction calls as [|c calls IH]; intros total.
    - reflexivity.
    - cbn. f_equal. apply IH. }
  assert (Hfilter : List.filter inInfoBand pcts = pcts).
  { clear - Hband. induction Hband as [|pct rest [H50 H70] _ IH]; [reflexivity|].
    cbn [List.filter]. unfold inInfoBand at 1. rewrite H50, H70. cbn. f_equal. exact IH. }
  split; [|split; [|split]].
  - clear - Hall Hband. induction Hall as [|a pct alerts rest Ha _ IH]; [constructor|].
    inversion Hband as [|pct' rest' [H50 H70] Hrest]; subst pct' rest'.
    constructor; [|exact (IH Hrest)].
    rewrite Ha. unfold levelsAt, inCriticalBand, inWarningBand, inInfoBand.
    rewrite (leb_70_false_90 pct H70), H70, H50. reflexivity.
  - rewrite <- Hlen. exact (Forall2_length _ _ _ Hall).
  - rewrite Hinfo, Hfilter. exact Hlen.
  - intros threshold percentage s.
    unfold LightweightMonitor.triggerAlert, LightweightMonitor.alertOf. cbn.
    destruct (PrimFloat.leb 0.9 threshold); auto.
Qed.

Lemma C10_info_alert_on_every_call_witness :
  optimizerAlerts "INFO" (snd (CostOptimizer.run infoCalls sampleOptimizer)) = 3%nat.
Proof.
  assert (Hday : Forall (fun c => CostOptimizer.today c = day1) infoCalls)
    by (repeat constructor).
  assert (Hband : Forall (fun pct => PrimFloat.leb 50 pct = true /\ PrimFloat.leb 70 pct = false)
                         (percentages (CostOptimizer.dailyBudget sampleOptimizer)
                                      (recordedCost sampleOptimizer day1)
                                      (map CostOptimizer.cost infoCalls)))
    by (repeat constructor; vm_compute; reflexivity).
  exact (proj1 (proj2 (proj2 (C10_info_alert_on_every_call sampleOptimizer infoCalls day1
                                Hday Hband)))).
Defined.

(* ===================================================================== *)
(** ** Further properties of the retry executor                           *)
(* ===================================================================== *)

Section MoreRetryFacts.
Context {W V : Type}.
Variable fn : W -> (V + ApiRetry.Rejection) * W.
Variables maxRetries baseDelayMs : Z.

(** [k] retryable failures and then a success. *)
Lemma retryLoop_eventual_success (k : nat) :
  forall (fuel i : nat) lastError (w w' : W) (v : V),
  (k < fuel)%nat ->
  Z.of_nat i + Z.of_nat k <= maxRetries ->
  (forall j, (j < k)%nat ->
     exists e w1, fn (ApiRetry.worldAfter fn j w) = (inr (ApiRetry.Error e), w1)
                  /\ ApiRetry.isRetryableError (ApiRetry.Error e) = inl true) ->
  fn (ApiRetry.worldAfter fn k w) = (inl v, w') ->
  ApiRetry.retryLoop fn maxRetries baseDelayMs fuel (Z.of_nat i) lastError w
  = (ApiRetry.Returned v, w', flat_map (attemptEvents baseDelayMs) (seq i (S k))).
Proof.
  induction k as [|k IH]; intros fuel i lastError w w' v Hfuel Hmax Hfail Hok.
  - destruct fuel as [|fuel]; [lia|]. cbn [ApiRetry.worldAfter] in Hok.
    cbn [ApiRetry.retryLoop]. rewrite Hok. cbn [seq flat_map]. rewrite app_nil_r.
    reflexivity.
  - destruct fuel as [|fuel]; [lia|].
    destruct (Hfail 0%nat ltac:(lia)) as (e & w1 & Hfn & Hre). cbn [ApiRetry.worldAfter] in Hfn.
    cbn [ApiRetry.retryLoop]. rewrite Hfn, Hre.
    replace (Z.of_nat i =? maxRetries) with false by (symmetry; apply Z.eqb_neq; lia).
    cbn [negb orb]. replace (Z.of_nat i + 1) with (Z.of_nat (S i)) by lia.
    cbn [ApiRetry.throw].
    rewrite (IH fuel (S i) (Some (ApiRetry.Error e)) w1 w' v); try lia.
    + remember (S k) as k'. cbn [seq flat_map]. rewrite attemptEvents_app. reflexivity.
    + intros j Hj. specialize (Hfail (S j) ltac:(lia)).
      cbn [ApiRetry.worldAfter] in Hfail. rewrite Hfn in Hfail. exact Hfail.
    + cbn [ApiRetry.worldAfter] in Hok. rewrite Hfn in Hok. exact Hok.
Qed.

(** The calls of a run are made one after the other on the world, and a
    returned value is what the last call returned. *)
Lemma retryLoop_world (fuel : nat) :
  forall attempt lastError (w : W),
  let run := ApiRetry.retryLoop fn maxRetries baseDelayMs fuel attempt lastError w in
  snd (fst run) = ApiRetry.worldAfter fn (attemptsMade (snd run)) w
  /\ (forall v, fst (fst run) = ApiRetry.Returned v ->
        exists n, attemptsMade (snd run) = S n
                  /\ fn (ApiRetry.worldAfter fn n w) = (inl v, snd (fst run))).
Proof.
  induction fuel as [|fuel IH]; intros attempt lastError w; cbv zeta.
  - cbn. split; [reflexivity|]. destruct lastError as [[e| |]|]; discriminate.
  - cbn [ApiRetry.retryLoop].
    assert (Hsleep : attemptsMade
                       (if 0 <? attempt
                        then [ApiRetry.EvSleep (ApiRetry.delayMs baseDelayMs attempt)]
                        else []) = 0%nat) by (destruct (0 <? attempt); reflexivity).
    destruct (fn w) as [[v|error] w1] eqn:Hfn.
    + cbn [fst snd]. rewrite attemptsMade_app, Hsleep. cbn. rewrite Hfn. split; [reflexivity|].
      intros v' [= <-]. exists 0%nat. split; [reflexivity|]. exact Hfn.
    + destruct (ApiRetry.isRetryableError error) as [retryable|typeError].
      * destruct (negb retryable || (attempt =? maxRetries)).
        -- cbn [fst snd]. rewrite attemptsMade_app, Hsleep. cbn. rewrite Hfn.
           split; [reflexivity | destruct error; discriminate].
        -- specialize (IH (attempt + 1) (Some error) w1). cbv zeta in IH.
           destruct (ApiRetry.retryLoop fn maxRetries baseDelayMs fuel (attempt + 1)
                       (Some error) w1) as [[c w2] tr].
           cbn [fst snd] in *. destruct IH as [Hw Hv].
           rewrite attemptsMade_app, Hsleep.
           change (attemptsMade (ApiRetry.EvCall attempt :: tr)) with (S (attemptsMade tr)).
           cbn [Nat.add ApiRetry.worldAfter]. rewrite Hfn. cbn [snd].
           split; [exact Hw|].
           intros v Hc. destruct (Hv v Hc) as (n & Hn & Hlast).
           exists (S n). split; [congruence|].
           cbn [ApiRetry.worldAfter]. rewrite Hfn. exact Hlast.
      * cbn [fst snd]. rewrite attemptsMade_app, Hsleep. cbn. rewrite Hfn.
        split; [reflexivity | discriminate].
Qed.
End MoreRetryFacts.

(** X1.  If the first [k] calls fail with retryable errors and the next one
    succeeds, with [k <= maxRetries], then [withRetry] returns that value;
    it has made [k + 1] calls and slept [baseDelayMs * (2^k - 1)] ms in
    all (1000 then 2000 ms for two failures with the defaults). *)
Theorem X1_withRetry_succeeds_after_failures {W V : Type}
    (fn : W -> (V + ApiRetry.Rejection) * W) (options : ApiRetry.RetryOptions)
    (w w' : W) (v : V) (k : nat) :
  Z.of_nat k <= ApiRetry.maxRetriesOf options ->
  (forall j, (j < k)%nat ->
     exists e w1, fn (ApiRetry.worldAfter fn j w) = (inr (ApiRetry.Error e), w1)
                  /\ ApiRetry.isRetryableError (ApiRetry.Error e) = inl true) ->
  fn (ApiRetry.worldAfter fn k w) = (inl v, w') ->
  ApiRetry.withRetry fn options w
  = (ApiRetry.Returned v, w', retrySchedule (ApiRetry.baseDelayMsOf options) k)
  /\ attemptsMade (snd (ApiRetry.withRetry fn options w)) = S k
  /\ totalSleep (snd (ApiRetry.withRetry fn options w))
     = ApiRetry.baseDelayMsOf options * (2 ^ Z.of_nat k - 1).
Proof.
  intros Hk Hfail Hok.
  assert (Hrun : ApiRetry.withRetry fn options w
                 = (ApiRetry.Returned v, w',
                    retrySchedule (ApiRetry.baseDelayMsOf options) k)).
  { unfold ApiRetry.withRetry. rewrite retrySchedule_attemptEvents.
    apply (retryLoop_eventual_success fn _ _ k _ 0%nat None w w' v); try assumption;
      try (change (Z.of_nat 0) with 0); lia. }
  rewrite Hrun. cbn [snd].
  split; [reflexivity|]. split; [apply attemptsMade_retrySchedule | apply totalSleep_retrySchedule].
Qed.

Lemma X1_withRetry_succeeds_after_failures_witness :
  ApiRetry.withRetry flakyTwice ApiRetry.noOptions 0%nat
  = (ApiRetry.Returned "ok", 3%nat,
     [ApiRetry.EvCall 0; ApiRetry.EvSleep 1000; ApiRetry.EvCall 1;
      ApiRetry.EvSleep 2000; ApiRetry.EvCall 2]).
Proof.
  assert (Hk : Z.of_nat 2 <= ApiRetry.maxRetriesOf ApiRetry.noOptions)
    by (vm_compute; discriminate).
  assert (Hfail : forall j, (j < 2)%nat ->
            exists e w1, flakyTwice (ApiRetry.worldAfter flakyTwice j 0%nat)
                         = (inr (ApiRetry.Error e), w1)
                         /\ ApiRetry.isRetryableError (ApiRetry.Error e) = inl true).
  { intros j Hj. destruct j as [|[|j]]; [| |lia];
      eexists; eexists; split; reflexivity. }
  exact (proj1 (X1_withRetry_succeeds_after_failures flakyTwice ApiRetry.noOptions
                  0%nat 3%nat "ok" 2 Hk Hfail eq_refl)).
Defined.

(** X2.  Whatever [fn] does, a run of [withRetry] with [maxRetries >= 0]
    and [baseDelayMs >= 0] calls it at least once and at most
    [maxRetries + 1] times, sleeps at most
    [baseDelayMs * (2^maxRetries - 1)] ms in all, and ends by returning a
    value or throwing an error object: never by throwing [undefined] or
    [null], also when [fn] rejects with one of these. *)
Theorem X2_withRetry_bounds {W V : Type}
    (fn : W -> (V + ApiRetry.Rejection) * W) (options : ApiRetry.RetryOptions) (w : W) :
  0 <= ApiRetry.maxRetriesOf options ->
  0 <= ApiRetry.baseDelayMsOf options ->
  (1 <= attemptsMade (snd (ApiRetry.withRetry fn options w))
     <= Z.to_nat (ApiRetry.maxRetriesOf options) + 1)%nat
  /\ 0 <= totalSleep (snd (ApiRetry.withRetry fn options w))
       <= ApiRetry.baseDelayMsOf options * (2 ^ ApiRetry.maxRetriesOf options - 1)
  /\ fst (fst (ApiRetry.withRetry fn options w)) <> ApiRetry.ThrewUndefined
  /\ fst (fst (ApiRetry.withRetry fn options w)) <> ApiRetry.ThrewNull
  /\ ((exists v, fst (fst (ApiRetry.withRetry fn options w)) = ApiRetry.Returned v)
      \/ (exists e, fst (fst (ApiRetry.withRetry fn options w)) = ApiRetry.Threw e)).
Proof.
  intros Hmax Hbase.
  assert (Hdefined :
            fst (fst (ApiRetry.withRetry fn options w)) <> ApiRetry.ThrewUndefined
            /\ fst (fst (ApiRetry.withRetry fn options w)) <> ApiRetry.ThrewNull).
  { unfold ApiRetry.withRetry. apply retryLoop_defined. left. lia. }
  split; [|split; [|split; [apply Hdefined|split; [apply Hdefined|]]]].
  3: { destruct Hdefined as [Hu Hn].
       destruct (fst (fst (ApiRetry.withRetry fn options w))) as [v|e| |];
         [left; eauto | right; eauto | contradiction | contradiction]. }
  all: unfold ApiRetry.withRetry;
    destruct (retryLoop_trace fn (ApiRetry.maxRetriesOf options)
                (ApiRetry.baseDelayMsOf options)
                (Z.to_nat (ApiRetry.maxRetriesOf options + 1)) 0 None w)
      as (n & Hn & Htr); [lia | change (Z.of_nat 0) with 0; lia |];
    destruct n as [|k]; [lia|]; change (Z.of_nat 0) with 0 in Htr;
    rewrite Htr, <- retrySchedule_attemptEvents, ?attemptsMade_retrySchedule,
      ?totalSleep_retrySchedule.
  - lia.
  - assert (Hpow : 1 <= 2 ^ Z.of_nat k <= 2 ^ ApiRetry.maxRetriesOf options).
    { split; [apply Z.pow_le_mono_r with (a := 2) (b := 0) (c := Z.of_nat k); lia
             | apply Z.pow_le_mono_r; lia]. }
    split; [apply Z.mul_nonneg_nonneg; lia | apply Z.mul_le_mono_nonneg_l; lia].
Qed.

Lemma X2_withRetry_bounds_witness :
  (1 <= attemptsMade (snd (ApiRetry.withRetry rejectsWithUndefined ApiRetry.noOptions 0%nat))
     <= 4)%nat
  /\ fst (fst (ApiRetry.withRetry rejectsWithUndefined ApiRetry.noOptions 0%nat))
     <> ApiRetry.ThrewUndefined.
Proof.
  assert (Hmax : 0 <= ApiRetry.maxRetriesOf ApiRetry.noOptions) by (vm_compute; discriminate).
  assert (Hbase : 0 <= ApiRetry.baseDelayMsOf ApiRetry.noOptions) by (vm_compute; discriminate).
  destruct (X2_withRetry_bounds rejectsWithUndefined ApiRetry.noOptions 0%nat Hmax Hbase)
    as (Hcalls & _ & Hdefined & _).
  split; [exact Hcalls | exact Hdefined].
Defined.

(** X3.  With a negative [maxRetries] the loop body never runs:
    [withRetry] does not call [fn] at all and throws [undefined] (the
    unassigned [lastError]). *)
Theorem X3_withRetry_negative_maxRetries {W V : Type}
    (fn : W -> (V + ApiRetry.Rejection) * W) (options : ApiRetry.RetryOptions) (w : W) :
  ApiRetry.maxRetriesOf options < 0 ->
  ApiRetry.withRetry fn options w = (ApiRetry.ThrewUndefined, w, []).
Proof.
  intros Hneg. unfold ApiRetry.withRetry.
  replace (Z.to_nat (ApiRetry.maxRetriesOf options + 1)) with 0%nat by lia.
  reflexivity.
Qed.

Lemma X3_withRetry_negative_maxRetries_witness :
  ApiRetry.withRetry alwaysRateLimited (ApiRetry.mkRetryOptions (Some (-1)) None) 0%nat
  = (ApiRetry.ThrewUndefined, 0%nat, []).
Proof.
  apply (X3_withRetry_negative_maxRetries alwaysRateLimited
           (ApiRetry.mkRetryOptions (Some (-1)) None) 0%nat).
  vm_compute. reflexivity.
Defined.

(** X4.  [withRetry] calls [fn] once per attempt, each call on the world
    the previous one left: the world it ends in is the world after as many
    calls as the trace shows, and a value it returns is the value the last
    of those calls returned. *)
Theorem X4_withRetry_threads_the_world {W V : Type}
    (fn : W -> (V + ApiRetry.Rejection) * W) (options : ApiRetry.RetryOptions) (w : W) :
  snd (fst (ApiRetry.withRetry fn options w))
  = ApiRetry.worldAfter fn (attemptsMade (snd (ApiRetry.withRetry fn options w))) w
  /\ (forall v, fst (fst (ApiRetry.withRetry fn options w)) = ApiRetry.Returned v ->
        exists n, attemptsMade (snd (ApiRetry.withRetry fn options w)) = S n
                  /\ fn (ApiRetry.worldAfter fn n w)
                     = (inl v, snd (fst (ApiRetry.withRetry fn options w)))).
Proof. unfold ApiRetry.withRetry. apply retryLoop_world. Qed.

(* ===================================================================== *)
(** ** The handlers' fallback cascade                                     *)
(* ===================================================================== *)

Ltac split_all := repeat match goal with |- _ /\ _ => split end.

(** A run with the default options: 1 to 4 calls, at most 7000 ms of
    sleep, and never [undefined] or [null] thrown. *)
Lemma withRetry_default_run {W V : Type} (fn : W -> (V + ApiRetry.Rejection) * W) (w : W) :
  fst (fst (ApiRetry.withRetry fn ApiRetry.noOptions w)) <> ApiRetry.ThrewUndefined
  /\ fst (fst (ApiRetry.withRetry fn ApiRetry.noOptions w)) <> ApiRetry.ThrewNull
  /\ (1 <= attemptsMade (snd (ApiRetry.withRetry fn ApiRetry.noOptions w)) <= 4)%nat
  /\ 0 <= totalSleep (snd (ApiRetry.withRetry fn ApiRetry.noOptions w)) <= 7000.
Proof.
  assert (Hdefined :
            fst (fst (ApiRetry.withRetry fn ApiRetry.noOptions w)) <> ApiRetry.ThrewUndefined
            /\ fst (fst (ApiRetry.withRetry fn ApiRetry.noOptions w)) <> ApiRetry.ThrewNull).
  { apply retryLoop_defined. left. vm_compute. lia. }
  split; [apply Hdefined|]. split; [apply Hdefined|].
  unfold ApiRetry.withRetry.
  destruct (retryLoop_trace fn (ApiRetry.maxRetriesOf ApiRetry.noOptions)
              (ApiRetry.baseDelayMsOf ApiRetry.noOptions)
              (Z.to_nat (ApiRetry.maxRetriesOf ApiRetry.noOptions + 1)) 0 None w)
    as (n & Hn & Htr); [vm_compute; lia | reflexivity |].
  change (Z.of_nat 0) with 0 in Htr. rewrite Htr.
  change (Z.to_nat (ApiRetry.maxRetriesOf ApiRetry.noOptions + 1)) with 4%nat in Hn.
  destruct n as [|k]; [lia|].
  rewrite <- retrySchedule_attemptEvents, attemptsMade_retrySchedule,
    totalSleep_retrySchedule.
  change (ApiRetry.baseDelayMsOf ApiRetry.noOptions) with 1000.
  split; [lia|].
  assert (Hpow : 1 <= 2 ^ Z.of_nat k <= 2 ^ 3).
  { split; [apply Z.pow_le_mono_r with (a := 2) (b := 0) (c := Z.of_nat k); lia
           | apply Z.pow_le_mono_r; lia]. }
  change (2 ^ 3) with 8 in Hpow. lia.
Qed.


(** What the [try] block of a handler hands to its [catch] block comes
    from the provider: an error it rejected with, the TypeError of
    reading a reply it gave, or the TypeError of classifying a rejection
    with [undefined] or [null]. *)
Lemma tried_thrownBy {W R : Type}
    (api : W -> (Handlers.Reply R + ApiRetry.Rejection) * W)
    (result : R -> Handlers.Result) (w : W) (e : ApiRetry.JsError) :
  Handlers.tried result (fst (fst (ApiRetry.withRetry api ApiRetry.noOptions w)))
  = inr (ApiRetry.Error e) ->
  thrownBy api e.
Proof.
  intros Htried.
  pose proof (retryLoop_throws api 3 1000 4 0 None w) as Hthrown.
  destruct (retryLoop_world api 3 1000 4 0 None w) as [_ Hreturned].
  cbv zeta in Hreturned.
  change (ApiRetry.retryLoop api 3 1000 4 0 None w)
    with (ApiRetry.withRetry api ApiRetry.noOptions w) in Hthrown, Hreturned.
  destruct (fst (fst (ApiRetry.withRetry api ApiRetry.noOptions w)))
    as [[response|message]|error| |]; cbn in Htried; try discriminate.
  - injection Htried as <-.
    destruct (Hreturned _ eq_refl) as (n & _ & Hcall).
    right. left. eauto.
  - injection Htried as <-.
    destruct (Hthrown error eq_refl) as [Hnone|[Hfn|(rejection & w0 & w1 & Hfn & Hte)]];
      [discriminate | left; exact Hfn | right; right; eauto].
Qed.

Lemma cascadeCalls_app (tr1 tr2 : list (Handlers.Provider * ApiRetry.event)) :
  cascadeCalls (tr1 ++ tr2) = (cascadeCalls tr1 + cascadeCalls tr2)%nat.
Proof. unfold cascadeCalls. rewrite map_app. apply attemptsMade_app. Qed.

Lemma cascadeSleep_app (tr1 tr2 : list (Handlers.Provider * ApiRetry.event)) :
  cascadeSleep (tr1 ++ tr2) = cascadeSleep tr1 + cascadeSleep tr2.
Proof. unfold cascadeSleep. rewrite map_app. apply totalSleep_app. Qed.

Lemma map_snd_tag (p : Handlers.Provider) (tr : list ApiRetry.event) :
  map snd (Handlers.tag p tr) = tr.
Proof. unfold Handlers.tag. rewrite map_map. apply map_id. Qed.

Lemma cascadeCalls_tag (p : Handlers.Provider) (tr : list ApiRetry.event) :
  cascadeCalls (Handlers.tag p tr) = attemptsMade tr.
Proof. unfold cascadeCalls. rewrite map_snd_tag. reflexivity. Qed.

Lemma cascadeSleep_tag (p : Handlers.Provider) (tr : list ApiRetry.event) :
  cascadeSleep (Handlers.tag p tr) = totalSleep tr.
Proof. unfold cascadeSleep. rewrite map_snd_tag. reflexivity. Qed.

(** With the default options, what reaches a handler's [catch] block is
    an error object. *)
Lemma tried_default {W R : Type}
    (api : W -> (Handlers.Reply R + ApiRetry.Rejection) * W)
    (result : R -> Handlers.Result) (w : W) :
  (exists r, Handlers.tried result (fst (fst (ApiRetry.withRetry api ApiRetry.noOptions w)))
             = inl r
             /\ exists response, r = result response)
  \/ (exists e, Handlers.tried result (fst (fst (ApiRetry.withRetry api ApiRetry.noOptions w)))
                = inr (ApiRetry.Error e)).
Proof.
  destruct (withRetry_default_run api w) as (Hu & Hn & _).
  destruct (fst (fst (ApiRetry.withRetry api ApiRetry.noOptions w)))
    as [[response|message]|error| |]; cbn; try contradiction; eauto.
Qed.

Section CascadeFacts.
Context {W : Type}.
Variable opusApi : W -> (Handlers.Reply Handlers.AnthropicResponse + ApiRetry.Rejection) * W.
Variable sonnetApi : W -> (Handlers.Reply Handlers.AnthropicResponse + ApiRetry.Rejection) * W.
Variable glmApi : W -> (Handlers.Reply Handlers.ChatResponse + ApiRetry.Rejection) * W.
Variable deepseekApi : W -> (Handlers.Reply Handlers.ChatResponse + ApiRetry.Rejection) * W.

(** One handler with what it does after its own retry loop: the calls and
    sleep it adds are bounded, and a thrown error comes from below. *)
Lemma processLightweightTask_facts (w : W) :
  let run := Handlers.processLightweightTask deepseekApi w in
  (cascadeCalls (snd run) <= 4)%nat
  /\ 0 <= cascadeSleep (snd run) <= 7000
  /\ (forall e, fst (fst run) = ApiRetry.Threw e -> thrownBy deepseekApi e)
  /\ fst (fst run) <> ApiRetry.ThrewUndefined
  /\ fst (fst run) <> ApiRetry.ThrewNull
  /\ (forall r, fst (fst run) = ApiRetry.Returned r ->
        Handlers.level r = None /\ Handlers.model r = "deepseek-chat").
Proof.
  cbv zeta. unfold Handlers.processLightweightTask.
  destruct (withRetry_default_run deepseekApi w) as (_ & _ & Hcalls & Hsleep).
  pose proof (tried_thrownBy deepseekApi Handlers.deepseekResult w) as Hprov.
  destruct (tried_default deepseekApi Handlers.deepseekResult w)
    as [(r0 & Htried & response & ->)|(e0 & Htried)];
    destruct (ApiRetry.withRetry deepseekApi ApiRetry.noOptions w) as [[c w1] tr];
    cbn [fst snd] in *; rewrite Htried in *; cbn [fst snd];
    rewrite cascadeCalls_tag, cascadeSleep_tag.
  - split_all; try lia; try discriminate. intros r [= <-]. split; reflexivity.
  - split_all; try lia; try discriminate.
    intros e [= <-]. apply Hprov. reflexivity.
Qed.

Lemma processBusinessTask_facts (w : W) :
  let run := Handlers.processBusinessTask glmApi deepseekApi w in
  (cascadeCalls (snd run) <= 8)%nat
  /\ 0 <= cascadeSleep (snd run) <= 14000
  /\ (forall e, fst (fst run) = ApiRetry.Threw e -> thrownBy deepseekApi e)
  /\ fst (fst run) <> ApiRetry.ThrewUndefined
  /\ fst (fst run) <> ApiRetry.ThrewNull
  /\ (forall r, fst (fst run) = ApiRetry.Returned r ->
        Handlers.level r = None
        /\ (Handlers.model r = "glm-4-plus" \/ Handlers.model r = "deepseek-chat")).
Proof.
  cbv zeta. unfold Handlers.processBusinessTask.
  destruct (withRetry_default_run glmApi w) as (_ & _ & Hcalls & Hsleep).
  destruct (tried_default glmApi Handlers.glmResult w)
    as [(r0 & Htried & response & ->)|(e0 & Htried)];
    destruct (ApiRetry.withRetry glmApi ApiRetry.noOptions w) as [[c w1] tr];
    cbn [fst snd] in *; rewrite Htried; cbn [fst snd].
  - rewrite cascadeCalls_tag, cascadeSleep_tag.
    split_all; try lia; try discriminate. intros r [= <-]. split; [reflexivity | auto].
  - destruct (processLightweightTask_facts w1) as (Hc & Hs & Hp & Hd & Hn & Hr).
    cbv zeta in *.
    destruct (Handlers.processLightweightTask deepseekApi w1) as [[c' w2] tr'].
    cbn [fst snd] in *.
    rewrite cascadeCalls_app, cascadeSleep_app, cascadeCalls_tag, cascadeSleep_tag.
    split_all; try lia; try assumption.
    intros r Hret. destruct (Hr r Hret) as [Hl Hm]. auto.
Qed.

Lemma processWritingTask_facts (w : W) :
  let run := Handlers.processWritingTask sonnetApi glmApi deepseekApi w in
  (cascadeCalls (snd run) <= 12)%nat
  /\ 0 <= cascadeSleep (snd run) <= 21000
  /\ (forall e, fst (fst run) = ApiRetry.Threw e -> thrownBy deepseekApi e)
  /\ fst (fst run) <> ApiRetry.ThrewUndefined
  /\ fst (fst run) <> ApiRetry.ThrewNull
  /\ (forall r, fst (fst run) = ApiRetry.Returned r ->
        (Handlers.level r = Some "L4 (執筆官)"
         /\ Handlers.model r = "claude-3-5-sonnet-20241022")
        \/ (Handlers.level r = Some "L3 (秘書) [fallback]"
            /\ (Handlers.model r = "glm-4-plus" \/ Handlers.model r = "deepseek-chat"))).
Proof.
  cbv zeta. unfold Handlers.processWritingTask.
  destruct (withRetry_default_run sonnetApi w) as (_ & _ & Hcalls & Hsleep).
  destruct (tried_default sonnetApi Handlers.sonnetResult w)
    as [(r0 & Htried & response & ->)|(e0 & Htried)];
    destruct (ApiRetry.withRetry sonnetApi ApiRetry.noOptions w) as [[c w1] tr];
    cbn [fst snd] in *; rewrite Htried; cbn [fst snd].
  - rewrite cascadeCalls_tag, cascadeSleep_tag.
    split_all; try lia; try discriminate. intros r [= <-]. left. split; reflexivity.
  - destruct (processBusinessTask_facts w1) as (Hc & Hs & Hp & Hd & Hn & Hr).
    cbv zeta in *.
    destruct (Handlers.processBusinessTask glmApi deepseekApi w1) as [[c' w2] tr'].
    cbn [fst snd] in *.
    rewrite cascadeCalls_app, cascadeSleep_app, cascadeCalls_tag, cascadeSleep_tag.
    split_all; try lia.
    + intros e He. destruct c' as [r|e'| |]; try discriminate. apply Hp. exact He.
    + destruct c'; congruence.
    + destruct c'; congruence.
    + intros r Hret. destruct c' as [r0|e'| |]; try discriminate.
      injection Hret as <-. destruct (Hr r0 eq_refl) as [_ Hm]. right. split; [reflexivity|].
      exact Hm.
Qed.

Lemma processHighComplexityTask_facts (w : W) :
  let run := Handlers.processHighComplexityTask opusApi sonnetApi glmApi deepseekApi w in
  (cascadeCalls (snd run) <= 16)%nat
  /\ 0 <= cascadeSleep (snd run) <= 28000
  /\ (forall e, fst (fst run) = ApiRetry.Threw e -> thrownBy deepseekApi e)
  /\ fst (fst run) <> ApiRetry.ThrewUndefined
  /\ fst (fst run) <> ApiRetry.ThrewNull
  /\ (forall r, fst (fst run) = ApiRetry.Returned r ->
        (Handlers.level r = None /\ Handlers.model r = "claude-3-5-sonnet-20241022")
        \/ (Handlers.level r = Some "L4 (執筆官)"
            /\ Handlers.model r = "claude-3-5-sonnet-20241022")
        \/ (Handlers.level r = Some "L3 (秘書) [fallback]"
            /\ (Handlers.model r = "glm-4-plus" \/ Handlers.model r = "deepseek-chat"))).
Proof.
  cbv zeta. unfold Handlers.processHighComplexityTask.
  destruct (withRetry_default_run opusApi w) as (_ & _ & Hcalls & Hsleep).
  destruct (tried_default opusApi Handlers.opusResult w)
    as [(r0 & Htried & response & ->)|(e0 & Htried)];
    destruct (ApiRetry.withRetry opusApi ApiRetry.noOptions w) as [[c w1] tr];
    cbn [fst snd] in *; rewrite Htried; cbn [fst snd].
  - rewrite cascadeCalls_tag, cascadeSleep_tag.
    split_all; try lia; try discriminate. intros r [= <-]. left. split; reflexivity.
  - destruct (processWritingTask_facts w1) as (Hc & Hs & Hp & Hd & Hn & Hr).
    cbv zeta in *.
    destruct (Handlers.processWritingTask sonnetApi glmApi deepseekApi w1) as [[c' w2] tr'].
    cbn [fst snd] in *.
    rewrite cascadeCalls_app, cascadeSleep_app, cascadeCalls_tag, cascadeSleep_tag.
    split_all; try lia; try assumption.
    intros r Hret. right. apply Hr. exact Hret.
Qed.
End CascadeFacts.

(** X5.  The handlers fall back on any error, retryable or not: when the
    Opus call fails at once with an error that is not retryable, the Opus
    handler has made that one call, has not slept, and what it returns is
    what the Sonnet handler returns from there. *)
Theorem X5_handler_falls_back_on_any_error {W : Type}
    (opusApi sonnetApi
       : W -> (Handlers.Reply Handlers.AnthropicResponse + ApiRetry.Rejection) * W)
    (glmApi deepseekApi : W -> (Handlers.Reply Handlers.ChatResponse + ApiRetry.Rejection) * W)
    (w w1 : W) (error : ApiRetry.JsError) :
  opusApi w = (inr (ApiRetry.Error error), w1) ->
  ApiRetry.isRetryableError (ApiRetry.Error error) = inl false ->
  Handlers.processHighComplexityTask opusApi sonnetApi glmApi deepseekApi w
  = (fst (fst (Handlers.processWritingTask sonnetApi glmApi deepseekApi w1)),
     snd (fst (Handlers.processWritingTask sonnetApi glmApi deepseekApi w1)),
     (Handlers.ClaudeOpus, ApiRetry.EvCall 0)
     :: snd (Handlers.processWritingTask sonnetApi glmApi deepseekApi w1)).
Proof.
  intros Hfn Hnr. unfold Handlers.processHighComplexityTask, ApiRetry.withRetry.
  change (Z.to_nat (ApiRetry.maxRetriesOf ApiRetry.noOptions + 1)) with 4%nat.
  rewrite (retryLoop_nonretryable opusApi _ _ 3 0 None w error w1 Hfn Hnr).
  cbn [Handlers.tried].
  destruct (Handlers.processWritingTask sonnetApi glmApi deepseekApi w1) as [[c w2] tr].
  reflexivity.
Qed.

Lemma X5_handler_falls_back_on_any_error_witness :
  Handlers.processHighComplexityTask anthropicUnauthorized anthropicUnauthorized
    chatRateLimited chatAnswers 0%nat
  = (fst (fst (Handlers.processWritingTask anthropicUnauthorized chatRateLimited
                 chatAnswers 1%nat)),
     snd (fst (Handlers.processWritingTask anthropicUnauthorized chatRateLimited
                 chatAnswers 1%nat)),
     (Handlers.ClaudeOpus, ApiRetry.EvCall 0)
     :: snd (Handlers.processWritingTask anthropicUnauthorized chatRateLimited
               chatAnswers 1%nat)).
Proof.
  apply (X5_handler_falls_back_on_any_error anthropicUnauthorized anthropicUnauthorized
           chatRateLimited chatAnswers 0%nat 1%nat unauthorized); reflexivity.
Defined.




(** X8.  The [level] of a result says less than which tier answered.  A
    result of the Sonnet handler is labelled "L4 (執筆官)" when Sonnet
    answered and "L3 (秘書) [fallback]" otherwise, also when the answer is
    DeepSeek's; through the Opus handler, an answer of Opus carries no
    level and an answer of Sonnet carries "L4 (執筆官)" with no fallback
    mark. *)
Theorem X8_fallback_result_labels {W : Type}
    (opusApi sonnetApi
       : W -> (Handlers.Reply Handlers.AnthropicResponse + ApiRetry.Rejection) * W)
    (glmApi deepseekApi : W -> (Handlers.Reply Handlers.ChatResponse + ApiRetry.Rejection) * W)
    (w : W) (r : Handlers.Result) :
  (fst (fst (Handlers.processWritingTask sonnetApi glmApi deepseekApi w))
   = ApiRetry.Returned r ->
   (Handlers.level r = Some "L4 (執筆官)"
    /\ Handlers.model r = "claude-3-5-sonnet-20241022")
   \/ (Handlers.level r = Some "L3 (秘書) [fallback]"
       /\ (Handlers.model r = "glm-4-plus" \/ Handlers.model r = "deepseek-chat")))
  /\ (fst (fst (Handlers.processHighComplexityTask opusApi sonnetApi glmApi deepseekApi w))
      = ApiRetry.Returned r ->
      (Handlers.level r = None /\ Handlers.model r = "claude-3-5-sonnet-20241022")
      \/ (Handlers.level r = Some "L4 (執筆官)"
          /\ Handlers.model r = "claude-3-5-sonnet-20241022")
      \/ (Handlers.level r = Some "L3 (秘書) [fallback]"
          /\ (Handlers.model r = "glm-4-plus" \/ Handlers.model r = "deepseek-chat"))).
Proof.
  split.
  - intros Hret.
    destruct (processWritingTask_facts sonnetApi glmApi deepseekApi w)
      as (_ & _ & _ & _ & _ & Hr).
    apply Hr. exact Hret.
  - intros Hret.
    destruct (processHighComplexityTask_facts opusApi sonnetApi glmApi deepseekApi w)
      as (_ & _ & _ & _ & _ & Hr).
    apply Hr. exact Hret.
Qed.

(** A DeepSeek answer reached through the Sonnet handler, as labelled. *)
Example deepseek_answer_labelled_L3 :
  fst (fst (Handlers.processWritingTask anthropicUnauthorized chatRateLimited
              chatAnswers 0%nat))
  = ApiRetry.Returned
      {| Handlers.content := "done"; Handlers.model := "deepseek-chat";
         Handlers.level := Some "L3 (秘書) [fallback]";
         Handlers.tokens := Handlers.mkTokens 12 30 42;
         Handlers.cost := Some (Handlers.calculateCost 42) |}.
Proof. vm_compute. reflexivity. Qed.

Lemma X8_fallback_result_labels_witness :
  let r := {| Handlers.content := "done"; Handlers.model := "deepseek-chat";
              Handlers.level := Some "L3 (秘書) [fallback]";
              Handlers.tokens := Handlers.mkTokens 12 30 42;
              Handlers.cost := Some (Handlers.calculateCost 42) |} in
  (Handlers.level r = Some "L4 (執筆官)"
   /\ Handlers.model r = "claude-3-5-sonnet-20241022")
  \/ (Handlers.level r = Some "L3 (秘書) [fallback]"
      /\ (Handlers.model r = "glm-4-plus" \/ Handlers.model r = "deepseek-chat")).
Proof.
  intros r.
  apply (proj1 (X8_fallback_result_labels anthropicUnauthorized anthropicUnauthorized
                  chatRateLimited chatAnswers 0%nat r)).
  vm_compute. reflexivity.
Defined.

(* ===================================================================== *)
(** ** Further properties of the routers                                  *)
(* ===================================================================== *)

(** What [escalateModel] does with another reason, name by name. *)
Lemma escalateModel_up (name reason : string) :
  reason <> "api_error" ->
  ModelRouter.escalateModel name reason
  = match tierOf name with
    | Some t => inl (JS.Text (modelOf (tierUp t)))
    | None =>
        if existsb (String.eqb name) JS.objectPrototypeKeys
        then inl (JS.Member name) else inl (JS.Text "claude-opus-4.6")
    end.
Proof.
  intros Hreason. unfold ModelRouter.escalateModel.
  destruct (String.eqb_spec reason "api_error") as [?|_]; [contradiction|].
  destruct (tierOf name) as [t|] eqn:Ht.
  - apply tierOf_Some in Ht. subst name. destruct t; vm_compute; reflexivity.
  - rewrite (get_off_table _ _ (escalationMap_off_tiers _ Ht)).
    destruct (existsb (String.eqb name) JS.objectPrototypeKeys); reflexivity.
Qed.

(** X9.  With any reason other than [api_error], [escalateModel] never
    throws: it moves each tier to the tier above, leaves the top tier
    where it is, answers the top tier for a name that is neither a tier's
    nor a member of [Object.prototype], and for a name that is such a
    member ([constructor], [toString], ...) answers that member, which
    is no model name.  It undoes the fallback edge: escalating the tier a
    fallback led to gives back the tier the fallback came from. *)
Theorem X9_escalation_moves_up (reason : string) (t : Tier) :
  reason <> "api_error" ->
  ModelRouter.escalateModel (modelOf t) reason = inl (JS.Text (modelOf (tierUp t)))
  /\ (forall name, tierOf name = None -> ~ inheritedName name ->
        ModelRouter.escalateModel name reason = inl (JS.Text "claude-opus-4.6"))
  /\ (forall name, inheritedName name ->
        ModelRouter.escalateModel name reason = inl (JS.Member name))
  /\ (forall name, exists entry, ModelRouter.escalateModel name reason = inl entry)
  /\ (forall t', fallbackEdge t = Some t' ->
        ModelRouter.escalateModel (modelOf t') reason = inl (JS.Text (modelOf t)))
  /\ (tierRank t <= tierRank (tierUp t))%nat
  /\ Nat.iter 4 tierUp t = L5.
Proof.
  intros Hreason. split_all.
  - rewrite (escalateModel_up _ _ Hreason), modelOf_tierOf. reflexivity.
  - intros name Hnone Hout. rewrite (escalateModel_up _ _ Hreason), Hnone.
    destruct (existsb (String.eqb name) JS.objectPrototypeKeys) eqn:Hproto; [|reflexivity].
    apply inheritedName_get in Hproto. contradiction.
  - intros name Hin. rewrite (escalateModel_up _ _ Hreason), (prototypeKey_no_tier _ Hin).
    apply inheritedName_get in Hin. rewrite Hin. reflexivity.
  - intros name. rewrite (escalateModel_up _ _ Hreason).
    destruct (tierOf name); [eauto|].
    destruct (existsb (String.eqb name) JS.objectPrototypeKeys); eauto.
  - intros t' Hedge. rewrite (escalateModel_up _ _ Hreason), modelOf_tierOf.
    destruct t; vm_compute in Hedge; try discriminate;
      injection Hedge as <-; reflexivity.
  - destruct t; cbn; lia.
  - destruct t; reflexivity.
Qed.

Lemma X9_escalation_moves_up_witness :
  ModelRouter.escalateModel (modelOf L2) "error_retry" = inl (JS.Text (modelOf L3))
  /\ ModelRouter.escalateModel "constructor" "error_retry" = inl (JS.Member "constructor").
Proof.
  assert (Hreason : "error_retry" <> "api_error") by discriminate.
  destruct (X9_escalation_moves_up "error_retry" L2 Hreason) as (Hup & _ & Hproto & _).
  split; [exact Hup|]. apply Hproto. vm_compute. auto.
Defined.

(** X10.  [getModelLevel] answers "Unknown" for exactly the names that
    are neither one of the five tiers' model names nor a member of
    [Object.prototype]; for a name that is such a member it answers that
    member, which is no label; for the five model names it answers a
    label that starts with the tier. *)
Theorem X10_getModelLevel_unknown (name : string) :
  (ModelRouter.getModelLevel name = JS.Text "Unknown"
   <-> tierOf name = None /\ ~ inheritedName name)
  /\ (inheritedName name -> ModelRouter.getModelLevel name = JS.Member name)
  /\ (forall t, tierOf name = Some t ->
        ModelRouter.getModelLevel name
        = JS.Text match t with
                  | L1 => "L1 (工兵)"
                  | L2 => "L2 (門番)"
                  | L3 => "L3 (秘書)"
                  | L4 => "L4 (執筆官)"
                  | L5 => "L5 (編集長)"
                  end).
Proof.
  assert (Hknown : forall t, ModelRouter.getModelLevel (modelOf t)
                             = JS.Text match t with
                                       | L1 => "L1 (工兵)"
                                       | L2 => "L2 (門番)"
                                       | L3 => "L3 (秘書)"
                                       | L4 => "L4 (執筆官)"
                                       | L5 => "L5 (編集長)"
                                       end)
    by (intros t; destruct t; vm_compute; reflexivity).
  assert (Hoff : tierOf name = None ->
                 ModelRouter.getModelLevel name
                 = if existsb (String.eqb name) JS.objectPrototypeKeys
                   then JS.Member name else JS.Text "Unknown").
  { intros Ht. apply tierOf_None in Ht as (H1 & H2 & H3 & H4 & H5).
    unfold ModelRouter.getModelLevel. cbv zeta. rewrite get_off_table.
    - destruct (existsb (String.eqb name) JS.objectPrototypeKeys); reflexivity.
    - cbn [list_to_map foldr fst snd uncurry].
      rewrite !lookup_insert_ne by congruence. apply lookup_empty. }
  split; [|split].
  - destruct (tierOf name) as [t|] eqn:Ht.
    + apply tierOf_Some in Ht. subst name. rewrite Hknown.
      split; [destruct t; discriminate | intros [[=] _]].
    + rewrite (Hoff eq_refl).
      destruct (existsb (String.eqb name) JS.objectPrototypeKeys) eqn:Hproto.
      * apply inheritedName_get in Hproto. split; [discriminate | intros [_ Hout]; contradiction].
      * split; [|reflexivity]. intros _. split; [reflexivity|].
        intros Hin. apply inheritedName_get in Hin. congruence.
  - intros Hin. rewrite (Hoff (prototypeKey_no_tier _ Hin)).
    apply inheritedName_get in Hin. rewrite Hin. reflexivity.
  - intros t Ht. apply tierOf_Some in Ht. subst name. apply Hknown.
Qed.

(** X11.  [adjustForEmotion] is idempotent, and it never lowers a tier:
    applied to a tier's model it answers that model, a higher tier's, or
    the literal [claude-opus]. *)
Theorem X11_adjustForEmotion_idempotent (model : string) (ctx : ModelRouter.EmotionalContext) :
  ModelRouter.adjustForEmotion (ModelRouter.adjustForEmotion model ctx) ctx
  = ModelRouter.adjustForEmotion model ctx
  /\ (forall t t', model = modelOf t ->
        tierOf (ModelRouter.adjustForEmotion model ctx) = Some t' ->
        (tierRank t <= tierRank t')%nat).
Proof.
  unfold ModelRouter.adjustForEmotion.
  destruct (String.eqb (ModelRouter.timeOfDay ctx) "night"
            || String.eqb (ModelRouter.userMood ctx) "tired").
  - split.
    + destruct (String.eqb_spec model "deepseek-v3") as [->|Hne]; [reflexivity|].
      destruct (String.eqb_spec model "deepseek-v3"); [contradiction | reflexivity].
    + intros t t' ->. destruct t; vm_compute; intros [= <-]; lia.
  - destruct (String.eqb (ModelRouter.userMood ctx) "stressed").
    + split; [reflexivity|]. intros t t' _. vm_compute. discriminate.
    + split; [reflexivity|]. intros t t' ->. rewrite modelOf_tierOf. intros [= <-]. lia.
Qed.

Lemma scanLevel_matching (message : string) (entry : string * ModelRouter.LevelConfig)
    (acc : float * list ModelRouter.MatchedIndicator) :
  let found := map (fun indicator =>
                      ModelRouter.mkMatched (fst entry) indicator
                        (ModelRouter.lc_score (snd entry)))
                   (List.filter (ModelRouter.containsIndicator message)
                                (ModelRouter.lc_indicators (snd entry))) in
  ModelRouter.scanLevel message acc entry = (sumScores (fst acc) found, snd acc ++ found).
Proof.
  cbv zeta. unfold ModelRouter.scanLevel, sumScores. revert acc.
  induction (ModelRouter.lc_indicators (snd entry)) as [|indicator rest IH]; intros acc.
  - cbn. rewrite app_nil_r. destruct acc; reflexivity.
  - cbn [fold_left List.filter].
    destruct (ModelRouter.containsIndicator message indicator).
    + rewrite IH. cbn [fst snd map fold_left ModelRouter.mi_score].
      rewrite <- app_assoc. reflexivity.
    + apply IH.
Qed.

Lemma scan_matching (message : string) (entries : list (string * ModelRouter.LevelConfig))
    (acc : float * list ModelRouter.MatchedIndicator) :
  let found := flat_map
                 (fun entry : string * ModelRouter.LevelConfig =>
                    map (fun indicator =>
                           ModelRouter.mkMatched (fst entry) indicator
                             (ModelRouter.lc_score (snd entry)))
                        (List.filter (ModelRouter.containsIndicator message)
                                     (ModelRouter.lc_indicators (snd entry))))
                 entries in
  fold_left (ModelRouter.scanLevel message) entries acc
  = (sumScores (fst acc) found, snd acc ++ found).
Proof.
  cbv zeta. revert acc. induction entries as [|entry entries IH]; intros acc.
  - cbn. rewrite app_nil_r. destruct acc; reflexivity.
  - cbn [fold_left flat_map]. rewrite scanLevel_matching, IH. cbn [fst snd].
    unfold sumScores. rewrite map_app, fold_left_app, <- app_assoc. reflexivity.
Qed.

(** X12.  [analyzeComplexity] reports exactly the configured indicators
    that match the message, level by level in configuration order, each
    with its level's score; and [totalScore] is the left-to-right sum of
    the reported scores, starting from 0, plus the length bonus. *)
Theorem X12_analyzeComplexity_accounting (config : ModelRouter.Config) (message : string) :
  let analysis := ModelRouter.analyzeComplexity config message in
  ModelRouter.indicators analysis = matchingIndicators config message
  /\ ModelRouter.totalScore analysis
     = PrimFloat.add (sumScores 0 (ModelRouter.indicators analysis))
                     (ModelRouter.lengthBonus analysis)
  /\ ModelRouter.complexity analysis
     = ModelRouter.getComplexityLevel (ModelRouter.totalScore analysis)
  /\ Forall (fun m => ModelRouter.containsIndicator message (ModelRouter.mi_indicator m) = true)
            (ModelRouter.indicators analysis).
Proof.
  cbv zeta. unfold ModelRouter.analyzeComplexity.
  cbn [ModelRouter.indicators ModelRouter.totalScore ModelRouter.lengthBonus
       ModelRouter.complexity].
  rewrite scan_matching. cbn [fst snd app]. fold (matchingIndicators config message).
  split_all; try reflexivity.
  unfold matchingIndicators. apply List.Forall_forall. intros m Hm.
  apply in_flat_map in Hm as (entry & _ & Hm).
  apply in_map_iff in Hm as (indicator & <- & Hin).
  apply List.filter_In in Hin as [_ Hmatch]. exact Hmatch.
Qed.

Lemma X10_getModelLevel_unknown_witness :
  ModelRouter.getModelLevel "toString" = JS.Member "toString".
Proof.
  apply (proj1 (proj2 (X10_getModelLevel_unknown "toString"))). vm_compute. auto 10.
Defined.

Lemma X11_adjustForEmotion_idempotent_witness :
  (tierRank L2 <= tierRank L3)%nat.
Proof.
  apply (proj2 (X11_adjustForEmotion_idempotent "deepseek-v3"
                  (ModelRouter.mkEmotionalContext "night" "weekday" "neutral" "normal")) L2 L3).
  - reflexivity.
  - vm_compute. reflexivity.
Defined.

Lemma containsIndicator_short_summary (message : string) :
  ModelRouter.containsIndicator message "短文要約" = (JS.length message <? 200)%nat.
Proof.
  unfold ModelRouter.containsIndicator, ModelRouter.patterns.
  cbn [list_to_map foldr fst snd uncurry].
  rewrite !lookup_insert_ne by discriminate.
  rewrite lookup_insert_eq. reflexivity.
Qed.

Lemma containsIndicator_long_text (message : string) :
  ModelRouter.containsIndicator message "長文生成" = (500 <? JS.length message)%nat.
Proof.
  unfold ModelRouter.containsIndicator, ModelRouter.patterns.
  cbn [list_to_map foldr fst snd uncurry].
  rewrite !lookup_insert_ne by discriminate.
  rewrite lookup_insert_eq. reflexivity.
Qed.

(** X13.  The indicator '短文要約' looks at the length of the message
    only: whatever the text says, a message shorter than 200 UTF-16 units
    is reported as matching it at every level that lists it, and a message
    of 200 units or more never is.  In the same way '長文生成' is reported
    exactly for messages longer than 500 units. *)
Theorem X13_length_only_indicators (config : ModelRouter.Config) (message : string)
    (level : string) (lc : ModelRouter.LevelConfig) (indicator : string) :
  In (level, lc) (ModelRouter.complexityThresholds config) ->
  In indicator (ModelRouter.lc_indicators lc) ->
  let reported :=
    In (ModelRouter.mkMatched level indicator (ModelRouter.lc_score lc))
       (ModelRouter.indicators (ModelRouter.analyzeComplexity config message)) in
  (indicator = "短文要約" -> (reported <-> (JS.length message < 200)%nat))
  /\ (indicator = "長文生成" -> (reported <-> (500 < JS.length message)%nat)).
Proof.
  intros Hlevel Hind. cbv zeta.
  assert (Hrep : In (ModelRouter.mkMatched level indicator (ModelRouter.lc_score lc))
                    (ModelRouter.indicators (ModelRouter.analyzeComplexity config message))
                 <-> ModelRouter.containsIndicator message indicator = true).
  { unfold ModelRouter.analyzeComplexity. cbn [ModelRouter.indicators].
    rewrite scan_matching. cbn [fst snd app]. split.
    - intros Hin. apply in_flat_map in Hin as (entry & _ & Hin).
      apply in_map_iff in Hin as (indicator' & Heq & Hin).
      injection Heq as _ -> _. apply List.filter_In in Hin as [_ Hmatch]. exact Hmatch.
    - intros Hmatch. apply in_flat_map. exists (level, lc). split; [exact Hlevel|].
      apply in_map_iff. exists indicator. split; [reflexivity|].
      apply List.filter_In. split; assumption. }
  split; intros ->; rewrite Hrep.
  - rewrite containsIndicator_short_summary. apply Nat.ltb_lt.
  - rewrite containsIndicator_long_text. apply Nat.ltb_lt.
Qed.

Lemma X13_length_only_indicators_witness :
  In (ModelRouter.mkMatched "L2" "短文要約" 3)
     (ModelRouter.indicators
        (ModelRouter.analyzeComplexity lengthConfig "人生の重要な決断について")).
Proof.
  apply (proj1 (X13_length_only_indicators lengthConfig "人生の重要な決断について"
                  "L2" (ModelRouter.mkLevelConfig 3 ["事実抽出"; "短文要約"]) "短文要約"
                  ltac:(vm_compute; auto 10) ltac:(vm_compute; auto) ) eq_refl).
  vm_compute. lia.
Defined.

Lemma keywordScore_unfold (message : string) :
  LightweightRouter.keywordScore message
  = let hit (keywords : list string) :=
        existsb (fun keyword => JS.includes message keyword) keywords in
    let s1 := if hit ["ファイル"; "デバッグ"; "Ubuntu"; "設定"; "システム"; "修正"]
              then Z.max 0 1 else 0 in
    let s3 := if hit ["アイデア"; "まとめ"; "整理"; "チャット"; "要約"; "分類"]
              then Z.max s1 3 else s1 in
    let s5 := if hit ["カレンダー"; "Gmail"; "スケジュール"; "会議"; "予定"; "設定"]
              then Z.max s3 5 else s3 in
    let s7 := if hit ["ブログ"; "初稿"; "記事"; "文章"; "執筆"; "メール"; "返信"; "作成"]
              then Z.max s5 7 else s5 in
    if hit ["人生"; "相談"; "重要"; "戦略"; "最終"; "仕上げ"; "決断"; "判断"]
    then Z.max s7 10 else s7.
Proof. reflexivity. Qed.

(** X14.  The keyword score of the lightweight classifier is the highest
    level one of whose keywords occurs in the message, and 0 when none
    does: it is at least the level of every keyword that occurs, it is
    attained by a keyword that occurs, and it is one of 0, 1, 3, 5, 7, 10.
    With the two length bonuses the total score stays between 0 and 14. *)
Theorem X14_keywordScore_is_highest_level (message : string) :
  (forall level keywords keyword,
      In (level, keywords) LightweightRouter.patterns ->
      In keyword keywords ->
      JS.includes message keyword = true ->
      level <= LightweightRouter.keywordScore message)
  /\ (LightweightRouter.keywordScore message = 0
      \/ exists level keywords keyword,
           In (level, keywords) LightweightRouter.patterns
           /\ In keyword keywords
           /\ JS.includes message keyword = true
           /\ LightweightRouter.keywordScore message = level)
  /\ In (LightweightRouter.keywordScore message) [0; 1; 3; 5; 7; 10]
  /\ 0 <= LightweightRouter.totalScore (LightweightRouter.analyzeComplexity message) <= 14.
Proof.
  assert (Hrange : 0 <= LightweightRouter.totalScore
                          (LightweightRouter.analyzeComplexity message) <= 14).
  { rewrite LR_length_bonus, keywordScore_unfold. cbv beta zeta.
    repeat match goal with
           | |- context [if ?b then _ else _] => destruct b
           end; lia. }
  split; [|split; [|split; [|exact Hrange]]].
  - intros level keywords keyword Hentry Hkw Hinc.
    assert (Hhit : existsb (fun keyword => JS.includes message keyword) keywords = true)
      by (apply existsb_exists; exists keyword; split; assumption).
    rewrite keywordScore_unfold. cbv beta zeta.
    unfold LightweightRouter.patterns in Hentry. cbn [In] in Hentry.
    destruct Hentry as [H|[H|[H|[H|[H|[]]]]]]; injection H as <- <-; rewrite Hhit;
      repeat match goal with
             | |- context [if ?b then _ else _] => destruct b
             end; lia.
  - rewrite keywordScore_unfold. cbv beta zeta.
    destruct (existsb _ ["人生"; "相談"; "重要"; "戦略"; "最終"; "仕上げ"; "決断"; "判断"]) eqn:H10;
    destruct (existsb _ ["ブログ"; "初稿"; "記事"; "文章"; "執筆"; "メール"; "返信"; "作成"]) eqn:H7;
    destruct (existsb _ ["カレンダー"; "Gmail"; "スケジュール"; "会議"; "予定"; "設定"]) eqn:H5;
    destruct (existsb _ ["アイデア"; "まとめ"; "整理"; "チャット"; "要約"; "分類"]) eqn:H3;
    destruct (existsb _ ["ファイル"; "デバッグ"; "Ubuntu"; "設定"; "システム"; "修正"]) eqn:H1;
    first
      [ left; reflexivity
      | right;
        match goal with
        | H : existsb _ ?keywords = true |- _ =>
            apply existsb_exists in H as (keyword & Hin & Hinc);
            eexists _, keywords, keyword;
            split; [unfold LightweightRouter.patterns; cbn [In];
                    repeat (first [left; reflexivity | right])|];
            split; [exact Hin|]; split; [exact Hinc|]; reflexivity
        end ].
  - rewrite keywordScore_unfold. cbv beta zeta.
    repeat match goal with
           | |- context [if ?b then _ else _] => destruct b
           end; cbn; auto 10.
Qed.

Lemma X14_keywordScore_is_highest_level_witness :
  5 <= LightweightRouter.keywordScore "設定ファイルを修正".
Proof.
  apply (proj1 (X14_keywordScore_is_highest_level "設定ファイルを修正") 5
               ["カレンダー"; "Gmail"; "スケジュール"; "会議"; "予定"; "設定"] "設定").
  - vm_compute. auto 10.
  - vm_compute. auto 10.
  - vm_compute. reflexivity.
Defined.

(** X15.  A message in which no keyword of the lightweight classifier
    occurs is classified by its length alone: L1 up to 1000 UTF-16 units
    (the first bonus of 2 stays below the L2 mark of 3) and L2 above. *)
Theorem X15_no_keyword_classification (message : string) :
  noKeywordMatches message ->
  LightweightRouter.complexity (LightweightRouter.analyzeComplexity message)
  = if (1000 <? JS.length message)%nat then modelOf L2 else modelOf L1.
Proof.
  intros Hmiss. unfold LightweightRouter.analyzeComplexity.
  cbn [LightweightRouter.complexity]. rewrite (LR_keywordScore_no_match message Hmiss).
  destruct (1000 <? JS.length message)%nat eqn:H1000.
  - apply Nat.ltb_lt in H1000.
    replace (500 <? JS.length message)%nat with true
      by (symmetry; apply Nat.ltb_lt; lia).
    reflexivity.
  - destruct (500 <? JS.length message)%nat; reflexivity.
Qed.

Lemma X15_no_keyword_classification_witness :
  LightweightRouter.complexity (LightweightRouter.analyzeComplexity (JS.repeat "x"%char 1200))
  = modelOf L2.
Proof.
  apply (X15_no_keyword_classification (JS.repeat "x"%char 1200)).
  exact repeat_x_no_keyword.
Defined.

Ltac flag_iff :=
  split; intros H;
  first
    [ discriminate H
    | exfalso; apply H; reflexivity
    | reflexivity
    | discriminate
    | left; reflexivity
    | right; reflexivity
    | split; [reflexivity|]; first [left; reflexivity | right; reflexivity]
    | match type of H with
      | _ \/ _ => destruct H as [H|H]; discriminate H
      end
    | match type of H with
      | _ /\ _ =>
          let H' := fresh "H" in
          destruct H as [H H'];
          first [discriminate H | destruct H' as [H'|H']; discriminate H']
      end ].

(** X16.  Both routers set [downgraded] in emergency mode exactly when
    the model they return differs from the classifier's, which is exactly
    when the classifier recommends L4 or L5; and outside emergency mode
    the lightweight router returns the classifier's model, not downgraded. *)
Theorem X16_downgraded_flag (config : ModelRouter.Config) (g : option Global.EmergencyMode)
    (message : string) :
  (let s := ModelRouter.selectEmergencyModel config message in
   let base := ModelRouter.complexity (ModelRouter.analyzeComplexity config message) in
   ModelRouter.es_emergency s = true
   /\ (ModelRouter.es_downgraded s = true <-> ModelRouter.es_model s <> base)
   /\ (ModelRouter.es_downgraded s = true <-> base = modelOf L4 \/ base = modelOf L5))
  /\ (let s := LightweightRouter.selectModel g message in
      let base := LightweightRouter.complexity (LightweightRouter.analyzeComplexity message) in
      LightweightRouter.emergency s = Global.emergencyEnabled g
      /\ LightweightRouter.analysis s = LightweightRouter.analyzeComplexity message
      /\ (LightweightRouter.downgraded s = true <-> LightweightRouter.model s <> base)
      /\ (LightweightRouter.downgraded s = true
          <-> Global.emergencyEnabled g = true
              /\ (base = modelOf L4 \/ base = modelOf L5))).
Proof.
  cbv zeta. split.
  - unfold ModelRouter.selectEmergencyModel.
    cbn [ModelRouter.es_emergency ModelRouter.es_downgraded ModelRouter.es_model].
    destruct (MR_getComplexityLevel_tier
                (ModelRouter.totalScore (ModelRouter.analyzeComplexity config message)))
      as [t Ht].
    assert (Hbase : ModelRouter.complexity (ModelRouter.analyzeComplexity config message)
                    = modelOf t) by exact Ht.
    rewrite Hbase, MR_emergencyMap_tier.
    split; [reflexivity|].
    destruct t; cbn; split; flag_iff.
  - unfold LightweightRouter.selectModel.
    destruct (LR_getComplexityLevel_tier
                (LightweightRouter.totalScore (LightweightRouter.analyzeComplexity message)))
      as [t Ht].
    assert (Hbase : LightweightRouter.complexity (LightweightRouter.analyzeComplexity message)
                    = modelOf t) by exact Ht.
    destruct (Global.emergencyEnabled g).
    + unfold LightweightRouter.selectEmergencyModel.
      cbn [LightweightRouter.emergency LightweightRouter.downgraded LightweightRouter.model
           LightweightRouter.analysis].
      rewrite Hbase, LR_emergencyMap_tier.
      split; [reflexivity|]. split; [reflexivity|].
      destruct t; cbn; split; flag_iff.
    + cbn [LightweightRouter.emergency LightweightRouter.downgraded LightweightRouter.model
           LightweightRouter.analysis].
      split; [reflexivity|]. split; [reflexivity|]. split; flag_iff.
Qed.

(* ===================================================================== *)
(** ** Further properties of the lightweight monitor                      *)
(* ===================================================================== *)

Lemma run_same_day_usage (calls : list LightweightMonitor.Call) (s : LightweightMonitor.State) :
  settled s ->
  Forall (fun c => LightweightMonitor.today c
                   = LightweightMonitor.date (LightweightMonitor.dailyUsage s)) calls ->
  let u := LightweightMonitor.dailyUsage s in
  let u' := LightweightMonitor.dailyUsage (fst (LightweightMonitor.run calls s)) in
  LightweightMonitor.requests u' = LightweightMonitor.requests u + Z.of_nat (List.length calls)
  /\ LightweightMonitor.totalTokens u'
     = fold_left Z.add (map LightweightMonitor.tokens calls) (LightweightMonitor.totalTokens u)
  /\ LightweightMonitor.totalCost u'
     = fold_left PrimFloat.add (map LightweightMonitor.cost calls) (LightweightMonitor.totalCost u)
  /\ LightweightMonitor.lastCheck u' = LightweightMonitor.lastCheck u.
Proof.
  cbv zeta. revert s. induction calls as [|c calls IH]; intros s Hs Hday.
  - cbn. split_all; try reflexivity; lia.
  - inversion Hday as [|? ? Hc Hrest]; subst.
    pose proof (turn_same_day s c Hs Hc) as Hturn. cbv zeta in Hturn.
    cbn [LightweightMonitor.run]. rewrite Hturn.
    match goal with
    | |- context [LightweightMonitor.run calls ?s1] =>
        specialize (IH s1); destruct (LightweightMonitor.run calls s1) as [s2 rest]
    end.
    cbn [fst snd] in *.
    cbn [LightweightMonitor.alertThresholds LightweightMonitor.immediates
         LightweightMonitor.dailyUsage LightweightMonitor.date LightweightMonitor.requests
         LightweightMonitor.totalTokens LightweightMonitor.totalCost
         LightweightMonitor.lastCheck] in IH.
    destruct IH as (Hreq & Htok & Hcost & Hlast); [split; reflexivity | exact Hrest |].
    rewrite Hreq, Htok, Hcost, Hlast. cbn [List.length map fold_left].
    split_all; try reflexivity; lia.
Qed.

(** X17.  Over calls of one day the monitor's counters add up:
    [requests] grows by the number of calls, [totalTokens] by the sum of
    their tokens, [totalCost] is the left-to-right floating-point sum of
    their costs on top of the earlier total, and [getCurrentUsage] reports
    these with the percentage [(totalCost / dailyBudget) * 100]. *)
Theorem X17_monitor_counters (calls : list LightweightMonitor.Call)
    (s : LightweightMonitor.State) :
  settled s ->
  Forall (fun c => LightweightMonitor.today c
                   = LightweightMonitor.date (LightweightMonitor.dailyUsage s)) calls ->
  let u := LightweightMonitor.dailyUsage s in
  let s' := fst (LightweightMonitor.run calls s) in
  let usage := LightweightMonitor.getCurrentUsage s' in
  LightweightMonitor.cu_requests usage
  = LightweightMonitor.requests u + Z.of_nat (List.length calls)
  /\ LightweightMonitor.cu_tokens usage
     = fold_left Z.add (map LightweightMonitor.tokens calls) (LightweightMonitor.totalTokens u)
  /\ LightweightMonitor.cu_cost usage
     = fold_left PrimFloat.add (map LightweightMonitor.cost calls)
                 (LightweightMonitor.totalCost u)
  /\ LightweightMonitor.cu_percentage usage
     = PrimFloat.mul (PrimFloat.div (LightweightMonitor.cu_cost usage)
                                    (LightweightMonitor.dailyBudget s)) 100
  /\ LightweightMonitor.cu_emergencyMode usage = monitorEmergency s'.
Proof.
  intros Hs Hday. cbv zeta.
  destruct (run_same_day_usage calls s Hs Hday) as (Hreq & Htok & Hcost & _).
  destruct (run_same_day calls s Hs Hday) as (_ & _ & Hbudget & _).
  unfold LightweightMonitor.getCurrentUsage.
  cbn [LightweightMonitor.cu_requests LightweightMonitor.cu_tokens LightweightMonitor.cu_cost
       LightweightMonitor.cu_percentage LightweightMonitor.cu_emergencyMode].
  rewrite Hbudget. split_all; try assumption; reflexivity.
Qed.

Lemma X17_monitor_counters_witness :
  LightweightMonitor.cu_requests
    (LightweightMonitor.getCurrentUsage (fst (LightweightMonitor.run monitorCalls sampleMonitor)))
  = 3
  /\ LightweightMonitor.cu_tokens
       (LightweightMonitor.getCurrentUsage
          (fst (LightweightMonitor.run monitorCalls sampleMonitor)))
     = 2300.
Proof.
  pose proof (X17_monitor_counters monitorCalls sampleMonitor) as H.
  cbv zeta in H.
  destruct H as (Hreq & Htok & _).
  - split; reflexivity.
  - repeat constructor.
  - split; [exact Hreq | exact Htok].
Defined.

Lemma turn_justified (s : LightweightMonitor.State) (c : LightweightMonitor.Call) :
  settled s ->
  let s1 := fst (LightweightMonitor.turn c s) in
  let alerts := snd (LightweightMonitor.turn c s) in
  settled s1
  /\ LightweightMonitor.dailyBudget s1 = LightweightMonitor.dailyBudget s
  /\ LightweightMonitor.date (LightweightMonitor.dailyUsage s1) = LightweightMonitor.today c
  /\ (List.length alerts <= 2)%nat
  /\ Forall justified alerts
  /\ Forall (fun a => LightweightMonitor.percentage a
                      = PrimFloat.div (LightweightMonitor.totalCost
                                         (LightweightMonitor.dailyUsage s1))
                                      (LightweightMonitor.dailyBudget s1)) alerts.
Proof.
  intros Hs. cbv zeta.
  destruct (turn_onDate s c Hs) as (Heq & Hs0 & Hdate & Hbudget).
  rewrite Heq.
  destruct (turn_same_day_facts (onDate (LightweightMonitor.today c) s) c Hs0 Hdate)
    as (Hs1 & Hd1 & Hb1 & Hcost & _ & _ & _ & Hal & _).
  cbv zeta in Hd1, Hb1, Hcost, Hal.
  rewrite Hal, Hb1, Hd1, Hcost, <- Hdate, Hbudget.
  split; [exact Hs1|]. split; [reflexivity|]. split; [reflexivity|].
  unfold firesNow.
  set (fraction := PrimFloat.div _ _).
  set (set0 := LightweightMonitor.alertTriggered _).
  destruct (PrimFloat.leb 0.7 fraction) eqn:H7, (PrimFloat.leb 0.9 fraction) eqn:H9,
    (LightweightMonitor.has set0 0.7), (LightweightMonitor.has set0 0.9);
    cbn [andb negb app List.length orb];
    (split; [lia|]);
    (split; [repeat (constructor; [split; [cbn; auto | cbn; assumption]|]); constructor|]);
    repeat (constructor; [reflexivity|]); constructor.
Qed.

Lemma last_cons_any {A : Type} (l : list A) (x d : A) :
  List.last (x :: l) d = List.last l x.
Proof.
  revert x d. induction l as [|y l IH]; intros x d; [reflexivity|].
  change (List.last (x :: y :: l) d) with (List.last (y :: l) d).
  rewrite (IH y d), (IH y x). reflexivity.
Qed.

(** X18.  Whatever the dates of the calls, a monitor that starts settled
    stays settled and keeps its budget; every turn emits at most two
    alerts; and every alert is justified: its threshold is 0.7 with level
    WARNING or 0.9 with level CRITICAL, and the fraction it carries has
    reached that threshold. *)
Theorem X18_monitor_alerts_are_justified (calls : list LightweightMonitor.Call)
    (s : LightweightMonitor.State) :
  settled s ->
  let s' := fst (LightweightMonitor.run calls s) in
  let alerts := snd (LightweightMonitor.run calls s) in
  settled s'
  /\ LightweightMonitor.dailyBudget s' = LightweightMonitor.dailyBudget s
  /\ List.length alerts = List.length calls
  /\ Forall (fun turnAlerts => (List.length turnAlerts <= 2)%nat
                               /\ Forall justified turnAlerts) alerts
  /\ LightweightMonitor.date (LightweightMonitor.dailyUsage s')
     = List.last (map LightweightMonitor.today calls)
                 (LightweightMonitor.date (LightweightMonitor.dailyUsage s)).
Proof.
  cbv zeta. revert s. induction calls as [|c calls IH]; intros s Hs.
  - cbn. split_all; try reflexivity; try apply Hs. constructor.
  - destruct (turn_justified s c Hs) as (Hs1 & Hb1 & Hd1 & Hlen & Hjust & _).
    cbv zeta in Hs1, Hb1, Hd1, Hlen, Hjust.
    cbn [LightweightMonitor.run].
    destruct (LightweightMonitor.turn c s) as [s1 turnAlerts]. cbn [fst snd] in *.
    specialize (IH s1 Hs1).
    destruct (LightweightMonitor.run calls s1) as [s2 rest]. cbn [fst snd] in *.
    destruct IH as (Hs2 & Hb2 & Hlen2 & Hall & Hd2).
    split; [exact Hs2|]. split; [congruence|]. split; [cbn; congruence|].
    split; [constructor; [split; assumption | exact Hall]|].
    rewrite Hd2, Hd1. cbn [map]. rewrite last_cons_any. reflexivity.
Qed.

Lemma X18_monitor_alerts_are_justified_witness :
  Forall (fun turnAlerts => (List.length turnAlerts <= 2)%nat /\ Forall justified turnAlerts)
         (snd (LightweightMonitor.run
                 (monitorCalls ++ [LightweightMonitor.mkCall day2 4.8 100]) sampleMonitor)).
Proof.
  apply (X18_monitor_alerts_are_justified
           (monitorCalls ++ [LightweightMonitor.mkCall day2 4.8 100]) sampleMonitor).
  split; reflexivity.
Defined.

Lemma updateDashboardOnce_gate (now : Z) (level0 : string) (percentage0 : float)
    (s : Dashboard.State) :
  let r := Dashboard.updateDashboardOnce now level0 percentage0 s in
  let last := default 0 (Dashboard.lastDashboardUpdate s) in
  Dashboard.monitor (fst r) = Dashboard.monitor s
  /\ (now < last + 3600000 -> r = (s, None))
  /\ (last + 3600000 <= now ->
      Dashboard.lastDashboardUpdate (fst r) = Some now
      /\ exists u, snd r = Some u /\ Dashboard.at_ms u = now /\ Dashboard.level u = level0
                   /\ Dashboard.percentage u = percentage0).
Proof.
  cbv zeta. unfold Dashboard.updateDashboardOnce.
  destruct (Z.ltb_spec (now - default 0 (Dashboard.lastDashboardUpdate s)) 3600000) as [Hlt|Hge];
    cbn [fst snd Dashboard.monitor Dashboard.lastDashboardUpdate].
  - split_all; try reflexivity; intros; lia.
  - split_all; try reflexivity; try (intros; lia).
    intros _. split; [reflexivity|]. eexists. split_all; reflexivity.
Qed.

Lemma triggerAlert_dashboard (now : Z) (threshold0 percentage0 : float) (s : Dashboard.State) :
  let r := Dashboard.triggerAlert now threshold0 percentage0 s in
  let last := default 0 (Dashboard.lastDashboardUpdate s) in
  Dashboard.monitor (fst r)
  = fst (LightweightMonitor.triggerAlert threshold0 percentage0 (Dashboard.monitor s))
  /\ (now < last + 3600000 ->
      snd r = None /\ Dashboard.lastDashboardUpdate (fst r) = Dashboard.lastDashboardUpdate s)
  /\ (last + 3600000 <= now ->
      Dashboard.lastDashboardUpdate (fst r) = Some now
      /\ exists u, snd r = Some u /\ Dashboard.at_ms u = now
                   /\ Dashboard.level u
                      = LightweightMonitor.level
                          (snd (LightweightMonitor.triggerAlert threshold0 percentage0
                                  (Dashboard.monitor s)))
                   /\ Dashboard.percentage u = percentage0).
Proof.
  cbv zeta. unfold Dashboard.triggerAlert, LightweightMonitor.triggerAlert,
    LightweightMonitor.afterDashboard, LightweightMonitor.alertOf.
  set (level0 := if PrimFloat.leb 0.9 threshold0 then "CRITICAL" else "WARNING").
  destruct (updateDashboardOnce_gate now level0 percentage0 s) as (Hmon & Hclosed & Hopen).
  cbv zeta in Hmon, Hclosed, Hopen.
  destruct (Dashboard.updateDashboardOnce now level0 percentage0 s) as [s1 update].
  cbn [fst snd] in *.
  split; [|split].
  - destruct (PrimFloat.leb 0.9 threshold0); cbn [Dashboard.monitor]; rewrite Hmon; reflexivity.
  - intros Hlt. injection (Hclosed Hlt) as -> ->.
    split; [reflexivity|].
    destruct (PrimFloat.leb 0.9 threshold0); reflexivity.
  - intros Hge. destruct (Hopen Hge) as (Hlast & u & Hu & Hat & Hlevel & Hpct).
    split; [destruct (PrimFloat.leb 0.9 threshold0); exact Hlast|].
    exists u. cbn [LightweightMonitor.level]. auto.
Qed.

Lemma triggerAlerts_hourApart (alerts : list (Z * (float * float))) (s : Dashboard.State)
    (last : Z) :
  default 0 (Dashboard.lastDashboardUpdate s) = last ->
  hourApart last (snd (Dashboard.triggerAlerts alerts s)).
Proof.
  revert s last. induction alerts as [|[now [threshold0 percentage0]] rest IH];
    intros s last Hlast.
  - exact I.
  - cbn [Dashboard.triggerAlerts].
    destruct (triggerAlert_dashboard now threshold0 percentage0 s) as (_ & Hclosed & Hopen).
    cbv zeta in Hclosed, Hopen. rewrite Hlast in Hclosed, Hopen.
    destruct (Dashboard.triggerAlert now threshold0 percentage0 s) as [s1 update].
    cbn [fst snd] in *.
    destruct (Z.lt_ge_cases now (last + 3600000)) as [Hlt|Hge].
    + destruct (Hclosed Hlt) as [-> Hsame].
      specialize (IH s1 last). rewrite Hsame in IH. specialize (IH Hlast).
      destruct (Dashboard.triggerAlerts rest s1) as [s2 updates]. exact IH.
    + destruct (Hopen Hge) as (Hnew & u & -> & Hat & _).
      specialize (IH s1 now). rewrite Hnew in IH. specialize (IH eq_refl).
      destruct (Dashboard.triggerAlerts rest s1) as [s2 updates]. cbn [snd] in *.
      cbn [hourApart]. rewrite Hat. split; [exact Hge | exact IH].
Qed.

(** X19.  The dashboard step of [triggerAlert] never changes what the
    monitor does with the budget, and it is gated by the hour, not by the
    day: an alert gets to the dashboard exactly when at least 3600000 ms
    have passed since [lastDashboardUpdate] (0 when the usage object has
    none), so the updates of any sequence of alerts on one usage object
    are at least an hour apart.  When a call crosses both thresholds and
    its two alerts run within the hour, the dashboard gets the WARNING
    line only, while emergency mode is switched on all the same.  After
    [resetDailyUsage] the gate is open again, however recent the last
    update. *)
Theorem X19_dashboard_hour_gate (s : Dashboard.State) (now1 now2 : Z)
    (percentage0 : float) (alerts : list (Z * (float * float))) (newDate : string) :
  3600000 <= now1 ->
  now1 <= now2 < now1 + 3600000 ->
  (forall now threshold0 p,
      Dashboard.monitor (fst (Dashboard.triggerAlert now threshold0 p s))
      = fst (LightweightMonitor.triggerAlert threshold0 p (Dashboard.monitor s)))
  /\ (forall now threshold0 p,
        snd (Dashboard.triggerAlert now threshold0 p s) <> None
        <-> default 0 (Dashboard.lastDashboardUpdate s) + 3600000 <= now)
  /\ hourApart (default 0 (Dashboard.lastDashboardUpdate s))
               (snd (Dashboard.triggerAlerts alerts s))
  /\ (Dashboard.lastDashboardUpdate s = None ->
      let r := Dashboard.triggerAlerts
                 [(now1, (0.7%float, percentage0)); (now2, (0.9%float, percentage0))] s in
      map Dashboard.level (snd r) = ["WARNING"]
      /\ monitorEmergency (Dashboard.monitor (fst r)) = true)
  /\ (exists u,
        snd (Dashboard.triggerAlert now1 0.9 percentage0 (Dashboard.resetDailyUsage newDate s))
        = Some u /\ Dashboard.level u = "CRITICAL").
Proof.
  intros Hnow1 Hnow2. split_all.
  - intros now threshold0 p. apply triggerAlert_dashboard.
  - intros now threshold0 p.
    destruct (triggerAlert_dashboard now threshold0 p s) as (_ & Hclosed & Hopen).
    cbv zeta in Hclosed, Hopen.
    destruct (Z.lt_ge_cases now (default 0 (Dashboard.lastDashboardUpdate s) + 3600000))
      as [Hlt|Hge].
    + destruct (Hclosed Hlt) as [-> _]. split; [congruence | lia].
    + destruct (Hopen Hge) as (_ & u & -> & _). split; [intros _; exact Hge | discriminate].
  - apply triggerAlerts_hourApart. reflexivity.
  - intros Hnone. cbv zeta. cbn [Dashboard.triggerAlerts].
    destruct (triggerAlert_dashboard now1 0.7 percentage0 s) as (Hm1 & _ & Hopen1).
    cbv zeta in Hm1, Hopen1. rewrite Hnone in Hopen1. cbn in Hopen1.
    destruct (Hopen1 ltac:(lia)) as (Hlast1 & u1 & Hu1 & _ & Hlevel1 & _).
    destruct (Dashboard.triggerAlert now1 0.7 percentage0 s) as [s1 update1].
    cbn [fst snd] in *. subst update1.
    destruct (triggerAlert_dashboard now2 0.9 percentage0 s1) as (Hm2 & Hclosed2 & _).
    cbv zeta in Hm2, Hclosed2. rewrite Hlast1 in Hclosed2. cbn in Hclosed2.
    destruct (Hclosed2 ltac:(lia)) as [Hu2 _].
    destruct (Dashboard.triggerAlert now2 0.9 percentage0 s1) as [s2 update2].
    cbn [fst snd] in *. subst update2. cbn [map fst snd].
    split; [rewrite Hlevel1; reflexivity|].
    rewrite Hm2. reflexivity.
  - destruct (triggerAlert_dashboard now1 0.9 percentage0 (Dashboard.resetDailyUsage newDate s))
      as (_ & _ & Hopen).
    cbv zeta in Hopen. cbn in Hopen.
    destruct (Hopen ltac:(lia)) as (_ & u & Hu & _ & Hlevel & _).
    exists u. split; [exact Hu | rewrite Hlevel; reflexivity].
Qed.

Lemma X19_dashboard_hour_gate_witness :
  map Dashboard.level
      (snd (Dashboard.triggerAlerts
              [(1769904000000, (0.7%float, 0.92%float));
               (1769904000001, (0.9%float, 0.92%float))]
              (Dashboard.mkState sampleMonitor None)))
  = ["WARNING"].
Proof.
  pose proof (X19_dashboard_hour_gate (Dashboard.mkState sampleMonitor None)
                1769904000000 1769904000001 0.92%float [] day2) as H.
  destruct H as (_ & _ & _ & Hboth & _); [lia | lia |].
  exact (proj1 (Hboth eq_refl)).
Defined.

(* ===================================================================== *)
(** ** Further properties of the cost optimizer                           *)
(* ===================================================================== *)

Lemma sumOver_insert (f : CostOptimizer.ModelStats -> Z)
    (models : gmap string CostOptimizer.ModelStats) (k : string)
    (v : CostOptimizer.ModelStats) :
  sumOver f (<[k := v]> models)
  = sumOver f models
    - match models !! k with Some old => f old | None => 0 end
    + f v.
Proof.
  unfold sumOver.
  destruct (models !! k) as [old|] eqn:Hk.
  - rewrite <- (insert_delete_eq models k v).
    rewrite (map_fold_delete_L _ 0 k old models); [|intros; lia | exact Hk].
    rewrite map_fold_insert_L; [lia | intros; lia | apply lookup_delete_eq].
  - rewrite map_fold_insert_L; [lia | intros; lia | exact Hk].
Qed.

Lemma trackUsage_daily (o : CostOptimizer.State) (today modelUsed : string) (tokens : Z)
    (cost : float) :
  let u := default CostOptimizer.emptyDay (CostOptimizer.daily o !! today) in
  CostOptimizer.daily (fst (CostOptimizer.trackUsage today modelUsed tokens cost o))
  = <[ today :=
         {| CostOptimizer.totalCost := PrimFloat.add (CostOptimizer.totalCost u) cost;
            CostOptimizer.totalTokens := CostOptimizer.totalTokens u + tokens;
            CostOptimizer.requests := CostOptimizer.requests u + 1;
            CostOptimizer.models :=
              match JS.get (CostOptimizer.models u) modelUsed with
              | JS.Own m =>
                  <[ modelUsed := CostOptimizer.bump m tokens cost ]> (CostOptimizer.models u)
              | JS.Absent =>
                  <[ modelUsed := CostOptimizer.bump CostOptimizer.emptyStats tokens cost ]>
                    (CostOptimizer.models u)
              | JS.Inherited => CostOptimizer.models u
              end |} ]> (CostOptimizer.daily o).
Proof.
  cbv zeta. unfold CostOptimizer.trackUsage, CostOptimizer.checkBudgetAlert.
  cbn [CostOptimizer.daily]. rewrite lookup_insert_eq.
  repeat match goal with
         | |- context [if PrimFloat.leb ?a ?b then _ else _] => destruct (PrimFloat.leb a b)
         end; reflexivity.
Qed.

Lemma trackUsage_balanced (o : CostOptimizer.State) (today modelUsed : string) (tokens : Z)
    (cost : float) :
  ~ inheritedName modelUsed ->
  balanced o -> balanced (fst (CostOptimizer.trackUsage today modelUsed tokens cost o)).
Proof.
  intros Hout Hbal date u'. rewrite trackUsage_daily.
  destruct (String.eqb_spec date today) as [->|Hne].
  - rewrite lookup_insert_eq. intros [= <-].
    assert (Hu : dayBalanced (default CostOptimizer.emptyDay (CostOptimizer.daily o !! today))).
    { destruct (CostOptimizer.daily o !! today) as [u|] eqn:Hday.
      - exact (Hbal today u Hday).
      - split; reflexivity. }
    destruct Hu as [Htok Hreq]. unfold dayBalanced.
    cbn [CostOptimizer.totalTokens CostOptimizer.requests CostOptimizer.models].
    unfold JS.get.
    destruct (CostOptimizer.models _ !! modelUsed) as [old|] eqn:Hold.
    + rewrite !sumOver_insert, Hold, <- Htok, <- Hreq.
      cbn [CostOptimizer.bump CostOptimizer.ms_tokens CostOptimizer.ms_count]. split; lia.
    + destruct (existsb (String.eqb modelUsed) JS.objectPrototypeKeys) eqn:Hproto.
      * apply inheritedName_get in Hproto. contradiction.
      * rewrite !sumOver_insert, Hold, <- Htok, <- Hreq.
        cbn [CostOptimizer.bump CostOptimizer.ms_tokens CostOptimizer.ms_count
             CostOptimizer.emptyStats].
        split; lia.
  - rewrite lookup_insert_ne by congruence. apply Hbal.
Qed.

(** X20.  The optimizer keeps its books balanced as long as no model
    name is that of a member of [Object.prototype]: on every date the
    day's [totalTokens] is the sum of the [tokens] of its per-model
    records and its [requests] the sum of their [count]s.  This holds
    for a new optimizer and is kept by every sequence of [trackUsage]
    calls with such model names, whatever their dates.  A call whose
    model name is a member of [Object.prototype] ([constructor], say),
    on a day without a record of that name, counts in the day's totals
    and leaves the per-model records as they were: it takes a balanced
    day out of balance. *)
Theorem X20_optimizer_books_balance (calls : list CostOptimizer.Call) (o : CostOptimizer.State) :
  balanced o ->
  Forall (fun c => ~ inheritedName (CostOptimizer.modelUsed c)) calls ->
  balanced (fst (CostOptimizer.run calls o))
  /\ (forall configBudget configEmergency,
        balanced (fst (CostOptimizer.run calls
                         (CostOptimizer.new configBudget configEmergency))))
  /\ (forall today modelUsed tokens cost,
        inheritedName modelUsed ->
        let u := default CostOptimizer.emptyDay (CostOptimizer.daily o !! today) in
        let u' := default CostOptimizer.emptyDay
                    (CostOptimizer.daily
                       (fst (CostOptimizer.trackUsage today modelUsed tokens cost o))
                     !! today) in
        CostOptimizer.models u !! modelUsed = None ->
        CostOptimizer.totalTokens u' = CostOptimizer.totalTokens u + tokens
        /\ CostOptimizer.requests u' = CostOptimizer.requests u + 1
        /\ CostOptimizer.models u' = CostOptimizer.models u
        /\ ~ dayBalanced u').
Proof.
  assert (Hrun : forall calls o,
             Forall (fun c => ~ inheritedName (CostOptimizer.modelUsed c)) calls ->
             balanced o -> balanced (fst (CostOptimizer.run calls o))).
  { clear. induction calls as [|c calls IH]; intros o Hnames Hbal; [exact Hbal|].
    inversion Hnames as [|c' calls' Hc Hrest]; subst c' calls'.
    cbn [CostOptimizer.run].
    pose proof (trackUsage_balanced o (CostOptimizer.today c) (CostOptimizer.modelUsed c)
                  (CostOptimizer.tokens c) (CostOptimizer.cost c) Hc Hbal) as H1.
    destruct (CostOptimizer.trackUsage _ _ _ _ o) as [o1 alerts]. cbn [fst] in H1.
    specialize (IH o1 Hrest H1). destruct (CostOptimizer.run calls o1) as [o2 rest]. exact IH. }
  intros Hbal Hnames. split; [apply Hrun; assumption|]. split.
  - intros configBudget configEmergency. apply Hrun; [exact Hnames|].
    intros date u. unfold CostOptimizer.new. cbn [CostOptimizer.daily].
    rewrite lookup_empty. discriminate.
  - intros today modelUsed tokens cost Hin. cbv zeta. intros Hnone.
    rewrite trackUsage_daily, lookup_insert_eq. cbv zeta.
    cbn [from_option id CostOptimizer.totalTokens CostOptimizer.requests CostOptimizer.models].
    unfold JS.get. rewrite Hnone.
    apply inheritedName_get in Hin. rewrite Hin.
    split; [reflexivity|]. split; [reflexivity|]. split; [reflexivity|].
    assert (Hu : dayBalanced (default CostOptimizer.emptyDay (CostOptimizer.daily o !! today))).
    { destruct (CostOptimizer.daily o !! today) as [u|] eqn:Hday.
      - exact (Hbal today u Hday).
      - split; reflexivity. }
    destruct Hu as [_ Hreq]. intros [_ Hreq'].
    cbn [CostOptimizer.requests CostOptimizer.models] in Hreq'. lia.
Qed.

Lemma X20_optimizer_books_balance_witness :
  balanced (fst (CostOptimizer.run optimizerCalls sampleOptimizer))
  /\ ~ dayBalanced
         (default CostOptimizer.emptyDay
            (CostOptimizer.daily
               (fst (CostOptimizer.trackUsage day1 "constructor" 10 0.01 sampleOptimizer))
             !! day1)).
Proof.
  assert (Hbal : balanced sampleOptimizer).
  { intros date u. unfold sampleOptimizer, CostOptimizer.new. cbn [CostOptimizer.daily].
    rewrite lookup_empty. discriminate. }
  assert (Hnames : Forall (fun c => ~ inheritedName (CostOptimizer.modelUsed c))
                          optimizerCalls).
  { unfold optimizerCalls.
    repeat (apply List.Forall_cons;
            [intros Hin; unfold inheritedName in Hin; cbn in Hin;
             repeat (destruct Hin as [Hin|Hin]; [discriminate Hin|]); discriminate Hin|]).
    apply List.Forall_nil. }
  destruct (X20_optimizer_books_balance optimizerCalls sampleOptimizer Hbal Hnames)
    as (Hrun & _ & Hproto).
  split; [exact Hrun|].
  apply (Hproto day1 "constructor" 10 0.01%float); [vm_compute; auto | reflexivity].
Defined.

(** X21.  Nothing the optimizer does switches its emergency mode off:
    once on it stays on through every later call, on the same date or on
    another; after a run it is on exactly when it was on before or some
    call of the run emitted a CRITICAL alert.  The budget never changes,
    and the record of a date that no call of the run bears is left as it
    was. *)
Theorem X21_optimizer_emergency_is_permanent (calls : list CostOptimizer.Call)
    (o : CostOptimizer.State) :
  let o' := fst (CostOptimizer.run calls o) in
  let alerts := snd (CostOptimizer.run calls o) in
  CostOptimizer.dailyBudget o' = CostOptimizer.dailyBudget o
  /\ optimizerEmergency o'
     = (0 <? optimizerAlerts "CRITICAL" alerts)%nat || optimizerEmergency o
  /\ (optimizerEmergency o = true -> optimizerEmergency o' = true)
  /\ (forall date, Forall (fun c => CostOptimizer.today c <> date) calls ->
        CostOptimizer.daily o' !! date = CostOptimizer.daily o !! date).
Proof.
  cbv zeta.
  assert (Hmain : CostOptimizer.dailyBudget (fst (CostOptimizer.run calls o))
                  = CostOptimizer.dailyBudget o
                  /\ optimizerEmergency (fst (CostOptimizer.run calls o))
                     = (0 <? optimizerAlerts "CRITICAL" (snd (CostOptimizer.run calls o)))%nat
                       || optimizerEmergency o
                  /\ (forall date, Forall (fun c => CostOptimizer.today c <> date) calls ->
                        CostOptimizer.daily (fst (CostOptimizer.run calls o)) !! date
                        = CostOptimizer.daily o !! date)).
  { revert o. induction calls as [|c calls IH]; intros o.
    - cbn. split_all; reflexivity.
    - cbn [CostOptimizer.run].
      destruct (optimizer_trackUsage o (CostOptimizer.today c) (CostOptimizer.modelUsed c)
                  (CostOptimizer.tokens c) (CostOptimizer.cost c))
        as (_ & Hb1 & Hframe1 & Hem1 & u & _ & Hal1).
      cbv zeta in Hb1, Hframe1, Hem1, Hal1.
      destruct (CostOptimizer.trackUsage _ _ _ _ o) as [o1 alerts1]. cbn [fst snd] in *.
      specialize (IH o1). destruct (CostOptimizer.run calls o1) as [o2 rest].
      cbn [fst snd] in *. destruct IH as (Hb2 & Hem2 & Hframe2).
      split; [congruence|]. split.
      + rewrite Hem2, Hem1, optimizerAlerts_cons, Hal1.
        destruct (PrimFloat.leb 90 _); [|destruct (PrimFloat.leb 70 _);
                                          [|destruct (PrimFloat.leb 50 _)]];
          cbn; destruct (optimizerAlerts "CRITICAL" rest); cbn;
          destruct (optimizerEmergency o); reflexivity.
      + intros date Hdates. inversion Hdates as [|? ? Hc Hrest]; subst.
        rewrite (Hframe2 date Hrest). apply Hframe1. congruence. }
  destruct Hmain as (Hb & Hem & Hframe).
  split_all; try assumption.
  intros Hon. rewrite Hem, Hon. apply orb_true_r.
Qed.

Lemma X21_optimizer_emergency_is_permanent_witness :
  optimizerEmergency
    (fst (CostOptimizer.run [CostOptimizer.mkCall day2 "claude-code" 10 0.01]
            (fst (CostOptimizer.run optimizerCalls sampleOptimizer)))) = true.
Proof.
  apply (X21_optimizer_emergency_is_permanent
           [CostOptimizer.mkCall day2 "claude-code" 10 0.01]
           (fst (CostOptimizer.run optimizerCalls sampleOptimizer))).
  vm_compute. reflexivity.
Defined.

(* ===================================================================== *)
(** ** Context compaction and caching                                     *)
(* ===================================================================== *)

Lemma sliceIndex_range (len i : Z) : 0 <= len -> 0 <= JS.sliceIndex len i <= len.
Proof. unfold JS.sliceIndex. destruct (Z.ltb_spec i 0); lia. Qed.

(** [l.slice(0, -k)] followed by [l.slice(-k)] is [l], for every [k]. *)
Lemma slice_partition {A : Type} (l : list A) (k : Z) :
  JS.slice l 0 (- k) = firstn (Z.to_nat (JS.sliceIndex (Z.of_nat (List.length l)) (- k))) l
  /\ JS.sliceFrom l (- k)
     = skipn (Z.to_nat (JS.sliceIndex (Z.of_nat (List.length l)) (- k))) l
  /\ JS.slice l 0 (- k) ++ JS.sliceFrom l (- k) = l.
Proof.
  unfold JS.sliceFrom, JS.slice.
  set (len := Z.of_nat (List.length l)).
  assert (Hlen : 0 <= len) by (unfold len; lia).
  pose proof (sliceIndex_range len (- k) Hlen) as Hfrom.
  set (from := JS.sliceIndex len (- k)) in *.
  assert (H0 : JS.sliceIndex len 0 = 0) by (unfold JS.sliceIndex; cbn; lia).
  assert (Hend : JS.sliceIndex len len = len)
    by (unfold JS.sliceIndex; destruct (Z.ltb_spec len 0); cbv iota; lia).
  rewrite H0, Hend. change (Z.to_nat 0) with 0%nat. cbn [skipn].
  replace (from - 0) with from by lia.
  assert (Hwhole : firstn (Z.to_nat (len - from)) (skipn (Z.to_nat from) l)
                   = skipn (Z.to_nat from) l).
  { apply firstn_all2. rewrite length_skipn. unfold len. lia. }
  rewrite Hwhole. split; [reflexivity|]. split; [reflexivity|]. apply firstn_skipn.
Qed.

Lemma agreesFrom_sound (fuel : nat) (i j : Z) :
  agreesFrom fuel i = true -> i <= j < i + Z.of_nat fuel -> keepCountOf j = j / 5.
Proof.
  revert i. induction fuel as [|fuel IH]; intros i Hagree Hj; [lia|].
  cbn [agreesFrom] in Hagree. apply andb_true_iff in Hagree as [Hi Hrest].
  destruct (Z.eq_dec i j) as [->|Hne]; [apply Z.eqb_eq; exact Hi|].
  apply (IH (i + 1) Hrest). lia.
Qed.

Lemma keepCount_quotient (n : nat) :
  Z.of_nat n < 10000 -> CostOptimizer.keepCount n = Z.of_nat n / 5.
Proof.
  intros Hn. change (CostOptimizer.keepCount n) with (keepCountOf (Z.of_nat n)).
  apply (agreesFrom_sound (Z.to_nat 10000) 0); [vm_compute; reflexivity | lia].
Qed.

(** X22.  [compactContext] returns the history untouched below the
    limit.  At or above it, it splits the history in two without losing
    or reordering a message, and returns one system message, marked
    compressed and stating how many messages were summarised, followed by
    the kept part.  For a history of fewer than 10000 messages the kept
    part is the last [n / 5] messages when there are 5 or more; with
    fewer than 5, [slice(-0)] keeps them all and nothing is summarised,
    so that the compacted history is one message longer than the
    original. *)
Theorem X22_compactContext (contextLimit : float) (now : string)
    (messages : list CostOptimizer.Message) (currentTokens : float) :
  let result := CostOptimizer.compactContext contextLimit now messages currentTokens in
  let n := List.length messages in
  (PrimFloat.ltb currentTokens contextLimit = true -> result = messages)
  /\ (PrimFloat.ltb currentTokens contextLimit = false ->
      exists old recent,
        old ++ recent = messages
        /\ result = summaryMessage now (List.length old) :: recent
        /\ ((n < 5)%nat -> old = [] /\ recent = messages /\ List.length result = S n)
        /\ ((5 <= n)%nat -> Z.of_nat n < 10000 ->
            List.length recent = (n / 5)%nat
            /\ List.length old = (n - n / 5)%nat
            /\ (List.length result < n)%nat)).
Proof.
  cbv zeta. unfold CostOptimizer.compactContext. split.
  - intros ->. reflexivity.
  - intros ->.
    destruct (slice_partition messages (CostOptimizer.keepCount (List.length messages)))
      as (Hold & Hrecent & Hpart).
    exists (JS.slice messages 0 (- CostOptimizer.keepCount (List.length messages))),
           (JS.sliceFrom messages (- CostOptimizer.keepCount (List.length messages))).
    split; [exact Hpart|]. split; [reflexivity|]. split.
    + intros Hsmall. rewrite Hold, Hrecent.
      rewrite (keepCount_quotient (List.length messages)) by lia.
      replace (Z.of_nat (List.length messages) / 5) with 0
        by (symmetry; apply Z.div_small; lia).
      unfold JS.sliceIndex. change (- 0) with 0. change (0 <? 0) with false. cbv iota.
      replace (Z.to_nat (Z.min 0 (Z.of_nat (List.length messages)))) with 0%nat by lia.
      cbn [firstn skipn List.length]. auto.
    + intros Hbig Hbound. cbn [List.length]. rewrite Hold, Hrecent.
      rewrite (keepCount_quotient (List.length messages)) by lia.
      assert (Hq : 1 <= Z.of_nat (List.length messages) / 5 <= Z.of_nat (List.length messages)).
      { split; [apply Z.div_le_lower_bound; lia|].
        apply Z.div_le_upper_bound; lia. }
      assert (Hqnat : Z.of_nat (List.length messages / 5)
                      = Z.of_nat (List.length messages) / 5)
        by (rewrite Nat2Z.inj_div; reflexivity).
      assert (Hfive : (5 * (List.length messages / 5) <= List.length messages)%nat)
        by (apply Nat.Div0.mul_div_le).
      unfold JS.sliceIndex.
      destruct (Z.ltb_spec (- (Z.of_nat (List.length messages) / 5)) 0) as [_|Hge]; [|lia].
      rewrite length_skipn, length_firstn. rewrite <- Hqnat in *.
      generalize dependent (List.length messages / 5)%nat. intros q Hq Hfive. lia.
Qed.

Lemma X22_compactContext_witness :
  CostOptimizer.compactContext 80000 "2026-02-01T09:00:00.000Z" (sampleHistory 3) 90000
  = summaryMessage "2026-02-01T09:00:00.000Z" 0 :: sampleHistory 3
  /\ List.length (CostOptimizer.compactContext 80000 "2026-02-01T09:00:00.000Z"
                    (sampleHistory 12) 90000) = 3%nat.
Proof.
  split.
  - destruct (proj2 (X22_compactContext 80000 "2026-02-01T09:00:00.000Z"
                       (sampleHistory 3) 90000) eq_refl)
      as (old & recent & _ & Hresult & Hsmall & _).
    destruct (Hsmall ltac:(vm_compute; lia)) as (-> & -> & _).
    exact Hresult.
  - destruct (proj2 (X22_compactContext 80000 "2026-02-01T09:00:00.000Z"
                       (sampleHistory 12) 90000) eq_refl)
      as (old & recent & _ & Hresult & _ & Hbig).
    destruct (Hbig ltac:(vm_compute; lia) ltac:(vm_compute; reflexivity)) as (Hrecent & _ & _).
    rewrite Hresult. cbn [List.length]. rewrite Hrecent. reflexivity.
Defined.

Lemma filter_length_le {A : Type} (f : A -> bool) (l : list A) :
  (List.length (List.filter f l) <= List.length l)%nat.
Proof.
  induction l as [|x l IH]; [reflexivity|]. cbn [List.filter].
  destruct (f x); cbn [List.length]; lia.
Qed.

Lemma cacheEnabled_always (configCache : CostOptimizer.CacheSetting) :
  CostOptimizer.cacheEnabled configCache = true.
Proof. destruct configCache as [|[|]]; reflexivity. Qed.

Lemma savings_by_count (n : nat) :
  (n <= 10)%nat ->
  let estimated := PrimFloat.add 0 (PrimFloat.mul (JS.ofZ (Z.of_nat n)) 0.9) in
  PrimFloat.leb 0 estimated = true
  /\ PrimFloat.leb estimated 9 = true
  /\ PrimFloat.ltb 1 estimated = (2 <=? n)%nat
  /\ PrimFloat.eqb estimated 0 = (n =? 0)%nat.
Proof.
  intros Hn. cbv zeta.
  do 11 (destruct n as [|n]; [vm_compute; auto|]). lia.
Qed.

(** X23.  Caching cannot be switched off: [config.cache || true] is
    true whatever [config.cache] is, so [enableCaching] always scans the
    request, and it attaches a cache entry exactly when one of the ten
    cacheable patterns occurs in it, with the patterns that occur as keys
    in table order.  Through the router's cost-aware [selectOptimalModel]
    only the message is scanned; the model it returns is the classifier's;
    the savings estimate is 0.9 per key, between 0 and 9 and above 1 as
    soon as two patterns occur; and [compressed] is reported false even
    when the history was compacted. *)
Theorem X23_caching_and_savings (config : ModelRouter.Config)
    (optimizer : OptimizedRouter.Optimizer) (now message : string)
    (context : OptimizedRouter.RouterContext) (request : CostOptimizer.Request) :
  OptimizedRouter.opt_emergency optimizer = false ->
  let keysOf r := List.filter (CostOptimizer.matchesPattern r) CostOptimizer.cacheablePatterns in
  let cached := CostOptimizer.enableCaching (OptimizedRouter.opt_cache optimizer) request in
  (forall setting, CostOptimizer.enableCaching setting request = cached)
  /\ (keysOf request = [] -> cached = request)
  /\ (keysOf request <> [] ->
      CostOptimizer.req_cache cached
      = Some (CostOptimizer.mkCache true (keysOf request) 3600))
  /\ exists selection,
       fst (OptimizedRouter.selectOptimalModel config (Some optimizer) now message context)
       = OptimizedRouter.Optimized selection
       /\ OptimizedRouter.os_model selection
          = ModelRouter.selectOptimalModelAsync config false message
       /\ let keys := List.filter (JS.includes message) CostOptimizer.cacheablePatterns in
          let savings := OptimizedRouter.os_costSavings selection in
          OptimizedRouter.cs_compressed savings = false
          /\ OptimizedRouter.cs_cache savings = (0 <? List.length keys)%nat
          /\ OptimizedRouter.estimated savings
             = (if (0 <? List.length keys)%nat
                then PrimFloat.add 0 (PrimFloat.mul (JS.ofZ (Z.of_nat (List.length keys))) 0.9)
                else 0%float)
          /\ PrimFloat.leb 0 (OptimizedRouter.estimated savings) = true
          /\ PrimFloat.leb (OptimizedRouter.estimated savings) 9 = true
          /\ PrimFloat.ltb 1 (OptimizedRouter.estimated savings) = (2 <=? List.length keys)%nat.
Proof.
  intros Hoff. cbv zeta.
  assert (Hscan : forall setting r,
             CostOptimizer.enableCaching setting r
             = if (0 <? List.length (List.filter (CostOptimizer.matchesPattern r)
                                                 CostOptimizer.cacheablePatterns))%nat
               then {| CostOptimizer.req_message := CostOptimizer.req_message r;
                       CostOptimizer.req_context := CostOptimizer.req_context r;
                       CostOptimizer.req_model := CostOptimizer.req_model r;
                       CostOptimizer.req_cache :=
                         Some (CostOptimizer.mkCache true
                                 (List.filter (CostOptimizer.matchesPattern r)
                                              CostOptimizer.cacheablePatterns) 3600);
                       CostOptimizer.req_compressed := CostOptimizer.req_compressed r |}
               else r).
  { intros setting r. unfold CostOptimizer.enableCaching.
    rewrite cacheEnabled_always. reflexivity. }
  split_all.
  - intros setting. rewrite !Hscan. reflexivity.
  - intros Hnone. rewrite Hscan, Hnone. reflexivity.
  - intros Hsome. rewrite Hscan.
    destruct (List.filter _ CostOptimizer.cacheablePatterns) as [|key keys] eqn:Hkeys;
      [contradiction|]. reflexivity.
  - unfold OptimizedRouter.selectOptimalModel. rewrite Hoff.
    eexists. split; [cbn [fst]; reflexivity|].
    cbn [OptimizedRouter.os_model OptimizedRouter.os_costSavings].
    split; [reflexivity|].
    rewrite Hscan.
    cbn [CostOptimizer.req_message CostOptimizer.req_context CostOptimizer.req_model
         CostOptimizer.req_compressed].
    assert (Hsame : List.filter
                      (CostOptimizer.matchesPattern
                         {| CostOptimizer.req_message := Some message;
                            CostOptimizer.req_context := CostOptimizer.CtxObject;
                            CostOptimizer.req_model :=
                              ModelRouter.complexity
                                (ModelRouter.analyzeComplexity config message);
                            CostOptimizer.req_cache := None;
                            CostOptimizer.req_compressed := false |})
                      CostOptimizer.cacheablePatterns
                    = List.filter (JS.includes message) CostOptimizer.cacheablePatterns).
    { apply filter_ext. intros pattern. unfold CostOptimizer.matchesPattern.
      cbn [CostOptimizer.req_message CostOptimizer.req_context CostOptimizer.contextIncludes].
      apply orb_false_r. }
    rewrite Hsame.
    pose proof (filter_length_le (JS.includes message) CostOptimizer.cacheablePatterns) as Hle.
    change (List.length CostOptimizer.cacheablePatterns) with 10%nat in Hle.
    set (keys := List.filter (JS.includes message) CostOptimizer.cacheablePatterns) in *.
    destruct (savings_by_count (List.length keys) Hle) as (H0 & H9 & H1 & _).
    cbv zeta in H0, H9, H1.
    destruct (0 <? List.length keys)%nat eqn:Hpos;
      unfold OptimizedRouter.estimateCostSavings;
      cbn [CostOptimizer.req_cache CostOptimizer.req_compressed CostOptimizer.cache_enabled
           CostOptimizer.cache_keys OptimizedRouter.cs_compressed OptimizedRouter.cs_cache
           OptimizedRouter.estimated].
    + split_all; try reflexivity; assumption.
    + apply Nat.ltb_ge in Hpos. replace (List.length keys) with 0%nat by lia.
      split_all; reflexivity.
Qed.

Lemma X23_caching_and_savings_witness :
  exists selection,
    fst (OptimizedRouter.selectOptimalModel sampleConfig
           (Some (OptimizedRouter.mkOptimizer false (CostOptimizer.CacheFlag false) 80000))
           "2026-02-01T09:00:00.000Z" "L1工兵とL2門番のシステムプロンプト"
           (OptimizedRouter.mkRouterContext None None))
    = OptimizedRouter.Optimized selection
    /\ PrimFloat.ltb 1 (OptimizedRouter.estimated (OptimizedRouter.os_costSavings selection))
       = true.
Proof.
  destruct (X23_caching_and_savings sampleConfig
              (OptimizedRouter.mkOptimizer false (CostOptimizer.CacheFlag false) 80000)
              "2026-02-01T09:00:00.000Z" "L1工兵とL2門番のシステムプロンプト"
              (OptimizedRouter.mkRouterContext None None)
              (CostOptimizer.mkRequest None CostOptimizer.CtxAbsent "glm-4.7" None false)
              eq_refl)
    as (_ & _ & _ & selection & Hsel & _ & _ & _ & _ & _ & _ & Hover).
  exists selection. split; [exact Hsel|]. rewrite Hover. vm_compute. reflexivity.
Defined.

(* ===================================================================== *)
(** ** [DeepSeekHandler.chunkData]                                        *)
(* ===================================================================== *)

Section ChunkFacts.

Context {A : Type}.
Variable text : list A.
Variable chunkSize : Z.

Lemma slice_chunk (n : nat) :
  0 < chunkSize ->
  (n < List.length text)%nat ->
  JS.slice text (Z.of_nat n) (Z.of_nat n + chunkSize)
  = firstn (Z.to_nat chunkSize) (skipn n text).
Proof.
  intros Hpos Hn. unfold JS.slice, JS.sliceIndex.
  destruct (Z.ltb_spec (Z.of_nat n) 0) as [?|_]; [lia|].
  destruct (Z.ltb_spec (Z.of_nat n + chunkSize) 0) as [?|_]; [lia|].
  replace (Z.to_nat (Z.min (Z.of_nat n) (Z.of_nat (List.length text)))) with n by lia.
  destruct (Z.le_gt_cases (Z.of_nat n + chunkSize) (Z.of_nat (List.length text))) as [Hin|Hout].
  - f_equal. lia.
  - rewrite !firstn_all2; [reflexivity | rewrite length_skipn; lia | rewrite length_skipn; lia].
Qed.

Lemma chunkLoop_runs (fuel n : nat) (chunks : list (list A)) :
  0 < chunkSize ->
  (List.length text - n < fuel)%nat ->
  exists rest,
    DeepSeekHandler.chunkLoop fuel text chunkSize (Z.of_nat n) chunks = Some (chunks ++ rest)
    /\ concat rest = skipn n text
    /\ Forall (fun chunk => 1 <= Z.of_nat (List.length chunk) <= chunkSize) rest
    /\ Forall (fun chunk => Z.of_nat (List.length chunk) = chunkSize) (removelast rest)
    /\ ((List.length text <= n)%nat -> rest = [])
    /\ Z.of_nat (List.length rest)
       = (Z.of_nat (List.length text - n) + chunkSize - 1) / chunkSize.
Proof.
  intros Hpos. revert n chunks. induction fuel as [|fuel IH]; intros n chunks Hfuel; [lia|].
  cbn [DeepSeekHandler.chunkLoop].
  destruct (Z.ltb_spec (Z.of_nat n) (Z.of_nat (List.length text))) as [Hlt|Hge].
  - assert (Hn : (n < List.length text)%nat) by lia.
    rewrite (slice_chunk n Hpos Hn).
    replace (Z.of_nat n + chunkSize) with (Z.of_nat (n + Z.to_nat chunkSize)) by lia.
    destruct (IH (n + Z.to_nat chunkSize)%nat
                 (chunks ++ [firstn (Z.to_nat chunkSize) (skipn n text)]) ltac:(lia))
      as (rest & Hrun & Hconcat & Hsizes & Hfull & Hempty & Hcount).
    exists (firstn (Z.to_nat chunkSize) (skipn n text) :: rest).
    split; [rewrite Hrun, <- app_assoc; reflexivity|].
    split.
    { cbn [concat]. rewrite Hconcat.
      rewrite Nat.add_comm, <- skipn_skipn. apply firstn_skipn. }
    split.
    { constructor; [|exact Hsizes]. rewrite length_firstn, length_skipn. lia. }
    split.
    { destruct rest as [|chunk rest'] eqn:Hrest; [constructor|].
      change (removelast (firstn (Z.to_nat chunkSize) (skipn n text) :: chunk :: rest'))
        with (firstn (Z.to_nat chunkSize) (skipn n text) :: removelast (chunk :: rest')).
      constructor; [|exact Hfull].
      rewrite length_firstn, length_skipn.
      destruct (Nat.le_gt_cases (List.length text) (n + Z.to_nat chunkSize)) as [Hend|Hmore];
        [specialize (Hempty Hend); discriminate | lia]. }
    split; [intros; lia|].
    cbn [List.length]. rewrite Nat2Z.inj_succ, Hcount.
    destruct (Nat.le_gt_cases (List.length text) (n + Z.to_nat chunkSize)) as [Hend|Hmore].
    + replace (Z.of_nat (List.length text - (n + Z.to_nat chunkSize))) with 0 by lia.
      replace ((0 + chunkSize - 1) / chunkSize) with 0 by (symmetry; apply Z.div_small; lia).
      apply (Z.div_unique _ _ _ (Z.of_nat (List.length text - n) - 1)); lia.
    + replace (Z.of_nat (List.length text - n) + chunkSize - 1)
        with (Z.of_nat (List.length text - (n + Z.to_nat chunkSize)) + chunkSize - 1
              + 1 * chunkSize) by lia.
      rewrite Z.div_add by lia. lia.
  - exists []. rewrite app_nil_r.
    assert (Hdone : (List.length text <= n)%nat) by lia.
    split; [reflexivity|]. split; [rewrite skipn_all2 by lia; reflexivity|].
    split; [constructor|]. split; [constructor|]. split; [reflexivity|].
    replace (Z.of_nat (List.length text - n)) with 0 by lia.
    cbn [List.length]. symmetry. apply Z.div_small. lia.
Qed.

Lemma chunkLoop_never_returns (fuel : nat) (i : Z) (chunks : list (list A)) :
  chunkSize <= 0 ->
  text <> [] ->
  i <= 0 ->
  DeepSeekHandler.chunkLoop fuel text chunkSize i chunks = None.
Proof.
  intros Hneg Htext. revert i chunks. induction fuel as [|fuel IH]; intros i chunks Hi;
    [reflexivity|].
  cbn [DeepSeekHandler.chunkLoop].
  destruct (Z.ltb_spec i (Z.of_nat (List.length text))) as [_|Hge].
  - apply IH. lia.
  - destruct text; [contradiction | cbn [List.length] in Hge; lia].
Qed.

End ChunkFacts.

(** X24.  With a positive chunk size [chunkData] returns, after at most
    one loop test per code unit and one more: the chunks put end to end
    are the text; every chunk is non-empty and no longer than the chunk
    size, and all but the last are exactly that long; there are
    ceil(length / chunkSize) of them, none for the empty text.  With a
    chunk size of 0 or less and a non-empty text the loop never ends. *)
Theorem X24_chunkData {A : Type} (text : list A) (chunkSize : Z) (fuel : nat) :
  (0 < chunkSize ->
   (List.length text < fuel)%nat ->
   exists chunks,
     DeepSeekHandler.chunkData fuel text chunkSize = Some chunks
     /\ concat chunks = text
     /\ Forall (fun chunk => 1 <= Z.of_nat (List.length chunk) <= chunkSize) chunks
     /\ Forall (fun chunk => Z.of_nat (List.length chunk) = chunkSize) (removelast chunks)
     /\ Z.of_nat (List.length chunks)
        = (Z.of_nat (List.length text) + chunkSize - 1) / chunkSize
     /\ (text = [] -> chunks = []))
  /\ (chunkSize <= 0 -> text <> [] ->
      DeepSeekHandler.chunkData fuel text chunkSize = None).
Proof.
  split.
  - intros Hpos Hfuel.
    destruct (chunkLoop_runs text chunkSize fuel 0 [] Hpos ltac:(lia))
      as (chunks & Hrun & Hconcat & Hsizes & Hfull & Hempty & Hcount).
    exists chunks. unfold DeepSeekHandler.chunkData.
    change (Z.of_nat 0) with 0 in Hrun. rewrite Nat.sub_0_r in Hcount.
    split_all; try assumption.
    intros ->. apply Hempty. cbn. lia.
  - intros Hneg Htext. apply chunkLoop_never_returns; [assumption | assumption | lia].
Qed.

Lemma X24_chunkData_witness :
  DeepSeekHandler.chunkData 8 [1; 2; 3; 4; 5; 6; 7] 3 = Some [[1; 2; 3]; [4; 5; 6]; [7]]
  /\ DeepSeekHandler.chunkData 1000 [1; 2; 3] 0 = None.
Proof.
  split.
  - destruct (proj1 (X24_chunkData [1; 2; 3; 4; 5; 6; 7] 3 8) ltac:(lia) ltac:(cbn; lia))
      as (chunks & Hrun & _).
    rewrite Hrun. vm_compute in Hrun. exact (eq_sym Hrun).
  - apply (proj2 (X24_chunkData [1; 2; 3] 0 1000)); [lia | discriminate].
Defined.

(* ===================================================================== *)
(** ** The lightweight agent                                              *)
(* ===================================================================== *)

Lemma quickEmotion_groups (message : string) :
  (JS.testAlternation ["疲れ"; "つかれ"; "だるい"] message = true ->
   JS.testAlternation ["疲れ"; "つかれ"; "眠い"; "だるい"] message = true)
  /\ (JS.testAlternation ["忙しい"; "急い"; "ストレス"] message = true ->
      JS.testAlternation ["忙しい"; "急い"; "ストレス"; "大変"] message = true)
  /\ (JS.testAlternation ["楽しい"; "嬉しい"; "やった"] message = true ->
      JS.testAlternation ["楽しい"; "嬉しい"; "やった"; "最高"] message = true).
Proof.
  unfold JS.testAlternation. cbn [existsb].
  split_all;
    repeat match goal with
           | |- context [JS.includes message ?k] => destruct (JS.includes message k)
           end; cbn; auto.
Qed.

(** X25.  The agent's quick mood detection and the router's
    [detectUserMood] rank the same moods differently.  Whenever the quick
    one says tired the router's says tired too, and whenever the router's
    says neutral so does the quick one; but the quick one tests excited
    before stressed and the router's stressed before excited, so a
    message with a keyword of each that names no tiredness is excited for
    the one and stressed for the other.  The quick one never answers
    focused. *)
Theorem X25_mood_detectors (message : string) :
  let quick := LightweightAgent.quickEmotionAnalysis message in
  let full := ModelRouter.detectUserMood message in
  In quick ["tired"; "excited"; "stressed"; "neutral"]
  /\ In full ["tired"; "stressed"; "excited"; "focused"; "neutral"]
  /\ (quick = "tired" -> full = "tired")
  /\ (full = "neutral" -> quick = "neutral")
  /\ (quick = "stressed" -> full = "stressed" \/ full = "tired")
  /\ (JS.testAlternation ["疲れ"; "つかれ"; "眠い"; "だるい"] message = false ->
      JS.testAlternation ["忙しい"; "急い"; "ストレス"] message = true ->
      JS.testAlternation ["楽しい"; "嬉しい"; "やった"] message = true ->
      quick = "excited" /\ full = "stressed").
Proof.
  cbv zeta.
  destruct (quickEmotion_groups message) as (Htired & Hstressed & Hexcited).
  unfold LightweightAgent.quickEmotionAnalysis, ModelRouter.detectUserMood.
  destruct (JS.testAlternation ["疲れ"; "つかれ"; "だるい"] message) eqn:Hq1;
    destruct (JS.testAlternation ["楽しい"; "嬉しい"; "やった"] message) eqn:Hq2;
    destruct (JS.testAlternation ["忙しい"; "急い"; "ストレス"] message) eqn:Hq3;
    try rewrite (Htired eq_refl); try rewrite (Hstressed eq_refl);
    try rewrite (Hexcited eq_refl);
    destruct (JS.testAlternation ["疲れ"; "つかれ"; "眠い"; "だるい"] message) eqn:Hf1;
    destruct (JS.testAlternation ["忙しい"; "急い"; "ストレス"; "大変"] message) eqn:Hf2;
    destruct (JS.testAlternation ["楽しい"; "嬉しい"; "やった"; "最高"] message) eqn:Hf3;
    destruct (JS.testAlternation ["集中"; "作業"; "仕事"; "タスク"] message) eqn:Hf4;
    try (specialize (Htired eq_refl); discriminate Htired);
    try (specialize (Hstressed eq_refl); discriminate Hstressed);
    try (specialize (Hexcited eq_refl); discriminate Hexcited);
    split_all; try (cbn; auto 10; fail); try discriminate; try reflexivity;
    try (intros; discriminate); auto.
Qed.

Lemma X25_mood_detectors_witness :
  LightweightAgent.quickEmotionAnalysis "忙しいけど楽しい" = "excited"
  /\ ModelRouter.detectUserMood "忙しいけど楽しい" = "stressed".
Proof.
  apply (X25_mood_detectors "忙しいけど楽しい"); vm_compute; reflexivity.
Defined.

Lemma includes_deepseek (t : Tier) :
  JS.includes (modelOf t) "deepseek" = match t with L2 => true | _ => false end
  /\ JS.includes (modelOf t) "glm" = match t with L3 => true | _ => false end.
Proof. destruct t; vm_compute; auto. Qed.

Lemma selectModel_deepseek (g : option Global.EmergencyMode) (message : string) (t : Tier) :
  LightweightRouter.complexity (LightweightRouter.analyzeComplexity message) = modelOf t ->
  LightweightRouter.model (LightweightRouter.selectModel g message)
  = modelOf (if Global.emergencyEnabled g then specEmergencyMap t else t)
  /\ LightweightRouter.emergency (LightweightRouter.selectModel g message)
     = Global.emergencyEnabled g.
Proof.
  intros Hbase. unfold LightweightRouter.selectModel.
  destruct (Global.emergencyEnabled g).
  - unfold LightweightRouter.selectEmergencyModel.
    cbn [LightweightRouter.model LightweightRouter.emergency].
    rewrite Hbase, LR_emergencyMap_tier. auto.
  - cbn [LightweightRouter.model LightweightRouter.emergency]. auto.
Qed.

Lemma processMessage_cases (deepseekHandler : option (Handlers.Result + ApiRetry.JsError))
    (draw : float) (today message : string) (s : LightweightMonitor.State) :
  LightweightAgent.processMessage deepseekHandler draw today message s
  = if String.eqb (LightweightRouter.complexity (LightweightRouter.analyzeComplexity message))
                  "deepseek-v3"
    then match deepseekHandler with
         | Some (inl result) =>
             let s' := LightweightMonitor.trackUsage today
                         (LightweightAgent.costOr (Handlers.cost result))
                         (Handlers.total (Handlers.tokens result)) s in
             if PrimFloat.ltb draw 0.2 then (LightweightAgent.Failed, s')
             else (LightweightAgent.Answered
                     {| LightweightAgent.response := Handlers.content result;
                        LightweightAgent.model := "deepseek-v3";
                        LightweightAgent.emotion :=
                          LightweightAgent.quickEmotionAnalysis message;
                        LightweightAgent.emergency := monitorEmergency s |}, s')
         | _ => (LightweightAgent.Failed, s)
         end
    else (LightweightAgent.Failed, s).
Proof.
  destruct (LR_getComplexityLevel_tier
              (LightweightRouter.totalScore (LightweightRouter.analyzeComplexity message)))
    as [t Ht].
  assert (Hbase : LightweightRouter.complexity (LightweightRouter.analyzeComplexity message)
                  = modelOf t) by exact Ht.
  destruct (selectModel_deepseek (LightweightMonitor.emergencyMode s) message t Hbase)
    as [Hmodel Hflag].
  unfold LightweightAgent.processMessage. rewrite Hmodel, Hflag, Hbase.
  unfold monitorEmergency.
  destruct (includes_deepseek
              (if Global.emergencyEnabled (LightweightMonitor.emergencyMode s)
               then specEmergencyMap t else t)) as [Hds Hglm].
  rewrite Hds, Hglm.
  destruct t, (Global.emergencyEnabled (LightweightMonitor.emergencyMode s));
    cbn [specEmergencyMap modelOf];
    try reflexivity;
    destruct deepseekHandler as [[result|err]|]; reflexivity.
Qed.

(** X26.  The lightweight agent answers only messages that its router
    sends to DeepSeek.  [processMessage] resolves to an answer exactly
    when the classifier says L2, a DeepSeek handler is configured and its
    call returns, and the random draw is 0.2 or more; the answer then
    carries DeepSeek's text, the model [deepseek-v3], the quick mood and
    the emergency flag.  For every other message, also for an L4 or L5
    message downgraded to GLM in emergency mode, it resolves to the error
    object.  Usage is recorded exactly when DeepSeek returned, also when
    the draw below 0.2 then turns the answer into the error object; in
    all other cases the monitor is left as it was. *)
Theorem X26_processMessage (deepseekHandler : option (Handlers.Result + ApiRetry.JsError))
    (draw : float) (today message : string) (s : LightweightMonitor.State) :
  let reply := LightweightAgent.processMessage deepseekHandler draw today message s in
  let base := LightweightRouter.complexity (LightweightRouter.analyzeComplexity message) in
  ((exists answer, fst reply = LightweightAgent.Answered answer)
   <-> base = "deepseek-v3"
       /\ (exists result, deepseekHandler = Some (inl result))
       /\ PrimFloat.ltb draw 0.2 = false)
  /\ (forall answer, fst reply = LightweightAgent.Answered answer ->
        exists result,
          deepseekHandler = Some (inl result)
          /\ answer = {| LightweightAgent.response := Handlers.content result;
                         LightweightAgent.model := "deepseek-v3";
                         LightweightAgent.emotion :=
                           LightweightAgent.quickEmotionAnalysis message;
                         LightweightAgent.emergency := monitorEmergency s |})
  /\ (forall result, base = "deepseek-v3" -> deepseekHandler = Some (inl result) ->
        snd reply
        = LightweightMonitor.trackUsage today (LightweightAgent.costOr (Handlers.cost result))
            (Handlers.total (Handlers.tokens result)) s)
  /\ (base <> "deepseek-v3" -> reply = (LightweightAgent.Failed, s))
  /\ ((forall result, deepseekHandler <> Some (inl result)) ->
      reply = (LightweightAgent.Failed, s)).
Proof.
  cbv zeta. rewrite processMessage_cases.
  destruct (String.eqb_spec
              (LightweightRouter.complexity (LightweightRouter.analyzeComplexity message))
              "deepseek-v3") as [Hbase|Hbase].
  - destruct deepseekHandler as [[result|err]|].
    + destruct (PrimFloat.ltb draw 0.2) eqn:Hdraw; cbn [fst snd].
      * split; [split; [intros [answer Hans]; discriminate Hans
                       | intros (_ & _ & Hd); discriminate Hd]|].
        split; [intros answer Hans; discriminate Hans|].
        split; [intros result' _ [= <-]; reflexivity|].
        split; [intros Hne; contradiction|].
        intros Hnone. exfalso. apply (Hnone result). reflexivity.
      * split; [split; [intros _; split; [exact Hbase|]; split; [eauto | reflexivity]
                       | intros _; eauto]|].
        split; [intros answer [= <-]; exists result; split; reflexivity|].
        split; [intros result' _ [= <-]; reflexivity|].
        split; [intros Hne; contradiction|].
        intros Hnone. exfalso. apply (Hnone result). reflexivity.
    + cbn [fst snd].
      split; [split; [intros [answer Hans]; discriminate Hans
                     | intros (_ & [result Hr] & _); discriminate Hr]|].
      split; [intros answer Hans; discriminate Hans|].
      split; [intros result _ Hr; discriminate Hr|].
      split; reflexivity.
    + cbn [fst snd].
      split; [split; [intros [answer Hans]; discriminate Hans
                     | intros (_ & [result Hr] & _); discriminate Hr]|].
      split; [intros answer Hans; discriminate Hans|].
      split; [intros result _ Hr; discriminate Hr|].
      split; reflexivity.
  - cbn [fst snd].
    split; [split; [intros [answer Hans]; discriminate Hans
                   | intros (Hb & _); contradiction]|].
    split; [intros answer Hans; discriminate Hans|].
    split; [intros result Hb; contradiction|].
    split; reflexivity.
Qed.

Lemma X26_processMessage_witness :
  LightweightAgent.processMessage
    (Some (inl (Handlers.deepseekResult
                  (Handlers.mkChatResponse "done" (Some 12) (Some 30) (Some 42)))))
    0.5 day1 "人生の重要な決断" sampleMonitor
  = (LightweightAgent.Failed, sampleMonitor).
Proof.
  pose proof (X26_processMessage
                (Some (inl (Handlers.deepseekResult
                              (Handlers.mkChatResponse "done" (Some 12) (Some 30) (Some 42)))))
                0.5 day1 "人生の重要な決断" sampleMonitor) as H.
  cbv zeta in H. destruct H as (_ & _ & _ & Hother & _).
  apply Hother. vm_compute. discriminate.
Defined.

(* ===================================================================== *)
(** ** Time of day, mood and the first [selectOptimalModel]               *)
(* ===================================================================== *)

Lemma timeOfDay_night (config : ModelRouter.Config) (message : string) (hour day : Z) :
  ModelRouter.timeOfDay (ModelRouter.analyzeEmotionalContext config message hour day) = "night"
  <-> hour < 6 \/ 22 <= hour.
Proof.
  unfold ModelRouter.analyzeEmotionalContext. cbn [ModelRouter.timeOfDay].
  destruct (Z.leb_spec 6 hour), (Z.ltb_spec hour 12), (Z.leb_spec 12 hour),
    (Z.ltb_spec hour 18), (Z.leb_spec 18 hour), (Z.ltb_spec hour 22);
    cbn [andb]; split; intros Hnight; try discriminate Hnight; try reflexivity; lia.
Qed.

(** X27.  [analyzeEmotionalContext] says night exactly for the hours
    before 6 and from 22 on.  With the emotional adjustment enabled, at
    night or for a message that reads tired, the first
    [selectOptimalModel] never answers [deepseek-v3]: its answer is one
    of the five models, an L2 choice is raised to [glm-4.7], and so is
    the cheap model that cost optimisation prefers for a score below 6.
    The tired reading also shields a message from the stressed branch. *)
Theorem X27_night_or_tired_selection (config : ModelRouter.Config) (message : string)
    (hour day : Z) :
  let analysis := ModelRouter.analyzeComplexity config message in
  let ctx := ModelRouter.analyzeEmotionalContext config message hour day in
  let selection := ModelRouter.selectOptimalModel config analysis ctx in
  (ModelRouter.timeOfDay ctx = "night" <-> hour < 6 \/ 22 <= hour)
  /\ (ModelRouter.emotionalContext_enabled config = true ->
      hour < 6 \/ 22 <= hour \/ ModelRouter.detectUserMood message = "tired" ->
      ModelRouter.model selection <> "deepseek-v3"
      /\ (exists t, ModelRouter.model selection = modelOf t /\ t <> L2)
      /\ (ModelRouter.complexity analysis = "deepseek-v3" ->
          ModelRouter.model selection = "glm-4.7")
      /\ (ModelRouter.costOptimization_enabled config = true ->
          ModelRouter.costOptimization_preferCheapModel config = true ->
          PrimFloat.ltb (ModelRouter.totalScore analysis) 6 = true ->
          ModelRouter.model selection = "glm-4.7")).
Proof.
  cbv zeta. split; [apply timeOfDay_night|].
  intros Hon Hwhen.
  assert (Hgentle : String.eqb (ModelRouter.timeOfDay
                                  (ModelRouter.analyzeEmotionalContext config message hour day))
                               "night"
                    || String.eqb (ModelRouter.userMood
                                     (ModelRouter.analyzeEmotionalContext config message hour day))
                                  "tired" = true).
  { apply orb_true_iff.
    destruct Hwhen as [H|[H|H]].
    - left. apply String.eqb_eq. apply timeOfDay_night. lia.
    - left. apply String.eqb_eq. apply timeOfDay_night. lia.
    - right. apply String.eqb_eq. exact H. }
  unfold ModelRouter.selectOptimalModel. cbn [ModelRouter.model]. rewrite Hon.
  unfold ModelRouter.adjustForEmotion. rewrite Hgentle.
  destruct (MR_getComplexityLevel_tier
              (ModelRouter.totalScore (ModelRouter.analyzeComplexity config message)))
    as [base Hbase].
  assert (Hcomplexity : ModelRouter.complexity (ModelRouter.analyzeComplexity config message)
                        = modelOf base) by exact Hbase.
  rewrite Hcomplexity.
  destruct (ModelRouter.costOptimization_enabled config),
    (ModelRouter.costOptimization_preferCheapModel config),
    (PrimFloat.ltb (ModelRouter.totalScore (ModelRouter.analyzeComplexity config message)) 6);
    cbn [andb];
    try (change (String.eqb "deepseek-v3" "deepseek-v3") with true; cbv iota);
    destruct base; cbn;
    (split; [discriminate|]);
    (split; [first [ exists L1; split; [reflexivity | discriminate]
                   | exists L3; split; [reflexivity | discriminate]
                   | exists L4; split; [reflexivity | discriminate]
                   | exists L5; split; [reflexivity | discriminate] ]|]);
    (split; [intros H; first [reflexivity | discriminate H]|]);
    intros H1 H2 H3; first [reflexivity | discriminate H1 | discriminate H2 | discriminate H3].
Qed.

Lemma X27_night_or_tired_selection_witness :
  ModelRouter.model
    (ModelRouter.selectOptimalModel sampleConfig
       (ModelRouter.analyzeComplexity sampleConfig "メールの返信")
       (ModelRouter.analyzeEmotionalContext sampleConfig "メールの返信" 23 3))
  <> "deepseek-v3".
Proof.
  pose proof (X27_night_or_tired_selection sampleConfig "メールの返信" 23 3) as H.
  cbv zeta in H. destruct H as [_ H].
  destruct (H eq_refl ltac:(lia)) as [Hnot _]. exact Hnot.
Defined.

(* ===================================================================== *)
(** ** Instances                                                          *)
(* ===================================================================== *)

Lemma X4_withRetry_threads_the_world_witness :
  exists n,
    attemptsMade (snd (ApiRetry.withRetry flakyTwice ApiRetry.noOptions 0%nat)) = S n
    /\ flakyTwice (ApiRetry.worldAfter flakyTwice n 0%nat)
       = (inl "ok", snd (fst (ApiRetry.withRetry flakyTwice ApiRetry.noOptions 0%nat))).
Proof.
  apply (proj2 (X4_withRetry_threads_the_world flakyTwice ApiRetry.noOptions 0%nat) "ok").
  vm_compute. reflexivity.
Defined.


Lemma X16_downgraded_flag_witness :
  LightweightRouter.downgraded
    (LightweightRouter.selectModel
       (Some (Global.mkEmergencyMode true ["L1"; "L2"; "L3"])) "人生の重要な決断")
  = true.
Proof.
  pose proof (X16_downgraded_flag sampleConfig
                (Some (Global.mkEmergencyMode true ["L1"; "L2"; "L3"]))
                "人生の重要な決断") as H.
  cbv zeta in H. destruct H as (_ & _ & _ & _ & Hflag).
  apply Hflag. split; [reflexivity|]. right. vm_compute. reflexivity.
Defined.
